(** * dbb_gateway: the ATS ingest agent and its registry functions

    A shallow embedding of [bin.src/dbb_ingest_ats.py] and
    [python/lsst/dbb/gateway/db_funcs.py].

    The program is a sequential Python script working on three pieces of
    state: the file system, one Oracle connection and the wall clock.  They
    are gathered in a record [World]; every Python function that touches one
    of them becomes a computation in a state-and-exception monad [M] over
    that record.  Python dictionaries ([src_info], [bad_info], the digest,
    a FITS header) are finite maps from strings to Python values.

    Part I holds the embedding, Part II the properties, Part III the
    properties on sample data.  [main], which only loops over the result of
    [get_list_tarballs] and makes and removes the scratch directories, and
    the reading of the command line and of the configuration file are left
    out. *)

From Stdlib Require Import ZArith Lia Ascii String.
From stdpp Require Import base option list gmap strings fin_maps sorting.

Local Open Scope Z_scope.

(* ===================================================================== *)
(** * Part I: the embedding                                               *)
(* ===================================================================== *)

(** ** Python strings *)

Module PyStr.

(** [s.startswith(p)], returning the rest of [s] behind the prefix. *)
Fixpoint strip_prefix (p s : string) : option string :=
  match p with
  | EmptyString => Some s
  | String a p' =>
      match s with
      | EmptyString => None
      | String b s' => if decide (a = b) then strip_prefix p' s' else None
      end
  end.

Definition startswith (s p : string) : bool := bool_decide (is_Some (strip_prefix p s)).

(** [s.endswith(suffix)] *)
Definition endswith (s suffix : string) : bool :=
  startswith (String.rev s) (String.rev suffix).

(** [c in s] for a single character [c] *)
Fixpoint contains (c : ascii) (s : string) : bool :=
  match s with
  | EmptyString => false
  | String a s' => if decide (a = c) then true else contains c s'
  end.

(** [s.split(delim)] for a one-character delimiter: never returns the empty
    list, and keeps empty fields. *)
Fixpoint split_go (delim : ascii) (cur : string) (s : string) : list string :=
  match s with
  | EmptyString => [String.rev cur]
  | String a s' =>
      if decide (a = delim) then String.rev cur :: split_go delim EmptyString s'
      else split_go delim (String a cur) s'
  end.

Definition split (delim : ascii) (s : string) : list string :=
  split_go delim EmptyString s.

(** [s.lstrip()], [s.rstrip()], [s.strip()] *)
Fixpoint lstrip (s : string) : string :=
  match s with
  | EmptyString => EmptyString
  | String a s' => if Ascii.is_space a then lstrip s' else s
  end.

Definition rstrip (s : string) : string := String.rev (lstrip (String.rev s)).
Definition strip (s : string) : string := rstrip (lstrip s).

(** The part of a path behind its last slash: [os.path.basename]. *)
Fixpoint basename_go (cur : string) (s : string) : string :=
  match s with
  | EmptyString => String.rev cur
  | String a s' =>
      if decide (a = "/"%char) then basename_go EmptyString s'
      else basename_go (String a cur) s'
  end.

Definition basename (p : string) : string := basename_go EmptyString p.

(** The part of a path before its last slash: [os.path.dirname], for paths
    where a slash is never doubled.  For a name directly under the root the
    result is the empty string where Python gives ["/"]; the paths built by
    the program have a directory part. *)
Fixpoint dirname (p : string) : string :=
  match p with
  | EmptyString => EmptyString
  | String a p' => if contains "/"%char p' then String a (dirname p') else EmptyString
  end.

(** ["%s/%s" % (a, b)] *)
Definition slash (a b : string) : string := a +:+ "/" +:+ b.

(** Decimal digits of a natural number, most significant first, padded with
    zeros to at least [width] digits: the ["%0<width>d"] conversion. *)
Definition digit_char (d : N) : ascii := ascii_of_N (48 + d).

Fixpoint digits_go (fuel : nat) (n : N) (acc : string) : string :=
  match fuel with
  | O => acc
  | S fuel' =>
      let acc' := String (digit_char (n mod 10)) acc in
      if (n / 10 =? 0)%N then acc' else digits_go fuel' (n / 10)%N acc'
  end.

Definition digits (n : N) : string := digits_go (S (N.to_nat (N.log2 n))) n EmptyString.

Fixpoint zeros (k : nat) : string :=
  match k with O => EmptyString | S k' => String "0"%char (zeros k') end.

Definition pad0 (width : nat) (n : N) : string :=
  let d := digits n in
  zeros (width - String.length d)%nat +:+ d.

End PyStr.


(** ** Python values, dictionaries and exceptions *)

(** [datetime.datetime], naive, as its fields. *)
Record datetime := mk_datetime {
  dt_year : Z; dt_month : Z; dt_day : Z;
  dt_hour : Z; dt_minute : Z; dt_second : Z; dt_microsecond : Z
}.

(** The values that travel through [src_info], [bad_info] and the registry's
    bind variables.  [PFromTimestamp t] is [datetime.fromtimestamp(t)], kept
    symbolic: the local time zone is not part of the program. *)
Inductive pyval : Type :=
| PNone
| PStr (s : string)
| PInt (z : Z)
| PDatetime (d : datetime)
| PFromTimestamp (t : Z).

Global Instance datetime_eq_dec : EqDecision datetime.
Proof. solve_decision. Defined.
Global Instance pyval_eq_dec : EqDecision pyval.
Proof. solve_decision. Defined.

(** The exceptions the program raises or meets.  [IOError] is Python 3's
    alias of [OSError]; [FileNotFoundError] and [FileExistsError] are its
    subclasses, so [except IOError] catches the three of them. *)
Inductive exn : Type :=
| IOError (msg : string)
| FileNotFoundError (msg : string)
| FileExistsError (msg : string)
| ValueError (msg : string)
| KeyError (key : string)
| TypeError (msg : string)
| IndexError (msg : string)
| ReadError (msg : string)
| YAMLError (msg : string)
| OverflowError (msg : string)
| StopIteration
| SyntaxError (msg : string).

Global Instance exn_eq_dec : EqDecision exn.
Proof. solve_decision. Defined.

Definition is_IOError (e : exn) : bool :=
  match e with
  | IOError _ | FileNotFoundError _ | FileExistsError _ => true
  | _ => false
  end.

Definition is_SyntaxError (e : exn) : bool :=
  match e with SyntaxError _ => true | _ => false end.

(** [type(err).__name__] *)
Definition exn_name (e : exn) : string :=
  match e with
  | IOError _ => "OSError"
  | FileNotFoundError _ => "FileNotFoundError"
  | FileExistsError _ => "FileExistsError"
  | ValueError _ => "ValueError"
  | KeyError _ => "KeyError"
  | TypeError _ => "TypeError"
  | IndexError _ => "IndexError"
  | ReadError _ => "ReadError"
  | YAMLError _ => "YAMLError"
  | OverflowError _ => "OverflowError"
  | StopIteration => "StopIteration"
  | SyntaxError _ => "SyntaxError"
  end.

(** [str(err)] *)
Definition exn_str (e : exn) : string :=
  match e with
  | IOError m | FileNotFoundError m | FileExistsError m | ValueError m
  | TypeError m | IndexError m | ReadError m | YAMLError m | OverflowError m
  | SyntaxError m => m
  | KeyError k => "'" +:+ k +:+ "'"
  | StopIteration => EmptyString
  end.

Definition not_subscriptable : exn := TypeError "'NoneType' object is not subscriptable".

(** ** The file system *)

(** What a path holds.  A delivery tarball is kept as the list of its
    members (name, bytes); [tarfile] is not modelled below that. *)
Inductive content : Type :=
| Bytes (data : string)
| Tar (members : list (string * string))
| Directory.

Global Instance content_eq_dec : EqDecision content.
Proof. solve_decision. Defined.

Record node := mk_node { n_data : content; n_mtime : Z }.

Global Instance node_eq_dec : EqDecision node.
Proof. solve_decision. Defined.

Definition is_dir (n : node) : bool :=
  match n_data n with Directory => true | _ => false end.

(** [os.path.getsize] *)
Definition content_size (c : content) : Z :=
  match c with
  | Bytes s => Z.of_nat (String.length s)
  | Tar ms => Z.of_nat (foldr (fun m acc => String.length (m.1) + String.length (m.2) + acc)%nat O ms)
  | Directory => 0
  end.

(** ** The registry *)

Record process_row := mk_process {
  p_id : Z; p_name : pyval; p_info_table : string; p_exec_host : pyval;
  p_start_time : pyval; p_root_process_id : Z; p_end_time : option datetime
}.

Record file_registration_row := mk_file_registration {
  fr_process_id : Z; fr_username : pyval; fr_prov_msg : pyval
}.

Record lookup_row := mk_lookup { lk_uuid : pyval; lk_process_id : Z }.

Record dataset_row := mk_dataset {
  ds_id : Z; ds_wgb_process_id : pyval; ds_dataset_type : pyval
}.

Record datastore_row := mk_datastore {
  st_dataset_id : Z; st_filename : pyval; st_relpath : string;
  st_filesize : pyval; st_chksum : pyval; st_chksum_type : pyval
}.

(** The tables the program reads and writes.  A [dbb_bad_file] row is kept
    as the dictionary of its bound columns, since [save_bad_file_db] builds
    its column list from the keys of a dictionary. *)
Record tables := mk_tables {
  t_process : list process_row;
  t_file_registration : list file_registration_row;
  t_file_registration_lookup : list lookup_row;
  t_dataset : list dataset_row;
  t_datastore_dbb : list datastore_row;
  t_dbb_bad_file : list (gmap string pyval)
}.

(** One connection: the committed tables, the tables as the open transaction
    sees them, and the two sequences (which a rollback does not rewind). *)
Record Conn := mk_conn {
  committed : tables;
  pending : tables;
  process_seq : Z;
  dataset_seq : Z
}.

(** ** The world and the monad *)

(** What one [shutil.copy2] call does, read from a script held by the world:
    the copy is faithful, or it completes with other bytes at the destination
    (a silent corruption, which only the checksum can notice), or it raises an
    [IOError] after having written nothing or a partial file. *)
Inductive attempt : Type :=
| Faithful
| Corrupt (data : string)
| Fail (partial : option string).

(** The effects worth observing in order. *)
Inductive event : Type :=
| EvExtract (tarball dir : string)
| EvCopy (src dst : string)
| EvUnlink (path : string)
| EvMove (src dst : string)
| EvSleep (seconds : Z)
| EvInsert (table : string)
| EvUpdate (table : string)
| EvCommit
| EvRollback.

Global Instance event_eq_dec : EqDecision event.
Proof. solve_decision. Defined.

Record World := mk_world {
  fs : gmap string node;
  cwd : string;
  dbh : Conn;
  clock : datetime;
  io_script : list attempt;
  trace : list event
}.

Inductive result (A : Type) : Type :=
| Ok (a : A)
| Raise (e : exn).
Arguments Ok {A} a.
Arguments Raise {A} e.

Definition M (A : Type) : Type := World → result A * World.

Definition ret {A} (a : A) : M A := fun w => (Ok a, w).

Definition bind {A B} (m : M A) (k : A → M B) : M B :=
  fun w => match m w with
           | (Ok a, w') => k a w'
           | (Raise e, w') => (Raise e, w')
           end.

Definition raise {A} (e : exn) : M A := fun w => (Raise e, w).

(** [try: m except <the exceptions selected by catches>: handler] *)
Definition try_except {A} (m : M A) (catches : exn → bool) (handler : exn → M A) : M A :=
  fun w => match m w with
           | (Raise e, w') => if catches e then handler e w' else (Raise e, w')
           | r => r
           end.

Definition get : M World := fun w => (Ok w, w).
Definition modify (f : World → World) : M unit := fun w => (Ok tt, f w).

Notation "x <- m ;; k" := (bind m (fun x => k))
  (at level 100, m at next level, k at level 200, right associativity).
Notation "m ;;; k" := (bind m (fun _ => k))
  (at level 100, k at level 200, right associativity).

(** [d[k]] on a dictionary, and on a variable that may hold [None]. *)
Definition getitem {V} (d : gmap string V) (k : string) : M V :=
  match d !! k with
  | Some v => ret v
  | None => raise (KeyError k)
  end.

Definition getitem_opt {V} (d : option (gmap string V)) (k : string) : M V :=
  match d with
  | Some d' => getitem d' k
  | None => raise not_subscriptable
  end.

Definition set_fs (f : gmap string node → gmap string node) (w : World) : World :=
  mk_world (f (fs w)) (cwd w) (dbh w) (clock w) (io_script w) (trace w).
Definition set_cwd (d : string) (w : World) : World :=
  mk_world (fs w) d (dbh w) (clock w) (io_script w) (trace w).
Definition set_dbh (f : Conn → Conn) (w : World) : World :=
  mk_world (fs w) (cwd w) (f (dbh w)) (clock w) (io_script w) (trace w).
Definition set_io_script (s : list attempt) (w : World) : World :=
  mk_world (fs w) (cwd w) (dbh w) (clock w) s (trace w).
Definition log_event (e : event) (w : World) : World :=
  mk_world (fs w) (cwd w) (dbh w) (clock w) (io_script w) (trace w ++ [e]).

Definition emit (e : event) : M unit := modify (log_event e).

(** ** File-system primitives ([os], [os.path], [shutil], [glob], [tarfile]) *)

(** A relative path is taken from the current directory.  Paths are compared
    as strings: [.], [..] and symbolic links are not resolved. *)
Definition resolve (w : World) (p : string) : string :=
  if PyStr.startswith p "/" then p else PyStr.slash (cwd w) p.

(** The empty path names nothing. *)
Definition lookup_path (p : string) : M (option node) :=
  fun w => (Ok (if decide (p = EmptyString) then None else fs w !! resolve w p), w).

Definition os_path_exists (p : string) : M bool :=
  n <- lookup_path p ;; ret (bool_decide (is_Some n)).

Definition stat (p : string) : M node :=
  n <- lookup_path p ;;
  match n with
  | Some nd => ret nd
  | None => raise (FileNotFoundError p)
  end.

Definition os_path_getmtime (p : string) : M Z := nd <- stat p ;; ret (n_mtime nd).
Definition os_path_getsize (p : string) : M Z := nd <- stat p ;; ret (content_size (n_data nd)).

(** [open(p, "r").read()] *)
Definition read_file (p : string) : M string :=
  nd <- stat p ;;
  match n_data nd with
  | Bytes s => ret s
  | Tar _ => raise (ValueError "not a text file")
  | Directory => raise (IOError "Is a directory")
  end.

Definition os_chdir (d : string) : M unit :=
  w <- get ;; modify (set_cwd (resolve w d)).

(** [os.unlink] and [os.remove]: the same function. *)
Definition os_unlink (p : string) : M unit :=
  nd <- stat p ;;
  if is_dir nd then raise (IOError "Is a directory")
  else
    w <- get ;;
    modify (set_fs (delete (resolve w p))) ;;;
    emit (EvUnlink (resolve w p)).

(** [os.makedirs(d, exist_ok=True)].  Only the leaf is recorded: the
    directories that Python makes above it are not entered in the map, which
    does not ask that the directory of an entry exists.  The statements
    about what a call leaves alone therefore leave out the directories above
    the paths that it works on. *)
Definition os_makedirs (d : string) : M unit :=
  if decide (d = EmptyString) then raise (FileNotFoundError d)
  else
    n <- lookup_path d ;;
    match n with
    | None => w <- get ;; modify (set_fs (<[resolve w d := mk_node Directory 0]>))
    | Some nd => if is_dir nd then ret tt else raise (FileExistsError d)
    end.

(** [shutil.copy2(src, dst)], for a destination that is not a directory and
    not the source: Python copies into a directory and refuses to copy a
    file onto itself.  One call consumes one step of the script. *)
Definition next_attempt : M attempt :=
  fun w => match io_script w with
           | [] => (Ok Faithful, w)
           | a :: rest => (Ok a, set_io_script rest w)
           end.

Definition write_node (p : string) (nd : node) : M unit :=
  w <- get ;; modify (set_fs (<[resolve w p := nd]>)).

Definition shutil_copy2 (src dst : string) : M unit :=
  w <- get ;;
  emit (EvCopy (resolve w src) (resolve w dst)) ;;;
  nd <- stat src ;;
  if is_dir nd then raise (IOError "Is a directory")
  else
    a <- next_attempt ;;
    match a with
    | Faithful => write_node dst nd
    | Corrupt data => write_node dst (mk_node (Bytes data) (n_mtime nd))
    | Fail None => raise (IOError "copy failed")
    | Fail (Some part) =>
        write_node dst (mk_node (Bytes part) (n_mtime nd)) ;;;
        raise (IOError "copy failed")
    end.

(** [shutil.move(src, dst)] onto a path that is not a directory. *)
Definition shutil_move (src dst : string) : M unit :=
  nd <- stat src ;;
  w <- get ;;
  modify (set_fs (fun m => <[resolve w dst := nd]> (delete (resolve w src) m))) ;;;
  emit (EvMove (resolve w src) (resolve w dst)).

(** The names directly inside directory [d]. *)
Definition child_name (d : string) (path : string) : option string :=
  match PyStr.strip_prefix (d +:+ "/") path with
  | Some n => if PyStr.contains "/"%char n || bool_decide (n = EmptyString) then None else Some n
  | None => None
  end.

Definition listdir (m : gmap string node) (d : string) : list (string * node) :=
  omap (fun kv => match child_name d kv.1 with
                  | Some n => Some (n, kv.2)
                  | None => None
                  end) (map_to_list m).

(** [glob.glob("*")]: every name of the current directory that does not
    start with a dot.  The names come in the order of the map, where Python
    gives them in the order of the file system; the statements hold for any
    order of the listing. *)
Definition glob_star : M (list string) :=
  w <- get ;;
  ret (filter (fun n => PyStr.startswith n "." = false) ((listdir (fs w) (cwd w)).*1)).

(** [tarfile.open(t).extractall(outputdir)] *)
Definition extractall (tarball outputdir : string) : M unit :=
  nd <- stat tarball ;;
  match n_data nd with
  | Tar members =>
      w <- get ;;
      modify (set_fs (fun m =>
        foldl (fun acc mem => <[PyStr.slash (resolve w outputdir) mem.1 := mk_node (Bytes mem.2) (n_mtime nd)]> acc)
              m members)) ;;;
      emit (EvExtract (resolve w tarball) (resolve w outputdir))
  | Bytes _ => raise (ReadError "file could not be opened successfully")
  | Directory => raise (IOError "Is a directory")
  end.

(** [time.sleep]: the pause is recorded, and the clock of the model stands
    still; no statement is about the time that a call takes. *)
Definition time_sleep (secs : Z) : M unit := emit (EvSleep secs).
Definition datetime_now : M datetime := w <- get ;; ret (clock w).

(** [datetime.fromtimestamp(v)] *)
Definition datetime_fromtimestamp (v : pyval) : M pyval :=
  match v with
  | PInt t => ret (PFromTimestamp t)
  | _ => raise (TypeError "an integer is required")
  end.

(** ** Registry primitives ([cx_Oracle]) *)

Definition set_pending (f : tables → tables) (c : Conn) : Conn :=
  mk_conn (committed c) (f (pending c)) (process_seq c) (dataset_seq c).

(** [dbh.commit()] and [dbh.rollback()] *)
Definition commit : M unit :=
  modify (set_dbh (fun c => mk_conn (pending c) (pending c) (process_seq c) (dataset_seq c))) ;;;
  emit EvCommit.

Definition rollback : M unit :=
  modify (set_dbh (fun c => mk_conn (committed c) (committed c) (process_seq c) (dataset_seq c))) ;;;
  emit EvRollback.

(** The statements of [db_funcs.py], one per table. *)
Definition insert_process (r : process_row) : M unit :=
  modify (set_dbh (set_pending (fun t =>
    mk_tables (t_process t ++ [r]) (t_file_registration t) (t_file_registration_lookup t)
              (t_dataset t) (t_datastore_dbb t) (t_dbb_bad_file t)))) ;;;
  emit (EvInsert "process").

Definition insert_file_registration (r : file_registration_row) : M unit :=
  modify (set_dbh (set_pending (fun t =>
    mk_tables (t_process t) (t_file_registration t ++ [r]) (t_file_registration_lookup t)
              (t_dataset t) (t_datastore_dbb t) (t_dbb_bad_file t)))) ;;;
  emit (EvInsert "file_registration").

Definition insert_lookup (r : lookup_row) : M unit :=
  modify (set_dbh (set_pending (fun t =>
    mk_tables (t_process t) (t_file_registration t) (t_file_registration_lookup t ++ [r])
              (t_dataset t) (t_datastore_dbb t) (t_dbb_bad_file t)))) ;;;
  emit (EvInsert "file_registration_lookup").

Definition insert_dataset (r : dataset_row) : M unit :=
  modify (set_dbh (set_pending (fun t =>
    mk_tables (t_process t) (t_file_registration t) (t_file_registration_lookup t)
              (t_dataset t ++ [r]) (t_datastore_dbb t) (t_dbb_bad_file t)))) ;;;
  emit (EvInsert "dataset").

Definition insert_datastore (r : datastore_row) : M unit :=
  modify (set_dbh (set_pending (fun t =>
    mk_tables (t_process t) (t_file_registration t) (t_file_registration_lookup t)
              (t_dataset t) (t_datastore_dbb t ++ [r]) (t_dbb_bad_file t)))) ;;;
  emit (EvInsert "datastore_dbb").

Definition add_bad_file (r : gmap string pyval) (t : tables) : tables :=
  mk_tables (t_process t) (t_file_registration t) (t_file_registration_lookup t)
            (t_dataset t) (t_datastore_dbb t) (t_dbb_bad_file t ++ [r]).

Definition insert_bad_file (r : gmap string pyval) : M unit :=
  modify (set_dbh (set_pending (add_bad_file r))) ;;;
  emit (EvInsert "dbb_bad_file").

Definition set_end_time (now : datetime) (id : Z) (r : process_row) : process_row :=
  if decide (p_id r = id)
  then mk_process (p_id r) (p_name r) (p_info_table r) (p_exec_host r)
                  (p_start_time r) (p_root_process_id r) (Some now)
  else r.

Definition update_process_end_time (id : Z) : M unit :=
  now <- datetime_now ;;
  modify (set_dbh (set_pending (fun t =>
    mk_tables (set_end_time now id <$> t_process t) (t_file_registration t)
              (t_file_registration_lookup t)
              (t_dataset t) (t_datastore_dbb t) (t_dbb_bad_file t)))) ;;;
  emit (EvUpdate "process").

(** [select <seq>.nextval from DUAL] *)
Definition process_seq_nextval : M Z :=
  fun w => (Ok (process_seq (dbh w)),
            set_dbh (fun c => mk_conn (committed c) (pending c) (process_seq c + 1) (dataset_seq c)) w).

Definition dataset_seq_nextval : M Z :=
  fun w => (Ok (dataset_seq (dbh w)),
            set_dbh (fun c => mk_conn (committed c) (pending c) (process_seq c) (dataset_seq c + 1)) w).

(** ** [db_funcs.py] *)

Module db_funcs.

Definition save_datastore_info (src_info : gmap string pyval) (relpath : string)
    (dataset_id : Z) : M unit :=
  filename <- getitem src_info "filename" ;;
  filesize <- getitem src_info "filesize" ;;
  chksum <- getitem src_info "chksum" ;;
  chksum_type <- getitem src_info "chksum_type" ;;
  insert_datastore (mk_datastore dataset_id filename relpath filesize chksum chksum_type).

Definition filename_exists_in_dbb (filename : pyval) : M bool :=
  w <- get ;;
  let row := find (fun r => bool_decide (st_filename r = filename))
                  (t_datastore_dbb (pending (dbh w))) in
  ret (bool_decide (is_Some row)).

Definition register_file_data (src_info : gmap string pyval) : M Z :=
  dataset_id <- dataset_seq_nextval ;;
  process_id <- getitem src_info "process_id" ;;
  dataset_type <- getitem src_info "dataset_type" ;;
  insert_dataset (mk_dataset dataset_id process_id dataset_type) ;;;
  ret dataset_id.

Definition save_end_time (process_id : Z) : M unit :=
  update_process_end_time process_id.

(** The loops over [copyvals] are unrolled in their order. *)
Definition save_bad_file_db (bad_info : gmap string pyval)
    (src_info : option (gmap string pyval)) : M unit :=
  data <- match src_info with
          | Some si =>
              filename <- getitem si "filename" ;;
              dataset_type <- getitem si "dataset_type" ;;
              filesize <- getitem si "filesize" ;;
              chksum <- getitem si "chksum" ;;
              chksum_type <- getitem si "chksum_type" ;;
              process_id <- getitem si "process_id" ;;
              ret (<["file_registration_process_id" := process_id]>
                   (<["chksum_type" := chksum_type]>
                   (<["chksum" := chksum]>
                   (<["filesize" := filesize]>
                   (<["dataset_type" := dataset_type]>
                   (<["filename" := filename]> (∅ : gmap string pyval)))))))
          | None => ret (∅ : gmap string pyval)
          end ;;
  uniq_filename <- getitem bad_info "uniq_filename" ;;
  relpath <- getitem bad_info "relpath" ;;
  disk_usage <- getitem bad_info "disk_usage" ;;
  rejected_msg <- getitem bad_info "rejected_msg" ;;
  rejected_date <- getitem bad_info "rejected_date" ;;
  insert_bad_file (<["rejected_date" := rejected_date]>
                   (<["rejected_msg" := rejected_msg]>
                   (<["disk_usage" := disk_usage]>
                   (<["relpath" := relpath]>
                   (<["uniq_filename" := uniq_filename]> data))))) ;;;
  commit.

Definition get_registration_process_id (uuid : pyval) : M (option Z) :=
  w <- get ;;
  let row := find (fun r => bool_decide (lk_uuid r = uuid))
                  (t_file_registration_lookup (pending (dbh w))) in
  ret (lk_process_id <$> row).

Definition create_new_process (info : gmap string pyval) : M Z :=
  process_id <- process_seq_nextval ;;
  name <- getitem info "exec_name" ;;
  exec_host <- getitem info "exec_host" ;;
  timestamp <- getitem info "timestamp" ;;
  start_time <- datetime_fromtimestamp timestamp ;;
  insert_process (mk_process process_id name "file_registration" exec_host start_time
                             process_id None) ;;;
  ret process_id.

Definition save_registration_info (src_info : gmap string pyval) : M Z :=
  process_id <- create_new_process src_info ;;
  username <- getitem src_info "user" ;;
  provmsg <- getitem src_info "prov_msg" ;;
  insert_file_registration (mk_file_registration process_id username provmsg) ;;;
  uuid <- getitem src_info "uuid" ;;
  insert_lookup (mk_lookup uuid process_id) ;;;
  commit ;;;
  ret process_id.

End db_funcs.

(** ** [datetime.strptime], [timedelta] and [strftime]

    The part of the standard library that [get_observing_nite] relies on.
    [strptime] turns the format into a regular expression, one group per
    directive, matches it case-insensitively at the start of the text and
    then refuses text left over.  The matcher below follows the same
    alternatives in the same order. *)

Module Strptime.

Inductive item : Type :=
| DirY | Dirm | Dird | DirH | DirM | DirS | Dirf
| Lit (c : ascii).

(** Reading a format string: [%%] is a literal percent sign. *)
Fixpoint parse_format (fmt : string) : option (list item) :=
  match fmt with
  | EmptyString => Some []
  | String "%" (String d rest) =>
      it ← (match d with
            | "Y" => Some DirY | "m" => Some Dirm | "d" => Some Dird
            | "H" => Some DirH | "M" => Some DirM | "S" => Some DirS
            | "f" => Some Dirf | "%" => Some (Lit "%")
            | _ => None
            end)%char ;
      (it ::.) <$> parse_format rest
  | String "%" EmptyString => None
  | String c rest => (Lit c ::.) <$> parse_format rest
  end.

Definition digit (c : ascii) : option Z := Z.of_nat <$> Ascii.is_nat c.

Definition lower (c : ascii) : ascii :=
  let n := nat_of_ascii c in
  if (65 <=? n)%nat && (n <=? 90)%nat then ascii_of_nat (n + 32) else c.

(** The parses of one or two digits that a group offers, in the order of the
    group's alternatives; each is a value and the text behind it. *)
Definition two (s : string) : option (Z * Z * string) :=
  match s with
  | String a (String b rest) =>
      match digit a, digit b with
      | Some x, Some y => Some (x, y, rest)
      | _, _ => None
      end
  | _ => None
  end.

Definition one (s : string) : option (Z * string) :=
  match s with
  | String a rest => match digit a with Some x => Some (x, rest) | None => None end
  | _ => None
  end.

Definition two_if (ok : Z → Z → bool) (s : string) : list (Z * string) :=
  match two s with
  | Some (x, y, rest) => if ok x y then [(10 * x + y, rest)] else []
  | None => []
  end.

Definition one_if (ok : Z → bool) (s : string) : list (Z * string) :=
  match one s with
  | Some (x, rest) => if ok x then [(x, rest)] else []
  | None => []
  end.

(** [%m]: 1[0-2]|0[1-9]|[1-9] *)
Definition cand_m (s : string) : list (Z * string) :=
  two_if (fun x y => (x =? 1) && (y <=? 2)) s ++
  two_if (fun x y => (x =? 0) && (1 <=? y)) s ++
  one_if (fun x => 1 <=? x) s.

(** [%d]: 3[0-1]|[1-2]\d|0[1-9]|[1-9]| [1-9] *)
Definition cand_d (s : string) : list (Z * string) :=
  two_if (fun x y => (x =? 3) && (y <=? 1)) s ++
  two_if (fun x y => (1 <=? x) && (x <=? 2)) s ++
  two_if (fun x y => (x =? 0) && (1 <=? y)) s ++
  one_if (fun x => 1 <=? x) s ++
  match s with
  | String " " rest => one_if (fun x => 1 <=? x) rest
  | _ => []
  end.

(** [%H]: 2[0-3]|[0-1]\d|\d *)
Definition cand_H (s : string) : list (Z * string) :=
  two_if (fun x y => (x =? 2) && (y <=? 3)) s ++
  two_if (fun x y => x <=? 1) s ++
  one_if (fun _ => true) s.

(** [%M]: [0-5]\d|\d *)
Definition cand_M (s : string) : list (Z * string) :=
  two_if (fun x y => x <=? 5) s ++ one_if (fun _ => true) s.

(** [%S]: 6[0-1]|[0-5]\d|\d *)
Definition cand_S (s : string) : list (Z * string) :=
  two_if (fun x y => (x =? 6) && (y <=? 1)) s ++
  two_if (fun x y => x <=? 5) s ++
  one_if (fun _ => true) s.

(** [%Y]: four digits. *)
Definition cand_Y (s : string) : list (Z * string) :=
  match two s with
  | Some (a, b, rest) =>
      match two rest with
      | Some (c, d, rest') => [(1000 * a + 100 * b + 10 * c + d, rest')]
      | None => []
      end
  | None => []
  end.

(** [%f]: [0-9]{1,6}, longest first; the digits are padded on the right to
    six, so the value is in microseconds. *)
Fixpoint digits_upto (k : nat) (acc : Z) (s : string) : list (Z * nat * string) :=
  match k with
  | O => []
  | S k' =>
      match one s with
      | Some (x, rest) =>
          digits_upto k' (10 * acc + x) rest ++ [(10 * acc + x, k', rest)]
      | None => []
      end
  end.

Definition cand_f (s : string) : list (Z * string) :=
  (fun t => (t.1.1 * 10 ^ Z.of_nat t.1.2, t.2)) <$> digits_upto 6 0 s.

(** The fields collected so far, with [strptime]'s defaults. *)
Definition defaults : datetime := mk_datetime 1900 1 1 0 0 0 0.

Definition store (it : item) (v : Z) (d : datetime) : datetime :=
  match it with
  | DirY => mk_datetime v (dt_month d) (dt_day d) (dt_hour d) (dt_minute d) (dt_second d) (dt_microsecond d)
  | Dirm => mk_datetime (dt_year d) v (dt_day d) (dt_hour d) (dt_minute d) (dt_second d) (dt_microsecond d)
  | Dird => mk_datetime (dt_year d) (dt_month d) v (dt_hour d) (dt_minute d) (dt_second d) (dt_microsecond d)
  | DirH => mk_datetime (dt_year d) (dt_month d) (dt_day d) v (dt_minute d) (dt_second d) (dt_microsecond d)
  | DirM => mk_datetime (dt_year d) (dt_month d) (dt_day d) (dt_hour d) v (dt_second d) (dt_microsecond d)
  | DirS => mk_datetime (dt_year d) (dt_month d) (dt_day d) (dt_hour d) (dt_minute d) v (dt_microsecond d)
  | Dirf => mk_datetime (dt_year d) (dt_month d) (dt_day d) (dt_hour d) (dt_minute d) (dt_second d) v
  | Lit _ => d
  end.

Definition candidates (it : item) (s : string) : list (Z * string) :=
  match it with
  | DirY => cand_Y s
  | Dirm => cand_m s
  | Dird => cand_d s
  | DirH => cand_H s
  | DirM => cand_M s
  | DirS => cand_S s
  | Dirf => cand_f s
  | Lit c =>
      match s with
      | String a rest => if decide (lower a = lower c) then [(0, rest)] else []
      | EmptyString => []
      end
  end.

(** The first alternative, in order, with which [f] succeeds. *)
Fixpoint first_some {A B} (f : A → option B) (cs : list A) : option B :=
  match cs with
  | [] => None
  | c :: cs' =>
      match f c with
      | Some r => Some r
      | None => first_some f cs'
      end
  end.

(** The first match of the whole format, by backtracking over the
    alternatives: the fields and the text left behind the match. *)
Fixpoint first_match (its : list item) (d : datetime) (s : string) : option (datetime * string) :=
  match its with
  | [] => Some (d, s)
  | it :: its' =>
      first_some (fun c => first_match its' (store it c.1 d) c.2) (candidates it s)
  end.

Definition is_leap (y : Z) : bool :=
  ((y mod 4 =? 0) && negb (y mod 100 =? 0)) || (y mod 400 =? 0).

Definition days_in_month (y m : Z) : Z :=
  if m =? 2 then (if is_leap y then 29 else 28)
  else if (m =? 4) || (m =? 6) || (m =? 9) || (m =? 11) then 30
  else 31.

(** What the [datetime] constructor accepts. *)
Definition valid (d : datetime) : bool :=
  (1 <=? dt_year d) && (dt_year d <=? 9999) &&
  (1 <=? dt_month d) && (dt_month d <=? 12) &&
  (1 <=? dt_day d) && (dt_day d <=? days_in_month (dt_year d) (dt_month d)) &&
  (0 <=? dt_hour d) && (dt_hour d <=? 23) &&
  (0 <=? dt_minute d) && (dt_minute d <=? 59) &&
  (0 <=? dt_second d) && (dt_second d <=? 59) &&
  (0 <=? dt_microsecond d) && (dt_microsecond d <=? 999999).

(** [datetime.strptime(text, fmt)] *)
Definition strptime (text fmt : string) : result datetime :=
  match parse_format fmt with
  | None => Raise (ValueError "bad directive in format")
  | Some its =>
      match first_match its defaults text with
      | None => Raise (ValueError "time data does not match format")
      | Some (d, rest) =>
          if negb (bool_decide (rest = EmptyString))
          then Raise (ValueError "unconverted data remains")
          else if valid d then Ok d
          else Raise (ValueError "value out of range")
      end
  end.

(** [d - timedelta(days=1)] *)
Definition minus_one_day (d : datetime) : result datetime :=
  if 1 <? dt_day d then
    Ok (mk_datetime (dt_year d) (dt_month d) (dt_day d - 1)
                    (dt_hour d) (dt_minute d) (dt_second d) (dt_microsecond d))
  else if 1 <? dt_month d then
    Ok (mk_datetime (dt_year d) (dt_month d - 1) (days_in_month (dt_year d) (dt_month d - 1))
                    (dt_hour d) (dt_minute d) (dt_second d) (dt_microsecond d))
  else if 1 <? dt_year d then
    Ok (mk_datetime (dt_year d - 1) 12 31
                    (dt_hour d) (dt_minute d) (dt_second d) (dt_microsecond d))
  else Raise (OverflowError "date value out of range").

(** [d.strftime("%Y%m%d")] *)
Definition strftime_Ymd (d : datetime) : string :=
  PyStr.pad0 4 (Z.to_N (dt_year d)) +:+ PyStr.pad0 2 (Z.to_N (dt_month d))
  +:+ PyStr.pad0 2 (Z.to_N (dt_day d)).

End Strptime.

(** ** Collaborators

    The libraries the script calls and whose code is not part of the
    repository: the checksum utility of [lsst.dbb.gwclient], [yaml], [pyfits]
    and [str.format].  They are functions of the bytes they are given; [None]
    stands for the exception the library raises on input it cannot read. *)

Class Collaborators := {
  (** [chksum_utils.calc_chksum], from the checksum type and the file's content *)
  chksum : string → content → string;
  (** [yaml.load] of an info file *)
  yaml_load : string → option (gmap string pyval);
  (** the header of the primary HDU of [pyfits.open(...)], keys in lower case *)
  pyfits_header : string → option (gmap string pyval);
  (** [pattern.format] applied to the dictionary of values *)
  str_format : string → gmap string pyval → option string
}.

(** The configuration file, read once by [read_config]. *)
Record config := mk_config {
  delivery_dir : string;
  dbb_root_dir : string;
  bad_file_dir : string;
  scratch_root : string;
  dir_patterns : gmap string string
}.

Definition as_str (v : pyval) : M string :=
  match v with
  | PStr s => ret s
  | _ => raise (TypeError "expected str")
  end.

Definition lift {A} (r : result A) : M A := fun w => (r, w).

(** ** [dbb_ingest_ats.py] *)

Definition DEFAULT_MV_TRIES : nat := 5.
Definition DUPLICATE_MSG : string := "Duplicate file".

Section Ingest.

Context `{!Collaborators}.

Definition calc_chksum (name : string) (chksum_type : pyval) : M string :=
  nd <- stat name ;;
  if is_dir nd then raise (IOError "Is a directory")
  else ty <- as_str chksum_type ;; ret (chksum ty (n_data nd)).

Definition get_camera_name (header : gmap string pyval) : M pyval :=
  instrument <- getitem header "instrume" ;;
  match instrument with
  | PStr "Hyper Suprime-Cam" => ret (PStr "HSC")
  | PStr "ATSCAM" => ret (PStr "ATS")
  | PStr i => raise (KeyError i)
  | _ => raise (KeyError "instrume")
  end.

(** The body of the [try] in [get_observing_nite]. *)
Definition nite_try (date_obs : string) : result datetime :=
  match Strptime.strptime date_obs "%Y-%m-%dT%%H:%M:%S.%f" with
  | Ok obs_datetime =>
      if dt_hour obs_datetime <? 14
      then Strptime.minus_one_day obs_datetime
      else Ok obs_datetime
  | Raise e => Raise e
  end.

Definition get_observing_nite (header : gmap string pyval) : M pyval :=
  match header !! "obs-nite" with
  | Some nite => ret nite
  | None =>
      v <- getitem header "date-obs" ;;
      date_obs <- as_str v ;;
      obs_datetime <- match nite_try date_obs with
                      | Raise (ValueError _) => lift (Strptime.strptime date_obs "%Y-%m-%d")
                      | r => lift r
                      end ;;
      ret (PStr (Strptime.strftime_Ymd obs_datetime))
  end.

(** [re.findall("{([^{}]+)}", pattern)], in one pass: [cur] is the text read
    since the last opening brace, if one is open. *)
Fixpoint findall_braces (cur : option string) (s : string) : list string :=
  match s with
  | EmptyString => []
  | String a s' =>
      if decide (a = "{"%char) then findall_braces (Some EmptyString) s'
      else if decide (a = "}"%char) then
        match cur with
        | Some (String c cs) => String.rev (String c cs) :: findall_braces None s'
        | _ => findall_braces None s'
        end
      else findall_braces ((fun c => String a c) <$> cur) s'
  end.

Definition get_path_var_names (pattern : string) : list string :=
  remove_dups ((fun x => default EmptyString (head (PyStr.split ":"%char x)))
               <$> findall_braces None pattern).

(** The loop of [create_rel_path] over the variable names. *)
Fixpoint collect_vals (header : gmap string pyval) (names : list string)
    (vals : gmap string pyval) : M (gmap string pyval) :=
  match names with
  | [] => ret vals
  | name :: rest =>
      v <- (if decide (name = "obsnite") then get_observing_nite header
            else if decide (name = "camera") then get_camera_name header
            else getitem header name) ;;
      collect_vals header rest (<[name := v]> vals)
  end.

Definition create_rel_path (filename pattern : string) : M string :=
  let varnames := get_path_var_names pattern in
  data <- read_file filename ;;
  match pyfits_header data with
  | None => raise (IOError "Empty or corrupt FITS file")
  | Some header =>
      vals <- collect_vals header varnames ∅ ;;
      match str_format pattern vals with
      | Some relpath => ret relpath
      | None => raise (ValueError "format")
      end
  end.

Definition create_dbb_path (cfg : config) (src_info : gmap string pyval)
    : M (string * string) :=
  dataset_type <- getitem src_info "dataset_type" ;;
  dir_pattern <- match dataset_type with
                 | PStr t => getitem (dir_patterns cfg) t
                 | _ => raise (KeyError "dataset_type")
                 end ;;
  fname <- getitem src_info "filename" ;;
  filename <- as_str fname ;;
  dbb_rel_path <- create_rel_path filename dir_pattern ;;
  let dbb_path := PyStr.slash (dbb_root_dir cfg) dbb_rel_path in
  let dbb_fullname := PyStr.slash dbb_path (PyStr.basename filename) in
  ret (dbb_rel_path, dbb_fullname).

(** [move_bad_file] *)
Definition move_bad_file (cfg : config) (tar_filename : string) : M string :=
  today <- datetime_now ;;
  let relpath := PyStr.slash (PyStr.pad0 4 (Z.to_N (dt_year today)))
                             (PyStr.pad0 2 (Z.to_N (dt_month today))) in
  let newpath := PyStr.slash (bad_file_dir cfg) relpath in
  let destbad := PyStr.slash newpath (PyStr.basename tar_filename) in
  ex <- os_path_exists destbad ;;
  (if ex then os_unlink destbad else ret tt) ;;;
  os_makedirs newpath ;;;
  shutil_move tar_filename destbad ;;;
  ret relpath.

(** [handle_bad_file].  [src_info] is [None] until the info file has been
    read.  The arguments of the [logging] calls are evaluated even when the
    message is not printed, so the lookup of ["dataset_type"] is kept. *)
Definition handle_bad_file (cfg : config) (src_info : option (gmap string pyval))
    (msg : string) : M unit :=
  rollback ;;;
  _ <- getitem_opt src_info "dataset_type" ;;
  delivery_date <-
    match src_info with
    | Some si => t <- getitem si "timestamp" ;; datetime_fromtimestamp t
    | None =>
        tf <- getitem_opt src_info "tar_filename" ;;
        tar <- as_str tf ;;
        mtime <- os_path_getmtime tar ;;
        ret (PFromTimestamp mtime)
    end ;;
  tf <- getitem_opt src_info "tar_filename" ;;
  tar_filename <- as_str tf ;;
  let uniq_filename := PStr (PyStr.basename tar_filename) in
  size <- os_path_getsize tar_filename ;;
  now <- datetime_now ;;
  badpath <- move_bad_file cfg tar_filename ;;
  let bad_info : gmap string pyval :=
    <["relpath" := PStr badpath]>
    (<["rejected_msg" := PStr msg]>
    (<["rejected_date" := PDatetime now]>
    (<["disk_usage" := PInt size]>
    (<["uniq_filename" := uniq_filename]>
    (<["delivery_date" := delivery_date]> ∅))))) in
  db_funcs.save_bad_file_db bad_info src_info.

(** One pass of the [while] loop of [move_file_to_dbb]: the [try] body.  It
    returns whether the file now counts as copied. *)
Definition copy_attempt (src : string) (expected_chksum chksum_type : pyval)
    (dst : string) : M bool :=
  os_makedirs (PyStr.dirname dst) ;;;
  shutil_copy2 src dst ;;;
  actual_chksum <- calc_chksum dst chksum_type ;;
  if decide (expected_chksum = PNone) then ret true
  else if decide (expected_chksum ≠ PStr actual_chksum) then
    time_sleep 5 ;;;
    os_unlink dst ;;;
    ret false
  else ret true.

(** The [except IOError] clause of the loop. *)
Definition copy_failed (dst : string) : M bool :=
  time_sleep 5 ;;;
  ex <- os_path_exists dst ;;
  (if ex then os_unlink dst else ret tt) ;;;
  ret false.

(** One pass of the loop: the [try] statement. *)
Definition loop_pass (src : string) (expected_chksum chksum_type : pyval)
    (dst : string) : M bool :=
  try_except (copy_attempt src expected_chksum chksum_type dst)
             is_IOError (fun _ => copy_failed dst).

(** The loop itself, on the number of tries left, [max_tries - cp_cnt + 1]:
    every pass that does not copy adds one to [cp_cnt]. *)
Fixpoint copy_loop (tries_left : nat) (src : string) (expected_chksum chksum_type : pyval)
    (dst : string) : M bool :=
  match tries_left with
  | O => ret false
  | S n =>
      copied <- loop_pass src expected_chksum chksum_type dst ;;
      if copied then ret true
      else copy_loop n src expected_chksum chksum_type dst
  end.

Definition move_file_to_dbb (src : string) (expected_chksum chksum_type : pyval)
    (dst : string) (max_tries : nat) : M unit :=
  copied <- copy_loop max_tries src expected_chksum chksum_type dst ;;
  if negb copied then
    raise (IOError ("Cannot cp file (" +:+ src +:+ "->" +:+ dst +:+ ")"))
  else os_unlink src.

Definition save_file_datastore (cfg : config) (src_info : gmap string pyval)
    (dataset_id : Z) : M string :=
  paths <- create_dbb_path cfg src_info ;;
  let dbb_relpath := paths.1 in
  let dbb_fullname := paths.2 in
  ex <- os_path_exists dbb_fullname ;;
  (if ex then handle_bad_file cfg (Some src_info) "Consistency error.  Already on disk in DBB"
   else ret tt) ;;;
  fname <- getitem src_info "filename" ;;
  src <- as_str fname ;;
  expected <- getitem src_info "chksum" ;;
  chksum_type <- getitem src_info "chksum_type" ;;
  move_file_to_dbb src expected chksum_type dbb_fullname DEFAULT_MV_TRIES ;;;
  db_funcs.save_datastore_info src_info dbb_relpath dataset_id ;;;
  ret dbb_fullname.

Definition read_info_file (info_fname : string) : M (gmap string pyval) :=
  text <- read_file info_fname ;;
  match yaml_load text with
  | Some src_info => ret src_info
  | None => raise (YAMLError "could not load")
  end.

(** A file opened in text mode: ["\r\n"] and a lone ["\r"] are read as
    ["\n"]. *)
Fixpoint universal_newlines (s : string) : string :=
  match s with
  | EmptyString => EmptyString
  | String c s' =>
      if decide (c = "013"%char) then
        String "010"%char
          match s' with
          | String c' s'' =>
              if decide (c' = "010"%char) then universal_newlines s''
              else universal_newlines s'
          | EmptyString => EmptyString
          end
      else String c (universal_newlines s')
  end.

(** [infh.readlines()], the ends of the lines left out. *)
Definition readlines (text : string) : list string :=
  let parts := PyStr.split "010"%char (universal_newlines text) in
  match last parts with
  | Some EmptyString => removelast parts
  | _ => parts
  end.

(** [read_digest], with the default delimiter, a tab. *)
Fixpoint read_digest_lines (lines : list string) (digest : gmap string string)
    : result (gmap string string) :=
  match lines with
  | [] => Ok digest
  | line :: rest =>
      let vals := PyStr.strip <$> PyStr.split "009"%char (PyStr.strip line) in
      match vals with
      | v0 :: v1 :: _ => read_digest_lines rest (<[v1 := v0]> digest)
      | _ => Raise (IndexError "list index out of range")
      end
  end.

Definition read_digest (text : string) : M (gmap string string) :=
  lift (read_digest_lines (readlines text) ∅).

Definition untar2dir (tarfilename outputdir : string) : M unit :=
  extractall tarfilename outputdir.

(** The loop of [get_filenames]: the last file of each kind wins. *)
Fixpoint classify (files : list string) (acc : option string * option string * option string)
    : option string * option string * option string :=
  match files with
  | [] => acc
  | fname :: rest =>
      let '(filename, info_fname, digest_fname) := acc in
      if PyStr.endswith fname ".info" then classify rest (filename, Some fname, digest_fname)
      else if PyStr.endswith fname ".digest" then classify rest (filename, info_fname, Some fname)
      else classify rest (Some fname, info_fname, digest_fname)
  end.

Definition get_filenames : M (option string * option string * option string) :=
  files <- glob_star ;;
  ret (classify files (None, None, None)).

Definition integrity_check (filename expected : string) : M unit :=
  actual <- calc_chksum filename (PStr "md5") ;;
  if decide (expected ≠ actual)
  then raise (ValueError (filename +:+ " chksums (md5) do not match"))
  else ret tt.

(** [digest[k]] where [k] may hold [None], and a path that may hold [None]. *)
Definition digest_get (digest : gmap string string) (k : option string) : M string :=
  match k with
  | Some k' => getitem digest k'
  | None => raise (KeyError "None")
  end.

Definition path_arg (p : option string) : M string :=
  match p with
  | Some p' => ret p'
  | None => raise (TypeError "expected str, bytes or os.PathLike object, not NoneType")
  end.

(** *** [handle_tarball]

    The [try] block is cut where its two locals, [src_info] and
    [dbb_fullname], change, so that the [except] clause sees them as they
    are when the exception is raised. *)

(** Lines 393 to 405: extraction, the three file names, the digest, the two
    integrity checks and the info file. *)
Definition read_bundle (tar_filename scratch_dir : string)
    : M (option string * gmap string string * gmap string pyval) :=
  untar2dir tar_filename scratch_dir ;;;
  os_chdir scratch_dir ;;;
  names <- get_filenames ;;
  let '(filename, info_fname, digest_fname) := names in
  dpath <- path_arg digest_fname ;;
  text <- read_file dpath ;;
  digest <- read_digest text ;;
  expected_info <- digest_get digest info_fname ;;
  ipath <- path_arg info_fname ;;
  integrity_check ipath expected_info ;;;
  expected_file <- digest_get digest filename ;;
  fpath <- path_arg filename ;;
  integrity_check fpath expected_file ;;;
  src_info <- read_info_file ipath ;;
  ret (filename, digest, src_info).

(** Lines 413 to 415: the registration process of the bundle's uuid, looked
    up and, when there is none, created. *)
Definition registration_process (src_info : gmap string pyval) : M Z :=
  uuid <- getitem src_info "uuid" ;;
  found <- db_funcs.get_registration_process_id uuid ;;
  match found with
  | Some process_id => ret process_id
  | None => db_funcs.save_registration_info src_info
  end.

(** Lines 408 to 416: the internal consistency test, then the registration
    process. *)
Definition resolve_process (filename : option string) (digest : gmap string string)
    (src_info : gmap string pyval) : M Z :=
  recorded <- digest_get digest filename ;;
  chk <- getitem src_info "chksum" ;;
  (if decide (PStr recorded ≠ chk)
   then raise (ValueError ("Internal consistency check failed. chksum values do not match for "
                           +:+ default "None" filename))
   else ret tt) ;;;
  registration_process src_info.

(** Lines 419 to 429: the duplicate test and, for a new file name, the
    dataset and the datastore.  The result is the new value of
    [dbb_fullname], and [None] on the duplicate branch. *)
Definition register_and_store (cfg : config) (src_info : gmap string pyval)
    : M (option string) :=
  fname <- getitem src_info "filename" ;;
  dup <- db_funcs.filename_exists_in_dbb fname ;;
  if dup then
    handle_bad_file cfg (Some src_info) DUPLICATE_MSG ;;;
    ret None
  else
    dataset_id <- db_funcs.register_file_data src_info ;;
    dbb_fullname <- save_file_datastore cfg src_info dataset_id ;;
    ret (Some dbb_fullname).

(** Lines 432 to 434. *)
Definition finish (tar_filename : string) (process_id : Z) : M unit :=
  os_unlink tar_filename ;;;
  db_funcs.save_end_time process_id ;;;
  commit.

(** Lines 436 to 453: the two [except] clauses. *)
Definition except_clause (cfg : config) (src_info : option (gmap string pyval))
    (dbb_fullname : option string) (err : exn) : M unit :=
  if is_SyntaxError err then raise err
  else
    rollback ;;;
    match dbb_fullname with
    | Some f => os_unlink f
    | None => ret tt
    end ;;;
    handle_bad_file cfg src_info (exn_name err +:+ ": " +:+ exn_str err).

(** Run [m] inside the [try]: on an exception the [except] clause runs with
    the locals as given, and what it raises leaves the function. *)
Definition guarded {A} (m : M A) (handler : exn → M unit) (k : A → M unit) : M unit :=
  fun w => match m w with
           | (Ok a, w') => k a w'
           | (Raise e, w') => handler e w'
           end.

Definition handle_tarball (tar_filename scratch_dir : string) (cfg : config) : M unit :=
  guarded (os_path_exists tar_filename) (except_clause cfg None None) (fun ex =>
  if negb ex then ret tt
  else
  guarded (read_bundle tar_filename scratch_dir) (except_clause cfg None None) (fun b =>
  let '(filename, digest, info) := b in
  let src_info1 := <["tar_filename" := PStr tar_filename]> info in
  guarded (resolve_process filename digest src_info1)
          (except_clause cfg (Some src_info1) None) (fun process_id =>
  let src_info := <["process_id" := PInt process_id]> src_info1 in
  guarded (register_and_store cfg src_info)
          (except_clause cfg (Some src_info) None) (fun stored =>
  match stored with
  | None => ret tt
  | Some dbb_fullname =>
      guarded (finish tar_filename process_id)
              (except_clause cfg (Some src_info) (Some dbb_fullname)) ret
  end)))).

(** *** [get_list_tarballs] *)

(** [sorted(l, key=...)] on a list already paired with its keys: a stable
    insertion sort. *)
Fixpoint insert_by_key (x : Z * string) (l : list (Z * string)) : list (Z * string) :=
  match l with
  | [] => [x]
  | y :: l' => if y.1 <? x.1 then y :: insert_by_key x l' else x :: y :: l'
  end.

Definition sort_by_key (l : list (Z * string)) : list (Z * string) :=
  foldr insert_by_key [] l.

Fixpoint with_mtimes (paths : list string) : M (list (Z * string)) :=
  match paths with
  | [] => ret []
  | p :: rest =>
      t <- os_path_getmtime p ;;
      keyed <- with_mtimes rest ;;
      ret ((t, p) :: keyed)
  end.

(** [next(os.walk(d))[2]]: the names in [d] that are not directories. *)
Definition walk_filenames (d : string) : M (list string) :=
  nd <- stat d ;;
  if is_dir nd then
    w <- get ;;
    ret ((filter (fun e => is_dir e.2 = false) (listdir (fs w) (resolve w d))).*1)
  else raise StopIteration.

Definition get_list_tarballs (delivery_dir : string) : M (list string) :=
  ex <- os_path_exists delivery_dir ;;
  if negb ex then
    raise (FileNotFoundError ("Delivery directory does not exist: " +:+ delivery_dir))
  else
    filenames <- walk_filenames delivery_dir ;;
    let tarballs := PyStr.slash delivery_dir <$>
                    filter (fun fname => PyStr.endswith fname ".tar" = true) filenames in
    keyed <- with_mtimes tarballs ;;
    ret ((sort_by_key keyed).*2).

End Ingest.

(** ** Sample data

    A stand-in for the collaborators, small enough to run: the checksum of a
    file is its bytes, and the info files, FITS headers and path patterns are
    the few that the samples use. *)

Module Sample.

Definition info_a : gmap string pyval :=
  list_to_map [("uuid", PStr "U1"); ("filename", PStr "x.fits"); ("dataset_type", PStr "raw");
               ("chksum", PStr "FITS-A"); ("chksum_type", PStr "md5"); ("filesize", PInt 6);
               ("timestamp", PInt 1525188600); ("user", PStr "ops");
               ("prov_msg", PStr "night 1"); ("exec_name", PStr "dbb_save_ats_raw.py");
               ("exec_host", PStr "ats-host")].

(** A second delivery of the same file name, under another uuid. *)
Definition info_b : gmap string pyval := <["uuid" := PStr "U2"]> info_a.

(** An info file whose checksum is not the one in the digest. *)
Definition info_c : gmap string pyval := <["chksum" := PStr "FITS-other"]> info_a.

Definition toy : Collaborators := {|
  chksum := fun _ c => match c with Bytes s => s | _ => EmptyString end;
  yaml_load := fun text =>
    if decide (text = "INFO-A") then Some info_a
    else if decide (text = "INFO-B") then Some info_b
    else if decide (text = "INFO-C") then Some info_c
    else None;
  pyfits_header := fun data =>
    if decide (data = "FITS-A")
    then Some (list_to_map [("date-obs", PStr "2018-05-01"); ("instrume", PStr "ATSCAM")])
    else None;
  str_format := fun pattern vals =>
    match vals !! "obsnite" with
    | Some (PStr n) => Some ("raw/" +:+ n)
    | _ => None
    end
|}.

Definition cfg : config :=
  mk_config "/delivery" "/dbb" "/bad" "/scratch" {[ "raw" := "raw/{obsnite}" ]}.

Definition no_tables : tables := mk_tables [] [] [] [] [] [].

Definition now : datetime := mk_datetime 2018 5 2 9 0 0 0.

Definition payload_of_a : node := mk_node (Bytes "FITS-A") 100.

Definition digest_a : string :=
  "INFO-A" +:+ String "009" ("x.fits.info" +:+ String "010" ("FITS-A" +:+ String "009" ("x.fits" +:+ String "010" ""))).

(** The digest of bundle [a] as [read_digest] returns it, and its
    [src_info] when the process is resolved. *)
Definition digest_map_a : gmap string string :=
  list_to_map [("x.fits.info", "INFO-A"); ("x.fits", "FITS-A")].

Definition src_info_a (tar_filename : string) (process_id : Z) : gmap string pyval :=
  <["process_id" := PInt process_id]> (<["tar_filename" := PStr tar_filename]> info_a).

Definition bundle_a : content :=
  Tar [("x.fits", "FITS-A"); ("x.fits.info", "INFO-A"); ("x.fits.digest", digest_a)].

Definition world_a : World :=
  mk_world (list_to_map [("/delivery", mk_node Directory 10);
                         ("/delivery/a.tar", mk_node bundle_a 100)])
           "/" (mk_conn no_tables no_tables 1 1) now [] [].

Definition digest_of (info payload : string) : string :=
  info +:+ String "009" ("x.fits.info" +:+ String "010"
    (payload +:+ String "009" ("x.fits" +:+ String "010" ""))).

Definition bundle_b : content :=
  Tar [("x.fits", "FITS-A"); ("x.fits.info", "INFO-B"); ("x.fits.digest", digest_of "INFO-B" "FITS-A")].

(** A bundle whose payload is not the one its digest was made for. *)
Definition bundle_damaged : content :=
  Tar [("x.fits", "FITS-damaged"); ("x.fits.info", "INFO-A"); ("x.fits.digest", digest_a)].

(** A bundle whose info file and digest disagree on the payload's checksum. *)
Definition bundle_disagree : content :=
  Tar [("x.fits", "FITS-A"); ("x.fits.info", "INFO-C"); ("x.fits.digest", digest_of "INFO-C" "FITS-A")].

(** A bundle with a fourth file, which [glob.glob("*")] does not list. *)
Definition bundle_four : content :=
  Tar [(".provenance", "extra"); ("x.fits", "FITS-A"); ("x.fits.info", "INFO-A");
       ("x.fits.digest", digest_a)].

(** A bundle without an info file. *)
Definition bundle_two : content :=
  Tar [("x.fits", "FITS-A"); ("x.fits.digest", digest_a)].

Definition world_with (bundle : content) : World :=
  mk_world (list_to_map [("/delivery", mk_node Directory 10);
                         ("/delivery/a.tar", mk_node bundle 100)])
           "/" (mk_conn no_tables no_tables 1 1) now [] [].

(** The archive already holds a file where bundle [a] is to go. *)
Definition world_taken : World :=
  mk_world (list_to_map [("/delivery", mk_node Directory 10);
                         ("/delivery/a.tar", mk_node bundle_a 100);
                         ("/dbb/raw/20180501/x.fits", mk_node (Bytes "ARCHIVED") 7)])
           "/" (mk_conn no_tables no_tables 1 1) now [] [].

(** Bundle [a] has been ingested and bundle [b] has arrived. *)
Definition tables_after_a : tables :=
  mk_tables
    [mk_process 1 (PStr "dbb_save_ats_raw.py") "file_registration" (PStr "ats-host")
                (PFromTimestamp 1525188600) 1 (Some now)]
    [mk_file_registration 1 (PStr "ops") (PStr "night 1")]
    [mk_lookup (PStr "U1") 1]
    [mk_dataset 1 (PInt 1) (PStr "raw")]
    [mk_datastore 1 (PStr "x.fits") "raw/20180501" (PInt 6) (PStr "FITS-A") (PStr "md5")]
    [].

Definition world_b : World :=
  mk_world (list_to_map [("/delivery", mk_node Directory 10);
                         ("/delivery/b.tar", mk_node bundle_b 150);
                         ("/dbb/raw/20180501/x.fits", payload_of_a)])
           "/" (mk_conn tables_after_a tables_after_a 2 2) now [] [].

(** A staging directory with two bundles, a text file and a subdirectory. *)
Definition world_scan : World :=
  mk_world (list_to_map [("/delivery", mk_node Directory 10);
                         ("/delivery/a.tar", mk_node bundle_a 100);
                         ("/delivery/b.tar", mk_node bundle_a 50);
                         ("/delivery/notes.txt", mk_node (Bytes "hello") 20);
                         ("/delivery/c.tar.gz", mk_node (Bytes "gz") 30);
                         ("/delivery/old", mk_node Directory 5);
                         ("/delivery/old/z.tar", mk_node bundle_a 1)])
           "/" (mk_conn no_tables no_tables 1 1) now [] [].

(** A scratch directory holding one payload, and a script for the copies. *)
Definition payload : node := mk_node (Bytes "FITS-A") 100.

Definition world_x (script : list attempt) : World :=
  mk_world {[ "/scratch/a1/x.fits" := payload ]}
           "/scratch/a1" (mk_conn no_tables no_tables 1 1) now script [].

End Sample.

(** ** Vocabulary of the statements *)

(** The modification time of the file at [p], as [os.path.getmtime] reads it. *)
Definition mtime_at (w : World) (p : string) : Z :=
  default 0 (n_mtime <$> fs w !! resolve w p).

(** [name] is a file, not a directory, directly inside directory [d]. *)
Definition file_directly_in (w : World) (d name : string) : Prop :=
  name ≠ EmptyString ∧ PyStr.contains "/"%char name = false ∧
  ∃ nd, fs w !! PyStr.slash (resolve w d) name = Some nd ∧ is_dir nd = false.

(** [t] is what is left of [s] behind some of its characters. *)
Inductive suffix : string → string → Prop :=
| suffix_refl s : suffix s s
| suffix_cons a s t : suffix t s → suffix t (String a s).

(** The order of two keyed entries. *)
Definition key_le (a b : Z * string) : Prop := a.1 ≤ b.1.

(** What a copy leaves at the destination, by the step of the script it
    consumed: nothing that counts when the copy raised. *)
Definition landed (a : attempt) (nd : node) : option node :=
  match a with
  | Faithful => Some nd
  | Corrupt data => Some (mk_node (Bytes data) (n_mtime nd))
  | Fail _ => None
  end.

(** The next step of the script. *)
Definition next_step (w : World) : attempt := default Faithful (head (io_script w)).

(** The world behind one [shutil.copy2] of an existing file [nd]. *)
Definition after_copy (src dst : string) (nd : node) (w : World) : World :=
  let w1 := set_io_script (tail (io_script w))
              (log_event (EvCopy (resolve w src) (resolve w dst)) w) in
  match next_step w with
  | Faithful => set_fs (<[resolve w dst := nd]>) w1
  | Corrupt data => set_fs (<[resolve w dst := mk_node (Bytes data) (n_mtime nd)]>) w1
  | Fail (Some part) => set_fs (<[resolve w dst := mk_node (Bytes part) (n_mtime nd)]>) w1
  | Fail None => w1
  end.

(** The number of copies attempted so far. *)
Definition is_copy (e : event) : bool :=
  match e with EvCopy _ _ => true | _ => false end.

Definition copies (t : list event) : nat :=
  length (filter (fun e => is_copy e = true) t).

(** A call of the transfer engine that can run: the source is a file, the
    destination is another path with a directory part, that directory exists
    or can be made, and the destination is not itself a directory. *)
Definition transfer_ready (src dst : string) (nd : node) (w : World) : Prop :=
  src ≠ EmptyString ∧ PyStr.dirname dst ≠ EmptyString ∧
  fs w !! resolve w src = Some nd ∧ is_dir nd = false ∧
  resolve w src ≠ resolve w dst ∧
  (∀ x, fs w !! resolve w (PyStr.dirname dst) = Some x → is_dir x = true) ∧
  (∀ x, fs w !! resolve w dst = Some x → is_dir x = false).

(** The row of [file_registration_lookup] that a query by uuid fetches. *)
Definition lookup_uuid (t : tables) (uuid : pyval) : option lookup_row :=
  find (fun r => bool_decide (lk_uuid r = uuid)) (t_file_registration_lookup t).

(** Where [move_bad_file] puts a rejected tarball: the directory, relative
    to the bad-file root, and the full path. *)
Definition bad_relpath (w : World) : string :=
  PyStr.slash (PyStr.pad0 4 (Z.to_N (dt_year (clock w))))
              (PyStr.pad0 2 (Z.to_N (dt_month (clock w)))).

Definition bad_dest (cfg : config) (w : World) (tar_filename : string) : string :=
  PyStr.slash (PyStr.slash (bad_file_dir cfg) (bad_relpath w)) (PyStr.basename tar_filename).

(** The tarball can be moved to the bad-file area: it exists, it is not
    already there, the directory of the month exists or can be made, and no
    directory sits where the tarball goes. *)
Definition quarantine_ready (cfg : config) (tar_filename : string) (nd : node)
    (w : World) : Prop :=
  tar_filename ≠ EmptyString ∧
  fs w !! resolve w tar_filename = Some nd ∧
  resolve w tar_filename ≠ resolve w (bad_dest cfg w tar_filename) ∧
  (∀ x, fs w !! resolve w (PyStr.slash (bad_file_dir cfg) (bad_relpath w)) = Some x →
        is_dir x = true) ∧
  (∀ x, fs w !! resolve w (bad_dest cfg w tar_filename) = Some x → is_dir x = false).

(** An info dictionary that the quarantine handler can record: it names the
    tarball and the process, and has the fields of the manifest. *)
Definition recordable (si : gmap string pyval) (tar_filename : string) : Prop :=
  si !! "tar_filename" = Some (PStr tar_filename) ∧
  (∃ t, si !! "timestamp" = Some (PInt t)) ∧
  is_Some (si !! "dataset_type") ∧ is_Some (si !! "filename") ∧
  is_Some (si !! "filesize") ∧ is_Some (si !! "chksum") ∧
  is_Some (si !! "chksum_type") ∧ is_Some (si !! "process_id").

(** The row that [save_bad_file_db] binds for a tarball of [size] bytes. *)
Definition field (si : gmap string pyval) (k : string) : pyval := default PNone (si !! k).

Definition bad_file_row (si : gmap string pyval) (tar_filename msg : string) (size : Z)
    (w : World) : gmap string pyval :=
  <["rejected_date" := PDatetime (clock w)]>
  (<["rejected_msg" := PStr msg]>
  (<["disk_usage" := PInt size]>
  (<["relpath" := PStr (bad_relpath w)]>
  (<["uniq_filename" := PStr (PyStr.basename tar_filename)]>
  (<["file_registration_process_id" := field si "process_id"]>
  (<["chksum_type" := field si "chksum_type"]>
  (<["chksum" := field si "chksum"]>
  (<["filesize" := field si "filesize"]>
  (<["dataset_type" := field si "dataset_type"]>
  (<["filename" := field si "filename"]> ∅)))))))))).

(** The world after [dbh.rollback()]. *)
Definition rolled_back (w : World) : World := (rollback w).2.

Section Vocabulary.

Context `{!Collaborators}.

(** The test that ends a pass of the loop with [copied = True]. *)
Definition accepts (expected : pyval) (ty : string) (x : node) : bool :=
  bool_decide (expected = PNone) || bool_decide (expected = PStr (chksum ty (n_data x))).

(** The first of the next [n] steps of a script whose copy is accepted: its
    index and what it left at the destination.  A script that has run out
    copies faithfully. *)
Fixpoint first_accepted (expected : pyval) (ty : string) (nd : node) (n : nat)
    (script : list attempt) : option (nat * node) :=
  match n with
  | O => None
  | S n' =>
      match landed (default Faithful (head script)) nd with
      | Some x =>
          if accepts expected ty x then Some (O, x)
          else prod_map S id <$> first_accepted expected ty nd n' (tail script)
      | None => prod_map S id <$> first_accepted expected ty nd n' (tail script)
      end
  end.

(** The [try] block of [handle_tarball] from the extraction to the return
    of [save_file_datastore] (lines 393 to 429), without its [except]
    clauses: the process id, [src_info] and the new value of [dbb_fullname]. *)
Definition upto_store (tar_filename scratch_dir : string) (cfg : config)
    : M (Z * gmap string pyval * option string) :=
  b <- read_bundle tar_filename scratch_dir ;;
  let '(filename, digest, info) := b in
  let src_info1 := <["tar_filename" := PStr tar_filename]> info in
  process_id <- resolve_process filename digest src_info1 ;;
  let src_info := <["process_id" := PInt process_id]> src_info1 in
  stored <- register_and_store cfg src_info ;;
  ret (process_id, src_info, stored).

(** The three kinds of file that [get_filenames] tells apart. *)
Definition is_info (fname : string) : Prop := PyStr.endswith fname ".info" = true.
Definition is_digest (fname : string) : Prop :=
  PyStr.endswith fname ".info" = false ∧ PyStr.endswith fname ".digest" = true.
Definition is_payload (fname : string) : Prop :=
  PyStr.endswith fname ".info" = false ∧ PyStr.endswith fname ".digest" = false.

End Vocabulary.

(** ** Vocabulary of the further properties *)

Global Instance is_info_dec f : Decision (is_info f).
Proof. unfold is_info. apply _. Defined.
Global Instance is_digest_dec f : Decision (is_digest f).
Proof. unfold is_digest. apply _. Defined.
Global Instance is_payload_dec f : Decision (is_payload f).
Proof. unfold is_payload. apply _. Defined.

(** The names that [glob.glob("*")] can see in the current directory. *)
Definition visible_in_cwd (w : World) (name : string) : Prop :=
  PyStr.startswith name "." = false ∧
  name ≠ EmptyString ∧ PyStr.contains "/"%char name = false ∧
  is_Some (fs w !! PyStr.slash (cwd w) name).

(** The fields of one line of a digest, as [read_digest] cuts them. *)
Definition digest_fields (line : string) : list string :=
  PyStr.strip <$> PyStr.split "009"%char (PyStr.strip line).

(** A line without a tab between two fields. *)
Definition lacks_tab (line : string) : Prop :=
  PyStr.contains "009"%char (PyStr.strip line) = false.

Global Instance lacks_tab_dec line : Decision (lacks_tab line).
Proof. unfold lacks_tab. apply _. Defined.

(** A name without a brace and without a colon. *)
Definition plain_name (name : string) : Prop :=
  PyStr.contains "{"%char name = false ∧ PyStr.contains "}"%char name = false ∧
  PyStr.contains ":"%char name = false.

(** [d] is a directory above [p]: [p] is [d/r] for some [r]. *)
Definition above (d p : string) : Prop := ∃ r, p = PyStr.slash d r.

(** [p] is neither [q] nor a directory above [q]. *)
Definition away_from (p q : string) : Prop := p ≠ q ∧ ¬ above p q.

(** [w'] differs from [w] at most in the files at [paths], the clock, the
    script and the trace: the registry and the current directory are the
    same, and so is every other path. *)
Definition confined (paths : list string) (w w' : World) : Prop :=
  cwd w' = cwd w ∧ dbh w' = dbh w ∧
  ∀ p, p ∉ resolve w <$> paths → fs w' !! p = fs w !! p.

Definition keeps_within {A} (paths : list string) (m : M A) : Prop :=
  ∀ w, confined paths w (m w).2.

(** A call of the transfer engine whose source is not there. *)
Definition source_missing (src dst : string) (w : World) : Prop :=
  src ≠ EmptyString ∧ PyStr.dirname dst ≠ EmptyString ∧
  fs w !! resolve w src = None ∧
  resolve w src ≠ resolve w (PyStr.dirname dst) ∧
  (∀ x, fs w !! resolve w (PyStr.dirname dst) = Some x → is_dir x = true) ∧
  (∀ x, fs w !! resolve w dst = Some x → is_dir x = false).

(** The two lists [copyvals] of [save_bad_file_db]. *)
Definition src_columns : list string :=
  ["filename"; "dataset_type"; "filesize"; "chksum"; "chksum_type"].
Definition bad_columns : list string :=
  ["uniq_filename"; "relpath"; "disk_usage"; "rejected_msg"; "rejected_date"].

(** The query of [filename_exists_in_dbb] on given tables. *)
Definition has_filename (t : tables) (fname : pyval) : bool :=
  bool_decide (is_Some (find (fun r => bool_decide (st_filename r = fname)) (t_datastore_dbb t))).

(** A manifest that the quarantine handler can read but whose process is
    not resolved yet. *)
Definition unresolved (si : gmap string pyval) (tar_filename : string) : Prop :=
  si !! "tar_filename" = Some (PStr tar_filename) ∧
  (∃ t, si !! "timestamp" = Some (PInt t)) ∧
  Forall (fun k => is_Some (si !! k)) src_columns ∧
  si !! "process_id" = None.

(** What a path names, as [os.path.exists] and [os.stat] see it. *)
Definition entry (w : World) (p : string) : option node :=
  if decide (p = EmptyString) then None else fs w !! resolve w p.

(** A computation that leaves the world as it found it. *)
Definition reads_only {A} (m : M A) : Prop := ∀ w, (m w).2 = w.

(** A computation that leaves the files and the current directory alone. *)
Definition leaves_files {A} (m : M A) : Prop :=
  ∀ w, fs (m w).2 = fs w ∧ cwd (m w).2 = cwd w.

(** The [process] table once the end time of process [id] is set at [now]. *)
Definition ended (now : datetime) (id : Z) (rows : list process_row) : list process_row :=
  set_end_time now id <$> rows.

Section FurtherVocabulary.

Context `{!Collaborators}.

(** A step of the script whose copy the loop does not accept. *)
Definition rejected (expected : pyval) (ty : string) (nd : node) (a : attempt) : Prop :=
  match landed a nd with
  | Some x => accepts expected ty x = false
  | None => True
  end.

(** The value that [create_rel_path] gives to one variable of a pattern. *)
Definition path_value (header : gmap string pyval) (name : string) : M pyval :=
  if decide (name = "obsnite") then get_observing_nite header
  else if decide (name = "camera") then get_camera_name header
  else getitem header name.

End FurtherVocabulary.

(* ===================================================================== *)
(** * Part II: properties                                                 *)
(* ===================================================================== *)

(** ** Strings and paths *)

Lemma strip_prefix_spec p s r :
  PyStr.strip_prefix p s = Some r ↔ s = p +:+ r.
Proof.
  revert s. induction p as [|a p IH]; intros s; simpl.
  - split; [intros [= ->]; done | intros ->; done].
  - destruct s as [|b s]; [split; [done | intros [=]] |].
    case_decide as Hab.
    + subst b. rewrite IH. split; [intros ->; done | intros [= ->]; done].
    + split; [done | intros [= ? ?]; done].
Qed.

Lemma append_assoc (a b c : string) : (a +:+ b) +:+ c = a +:+ (b +:+ c).
Proof.
  induction a as [|x a IH]; [done |].
  change (String x ((a +:+ b) +:+ c) = String x (a +:+ (b +:+ c))).
  by rewrite IH.
Qed.

Lemma resolve_slash w d name :
  d ≠ EmptyString → resolve w (PyStr.slash d name) = PyStr.slash (resolve w d) name.
Proof.
  intros Hd. destruct d as [|a d]; [done |].
  unfold resolve, PyStr.slash, PyStr.startswith. simpl.
  case_decide; simpl; [done |].
  by rewrite !append_assoc.
Qed.

Lemma slash_inj d : Inj (=) (=) (PyStr.slash d).
Proof.
  intros a b H. unfold PyStr.slash in H.
  apply (inj (String.app d)) in H. by apply (inj (String.app "/")) in H.
Qed.

Lemma child_name_spec d path n :
  child_name d path = Some n ↔
  path = PyStr.slash d n ∧ PyStr.contains "/"%char n = false ∧ n ≠ EmptyString.
Proof.
  unfold child_name.
  destruct (PyStr.strip_prefix (d +:+ "/") path) as [r|] eqn:Hs.
  - apply strip_prefix_spec in Hs. rewrite append_assoc in Hs.
    destruct (PyStr.contains "/"%char r) eqn:Hc; simpl.
    + split; [done |]. intros (-> & Hn & _).
      apply (slash_inj d) in Hs. congruence.
    + case_bool_decide as He; simpl.
      * split; [done |]. intros (-> & _ & Hn). apply (slash_inj d) in Hs. congruence.
      * split.
        -- intros [= <-]. done.
        -- intros (-> & _ & _). apply (slash_inj d) in Hs. by subst.
  - split; [done |]. intros (-> & _ & _).
    assert (PyStr.strip_prefix (d +:+ "/") (PyStr.slash d n) = Some n) as Hx.
    { apply strip_prefix_spec. unfold PyStr.slash. by rewrite append_assoc. }
    congruence.
Qed.

Lemma elem_of_listdir (m : gmap string node) d n nd :
  (n, nd) ∈ listdir m d ↔
  m !! PyStr.slash d n = Some nd ∧ PyStr.contains "/"%char n = false ∧ n ≠ EmptyString.
Proof.
  unfold listdir. rewrite list_elem_of_omap. split.
  - intros ([k v] & Hin & Hf). simpl in Hf.
    destruct (child_name d k) as [n'|] eqn:Hc; [| done].
    injection Hf as -> ->. apply child_name_spec in Hc as (-> & ? & ?).
    by apply elem_of_map_to_list in Hin.
  - intros (Hm & Hc & Hn). exists (PyStr.slash d n, nd). split.
    + by apply elem_of_map_to_list.
    + simpl. assert (child_name d (PyStr.slash d n) = Some n) as ->; [| done].
      by apply child_name_spec.
Qed.

(** ** The structure of paths *)

Lemma dirname_prefix p : p ≠ EmptyString → ∃ r, r ≠ EmptyString ∧ p = PyStr.dirname p +:+ r.
Proof.
  induction p as [|a p IH]; [done |]. intros _. simpl.
  destruct (PyStr.contains "/"%char p) eqn:Hc.
  - destruct p as [|b p]; [done |].
    destruct IH as (r & Hr & Hp); [done |].
    exists r. split; [done |].
    change (String a (String b p) = String a (PyStr.dirname (String b p) +:+ r)).
    by rewrite <- Hp.
  - exists (String a p). done.
Qed.

Lemma append_length (a b : string) :
  String.length (a +:+ b) = (String.length a + String.length b)%nat.
Proof.
  induction a as [|x a IH]; [done |].
  change (S (String.length (a +:+ b)) = S (String.length a + String.length b)). by rewrite IH.
Qed.

Lemma resolve_dirname_ne w dst :
  PyStr.dirname dst ≠ EmptyString → resolve w (PyStr.dirname dst) ≠ resolve w dst.
Proof.
  intros Hd Heq.
  assert (dst ≠ EmptyString) as Hdst by (by destruct dst).
  destruct (dirname_prefix dst Hdst) as (r & Hr & Hp).
  assert (String.length (resolve w (PyStr.dirname dst)) < String.length (resolve w dst))%nat; [| rewrite Heq in *; lia].
  clear Heq. rewrite Hp at 2.
  destruct (PyStr.dirname dst) as [|a d] eqn:E; [done |].
  unfold resolve, PyStr.startswith. simpl.
  assert (String.length r > 0)%nat by (destruct r; [done | simpl; lia]).
  case_decide; simpl.
  - change (S (String.length d) < S (String.length (d +:+ r)))%nat. rewrite append_length. lia.
  - unfold PyStr.slash. rewrite !append_length. lia.
Qed.

(** ** The monad *)

Lemma bind_ok {A B} (m : M A) (k : A → M B) w a w' :
  m w = (Ok a, w') → bind m k w = k a w'.
Proof. intros H. unfold bind. by rewrite H. Qed.

Lemma bind_raise {A B} (m : M A) (k : A → M B) w e w' :
  m w = (Raise e, w') → bind m k w = (Raise e, w').
Proof. intros H. unfold bind. by rewrite H. Qed.

Lemma getitem_ok {V} (d : gmap string V) k v w :
  d !! k = Some v → getitem d k w = (Ok v, w).
Proof. intros H. unfold getitem. by rewrite H. Qed.

Lemma getitem_missing {V} (d : gmap string V) k w :
  d !! k = None → getitem d k w = (Raise (KeyError k), w).
Proof. intros H. unfold getitem. by rewrite H. Qed.

Lemma bind_assoc_at {A B C} (m : M A) (f : A → M B) (k : B → M C) w :
  bind m (fun x => bind (f x) k) w = bind (bind m f) k w.
Proof. unfold bind. destruct (m w) as [[a | e] w']; done. Qed.

(** ** The delivery scanner *)

Lemma insert_by_key_perm x l : insert_by_key x l ≡ₚ x :: l.
Proof.
  induction l as [|y l IH]; simpl; [done |].
  destruct (y.1 <? x.1); [| done].
  rewrite IH. apply Permutation_swap.
Qed.

Lemma sort_by_key_perm l : sort_by_key l ≡ₚ l.
Proof.
  induction l as [|x l IH]; simpl; [done |].
  unfold sort_by_key in *. simpl. rewrite insert_by_key_perm. by rewrite IH.
Qed.

Lemma insert_by_key_sorted x l :
  StronglySorted key_le l → StronglySorted key_le (insert_by_key x l).
Proof.
  induction 1 as [|y l Hs IH Hall]; simpl.
  - repeat constructor.
  - destruct (Z.ltb_spec (y.1) (x.1)) as [Hlt | Hge].
    + constructor; [done |].
      rewrite insert_by_key_perm. constructor; [unfold key_le; lia | done].
    + constructor; [by constructor |].
      constructor; [done |].
      eapply Forall_impl; [exact Hall |]. unfold key_le. intros z Hz. lia.
Qed.

Lemma sort_by_key_sorted l : StronglySorted key_le (sort_by_key l).
Proof.
  induction l as [|x l IH]; [constructor |].
  unfold sort_by_key in *. simpl. by apply insert_by_key_sorted.
Qed.

Lemma with_mtimes_ok w paths :
  (∀ p, p ∈ paths → p ≠ EmptyString ∧ is_Some (fs w !! resolve w p)) →
  with_mtimes paths w = (Ok ((fun p => (mtime_at w p, p)) <$> paths), w).
Proof.
  induction paths as [|p paths IH]; intros Hex; [done |].
  destruct (Hex p) as [Hne [nd Hnd]]; [left |].
  simpl. unfold bind at 1. unfold os_path_getmtime, stat, lookup_path, bind, ret.
  rewrite decide_False by done. rewrite Hnd. simpl.
  unfold bind in IH. rewrite IH.
  - unfold mtime_at. by rewrite Hnd.
  - intros q Hq. apply Hex. by right.
Qed.

Lemma keyed_snd (f : string → Z) (l : list string) :
  ((fun p => (f p, p)) <$> l).*2 = l.
Proof. induction l as [|x l IH]; [done |]. simpl. f_equal. exact IH. Qed.

Lemma keyed_sorted_snd (f : string → Z) (l : list (Z * string)) :
  (∀ x, x ∈ l → x.1 = f x.2) →
  StronglySorted key_le l →
  StronglySorted (fun p q => f p ≤ f q) (l.*2).
Proof.
  intros Hkey Hs. induction Hs as [|x l Hs IH Hall]; [constructor |].
  simpl. constructor.
  - apply IH. intros y Hy. apply Hkey. by right.
  - rewrite Forall_fmap. rewrite Forall_forall in Hall. apply Forall_forall.
    intros y Hy. simpl. specialize (Hall y Hy). unfold key_le in Hall.
    rewrite <- (Hkey x), <- (Hkey y); [done | by right | by left].
Qed.

(** C9.  When the staging directory exists, [get_list_tarballs] returns,
    changes nothing, and its list holds exactly the paths [delivery_dir/name]
    of the files (directories left out) directly inside the directory whose
    name ends in [.tar]; every other entry is left out without an error.  The
    list is in ascending order of modification time. *)
Theorem get_list_tarballs_spec (w : World) (delivery_dir : string) (nd : node) :
  delivery_dir ≠ EmptyString →
  fs w !! resolve w delivery_dir = Some nd →
  is_dir nd = true →
  ∃ tarballs,
    get_list_tarballs delivery_dir w = (Ok tarballs, w) ∧
    (∀ p, p ∈ tarballs ↔
          ∃ name, p = PyStr.slash delivery_dir name ∧
                  PyStr.endswith name ".tar" = true ∧
                  file_directly_in w delivery_dir name) ∧
    StronglySorted (fun p q => mtime_at w p ≤ mtime_at w q) tarballs.
Proof.
  intros Hne Hnd Hdir.
  set (names := (filter (fun e : string * node => is_dir e.2 = false)
                        (listdir (fs w) (resolve w delivery_dir))).*1).
  set (tars := PyStr.slash delivery_dir <$>
               filter (fun fname => PyStr.endswith fname ".tar" = true) names).
  assert (Hmem : ∀ p, p ∈ tars ↔
            ∃ name, p = PyStr.slash delivery_dir name ∧
                    PyStr.endswith name ".tar" = true ∧
                    file_directly_in w delivery_dir name).
  { intros p. unfold tars, names. rewrite list_elem_of_fmap. split.
    - intros (name & -> & Hin). exists name. split; [done |].
      apply list_elem_of_filter in Hin as [Hend Hin]. split; [done |].
      apply list_elem_of_fmap in Hin as ([n' x] & -> & Hin). simpl.
      apply list_elem_of_filter in Hin as [Hnd' Hin]. simpl in Hnd'.
      apply elem_of_listdir in Hin as (Hm & Hc & Hn).
      split; [done |]. split; [done |]. by exists x.
    - intros (name & -> & Hend & Hn & Hc & x & Hm & Hx). exists name. split; [done |].
      apply list_elem_of_filter. split; [done |].
      apply list_elem_of_fmap. exists (name, x). split; [done |].
      apply list_elem_of_filter. split; [done |].
      by apply elem_of_listdir. }
  assert (Hkeyed : with_mtimes tars w = (Ok ((fun p => (mtime_at w p, p)) <$> tars), w)).
  { apply with_mtimes_ok. intros p Hp. apply Hmem in Hp as (name & -> & _ & _ & _ & x & Hm & _).
    split.
    - unfold PyStr.slash. by destruct delivery_dir.
    - rewrite resolve_slash by done. by exists x. }
  exists ((sort_by_key ((fun p => (mtime_at w p, p)) <$> tars)).*2).
  split; [| split].
  - unfold get_list_tarballs.
    erewrite bind_ok; last first.
    { unfold os_path_exists, lookup_path, bind, ret. rewrite decide_False by done.
      rewrite Hnd. reflexivity. }
    rewrite bool_decide_true by eauto. simpl.
    erewrite bind_ok; last first.
    { unfold walk_filenames, stat, lookup_path, bind, ret, get.
      rewrite decide_False by done. rewrite Hnd. simpl. rewrite Hdir. reflexivity. }
    fold names. fold tars. erewrite bind_ok; [| exact Hkeyed]. reflexivity.
  - intros p. rewrite <- Hmem.
    rewrite sort_by_key_perm. by rewrite keyed_snd.
  - apply keyed_sorted_snd; [| apply sort_by_key_sorted].
    intros x Hx. rewrite sort_by_key_perm in Hx.
    apply list_elem_of_fmap in Hx as (p & -> & _). done.
Qed.

(** ** The transfer engine *)

Lemma resolve_set_fs f w p : resolve (set_fs f w) p = resolve w p.
Proof. done. Qed.
Lemma resolve_set_dbh f w p : resolve (set_dbh f w) p = resolve w p.
Proof. done. Qed.
Lemma resolve_set_io_script s w p : resolve (set_io_script s w) p = resolve w p.
Proof. done. Qed.
Lemma resolve_log_event e w p : resolve (log_event e w) p = resolve w p.
Proof. done. Qed.

Lemma copies_app t e : copies (t ++ [e]) = (copies t + (if is_copy e then 1 else 0))%nat.
Proof.
  unfold copies. rewrite filter_app, length_app. f_equal.
  destruct e; done.
Qed.


Ltac wsimpl :=
  cbn [fs cwd dbh clock io_script trace set_fs set_cwd set_dbh set_io_script log_event];
  rewrite ?resolve_set_fs, ?resolve_set_dbh, ?resolve_set_io_script, ?resolve_log_event.

Lemma stat_ok p w nd :
  p ≠ EmptyString → fs w !! resolve w p = Some nd → stat p w = (Ok nd, w).
Proof.
  intros Hp Hnd. unfold stat, lookup_path, bind, ret.
  rewrite decide_False by done. by rewrite Hnd.
Qed.

Lemma stat_missing p w :
  fs w !! resolve w p = None → stat p w = (Raise (FileNotFoundError p), w).
Proof.
  intros Hnd. unfold stat, lookup_path, bind, ret, raise.
  case_decide; [done |]. by rewrite Hnd.
Qed.

Lemma os_path_exists_spec p w :
  p ≠ EmptyString →
  os_path_exists p w = (Ok (bool_decide (is_Some (fs w !! resolve w p))), w).
Proof.
  intros Hp. unfold os_path_exists, lookup_path, bind, ret. by rewrite decide_False.
Qed.

Lemma os_unlink_ok p w nd :
  p ≠ EmptyString → fs w !! resolve w p = Some nd → is_dir nd = false →
  os_unlink p w =
    (Ok tt, log_event (EvUnlink (resolve w p)) (set_fs (delete (resolve w p)) w)).
Proof.
  intros Hp Hnd Hf. unfold os_unlink.
  erewrite bind_ok by (by apply stat_ok). by rewrite Hf.
Qed.

Lemma os_unlink_missing p w :
  fs w !! resolve w p = None → os_unlink p w = (Raise (FileNotFoundError p), w).
Proof.
  intros Hnd. unfold os_unlink. by erewrite bind_raise by (by apply stat_missing).
Qed.

Lemma copy_failed_spec dst w :
  dst ≠ EmptyString →
  (∀ x, fs w !! resolve w dst = Some x → is_dir x = false) →
  ∃ w', copy_failed dst w = (Ok false, w') ∧
        cwd w' = cwd w ∧ io_script w' = io_script w ∧ dbh w' = dbh w ∧
        copies (trace w') = copies (trace w) ∧
        fs w' = delete (resolve w dst) (fs w).
Proof.
  intros Hd Hfile. unfold copy_failed, time_sleep, emit.
  erewrite bind_ok by reflexivity.
  erewrite bind_ok by (by apply os_path_exists_spec).
  cbn [fs log_event]. rewrite resolve_log_event.
  destruct (fs w !! resolve w dst) as [x|] eqn:Ex.
  - rewrite bool_decide_true by eauto.
    erewrite bind_ok by (eapply os_unlink_ok; [done | exact Ex | by apply Hfile]).
    eexists. split; [reflexivity |]. wsimpl.
    rewrite !copies_app. cbn [is_copy]. repeat split; try done; lia.
  - rewrite bool_decide_false by (intros [? ?]; done).
    eexists. split; [reflexivity |]. wsimpl.
    rewrite copies_app. cbn [is_copy]. rewrite delete_id by done.
    repeat split; try done; lia.
Qed.

Lemma makedirs_ready src dst nd w :
  transfer_ready src dst nd w →
  ∃ w0, os_makedirs (PyStr.dirname dst) w = (Ok tt, w0) ∧
        cwd w0 = cwd w ∧ io_script w0 = io_script w ∧ dbh w0 = dbh w ∧
        trace w0 = trace w ∧
        fs w0 !! resolve w src = Some nd ∧
        fs w0 !! resolve w dst = fs w !! resolve w dst ∧
        (∀ x, fs w0 !! resolve w (PyStr.dirname dst) = Some x → is_dir x = true).
Proof.
  intros (Hs & Hdd & Hsrc & Hfile & Hne & Hpar & Hdst).
  pose proof (resolve_dirname_ne w dst Hdd) as HDD.
  assert (resolve w src ≠ resolve w (PyStr.dirname dst)) as HPD.
  { intros E. rewrite E in Hsrc. apply Hpar in Hsrc. congruence. }
  unfold os_makedirs, lookup_path. rewrite decide_False by done.
  unfold bind at 1. rewrite decide_False by done.
  destruct (fs w !! resolve w (PyStr.dirname dst)) as [pd|] eqn:Epar.
  - rewrite (Hpar pd eq_refl). exists w. rewrite Epar. repeat split; done.
  - eexists. split; [reflexivity |]. wsimpl.
    rewrite !lookup_insert_ne by done. rewrite lookup_insert_eq.
    repeat split; try done. by intros x [= <-].
Qed.


Lemma shutil_copy2_spec src dst nd w :
  src ≠ EmptyString → fs w !! resolve w src = Some nd → is_dir nd = false →
  shutil_copy2 src dst w =
    (match landed (next_step w) nd with
     | Some _ => Ok tt
     | None => Raise (IOError "copy failed")
     end, after_copy src dst nd w).
Proof.
  intros Hs Hsrc Hf. unfold shutil_copy2, emit.
  erewrite bind_ok by reflexivity. erewrite bind_ok by reflexivity.
  erewrite bind_ok by (by apply stat_ok).
  rewrite Hf. unfold after_copy, next_step, bind, next_attempt, write_node.
  destruct w as [f c d k scr t]. cbn [io_script log_event fs cwd dbh clock trace].
  destruct scr as [|[| data | [part|]] rest]; done.
Qed.

Section Transfer.

Context `{!Collaborators}.

Lemma calc_chksum_ok p ty w x :
  p ≠ EmptyString → fs w !! resolve w p = Some x → is_dir x = false →
  calc_chksum p (PStr ty) w = (Ok (chksum ty (n_data x)), w).
Proof.
  intros Hp Hx Hf. unfold calc_chksum.
  erewrite bind_ok by (by apply stat_ok). by rewrite Hf.
Qed.

Lemma loop_pass_spec src expected ty dst nd w :
  transfer_ready src dst nd w →
  ∃ w1,
    loop_pass src expected (PStr ty) dst w =
      (Ok (match landed (next_step w) nd with
           | Some x => accepts expected ty x
           | None => false
           end), w1) ∧
    cwd w1 = cwd w ∧ io_script w1 = tail (io_script w) ∧ dbh w1 = dbh w ∧
    copies (trace w1) = S (copies (trace w)) ∧
    fs w1 !! resolve w src = Some nd ∧
    (∀ x, fs w1 !! resolve w (PyStr.dirname dst) = Some x → is_dir x = true) ∧
    fs w1 !! resolve w dst =
      match landed (next_step w) nd with
      | Some x => if accepts expected ty x then Some x else None
      | None => None
      end.
Proof.
  intros Hready.
  destruct (makedirs_ready _ _ _ _ Hready) as (w0 & Hmk & Hcwd0 & Hscr0 & Hdb0 & Htr0 & Hsrc0 & Hdst0 & Hpar0).
  destruct Hready as (Hs & Hdd & Hsrc & Hfile & Hne & Hpar & Hdst).
  pose proof (resolve_dirname_ne w dst Hdd) as HDD.
  assert (dst ≠ EmptyString) as Hd by (by destruct dst).
  assert (∀ p, resolve w0 p = resolve w p) as Hres.
  { intros p. unfold resolve. by rewrite Hcwd0. }
  assert (next_step w0 = next_step w) as Hnext by (unfold next_step; by rewrite Hscr0).
  unfold loop_pass, try_except, copy_attempt.
  erewrite bind_ok by exact Hmk.
  pose proof (shutil_copy2_spec src dst nd w0 Hs) as Hcp.
  rewrite Hres in Hcp. specialize (Hcp Hsrc0 Hfile). rewrite Hnext in Hcp.
  set (w2 := after_copy src dst nd w0) in *.
  assert (cwd w2 = cwd w ∧ io_script w2 = tail (io_script w) ∧ dbh w2 = dbh w ∧
          copies (trace w2) = S (copies (trace w))) as (Hcwd2 & Hscr2 & Hdb2 & Htr2).
  { unfold w2, after_copy. rewrite Hnext.
    destruct (next_step w) as [| data | [part|]]; wsimpl;
      rewrite copies_app, ?Htr0, ?Hscr0; cbn [is_copy]; repeat split; try done; lia. }
  assert (∀ p, resolve w2 p = resolve w p) as Hres2.
  { intros p. unfold resolve. by rewrite Hcwd2. }
  assert (fs w2 !! resolve w src = Some nd) as Hsrc2.
  { unfold w2, after_copy. rewrite Hnext, !Hres.
    destruct (next_step w) as [| data | [part|]]; wsimpl;
      rewrite ?lookup_insert_ne by done; done. }
  assert (∀ x, fs w2 !! resolve w (PyStr.dirname dst) = Some x → is_dir x = true) as Hpar2.
  { unfold w2, after_copy. rewrite Hnext, !Hres.
    destruct (next_step w) as [| data | [part|]]; wsimpl;
      rewrite ?lookup_insert_ne by done; done. }
  cbv beta.
  destruct (landed (next_step w) nd) as [x|] eqn:Hland.
  - assert (fs w2 !! resolve w dst = Some x ∧ is_dir x = false) as [Hx Hxf].
    { unfold w2, after_copy. rewrite Hnext, !Hres.
      destruct (next_step w) as [| data | [part|]]; simplify_eq/=;
        wsimpl; rewrite lookup_insert_eq; done. }
    erewrite bind_ok by exact Hcp. cbv beta.
    erewrite bind_ok by (apply calc_chksum_ok; [done | by rewrite Hres2 | done]).
    unfold accepts.
    destruct (decide (expected = PNone)) as [-> | HnN].
    { exists w2. rewrite Hx. repeat split; done. }
    rewrite (bool_decide_false (expected = PNone)) by done. cbn [orb].
    destruct (decide (expected ≠ PStr (chksum ty (n_data x)))) as [Hmis | Hmatch].
    + rewrite bool_decide_false by done.
      unfold time_sleep, emit. erewrite bind_ok by reflexivity.
      erewrite bind_ok; last first.
      { eapply os_unlink_ok; [done | | exact Hxf]. wsimpl. by rewrite Hres2. }
      eexists. split; [reflexivity |]. wsimpl. rewrite !Hres2.
      rewrite !copies_app. cbn [is_copy]. rewrite lookup_delete_eq.
      rewrite !lookup_delete_ne by done.
      repeat split; try done; lia.
    + apply dec_stable in Hmatch. rewrite bool_decide_true by done.
      exists w2. rewrite Hx. repeat split; done.
  - erewrite bind_raise by exact Hcp. cbn [is_IOError].
    destruct (copy_failed_spec dst w2 Hd) as (w3 & Hcf & Hcwd3 & Hscr3 & Hdb3 & Htr3 & Hfs3).
    { rewrite Hres2. unfold w2, after_copy. rewrite Hnext, !Hres.
      destruct (next_step w) as [| data | [part|]]; simplify_eq/=; wsimpl.
      - rewrite lookup_insert_eq. by intros x [= <-].
      - rewrite Hdst0. apply Hdst. }
    exists w3. rewrite Hcf, Hfs3, Hres2, lookup_delete_eq, !lookup_delete_ne by done.
    repeat split; try done; congruence.
Qed.

Lemma transfer_ready_cwd src dst nd w w1 :
  cwd w1 = cwd w →
  fs w1 !! resolve w src = Some nd →
  (∀ x, fs w1 !! resolve w (PyStr.dirname dst) = Some x → is_dir x = true) →
  (∀ x, fs w1 !! resolve w dst = Some x → is_dir x = false) →
  transfer_ready src dst nd w → transfer_ready src dst nd w1.
Proof.
  intros Hcwd Hsrc Hpar Hdst (Hs & Hdd & _ & Hfile & Hne & _ & _).
  assert (∀ p, resolve w1 p = resolve w p) as Hres.
  { intros p. unfold resolve. by rewrite Hcwd. }
  unfold transfer_ready. rewrite !Hres. done.
Qed.

Lemma copy_loop_spec src expected ty dst nd n w :
  transfer_ready src dst nd w →
  ∃ w1,
    copy_loop n src expected (PStr ty) dst w =
      (Ok (bool_decide (is_Some (first_accepted expected ty nd n (io_script w)))), w1) ∧
    cwd w1 = cwd w ∧ dbh w1 = dbh w ∧
    fs w1 !! resolve w src = Some nd ∧
    match first_accepted expected ty nd n (io_script w) with
    | Some (k, x) =>
        fs w1 !! resolve w dst = Some x ∧
        copies (trace w1) = (copies (trace w) + S k)%nat ∧
        io_script w1 = drop (S k) (io_script w)
    | None =>
        copies (trace w1) = (copies (trace w) + n)%nat ∧
        (n ≠ O ∨ fs w !! resolve w dst = None → fs w1 !! resolve w dst = None)
    end.
Proof.
  revert w. induction n as [|n IH]; intros w Hready.
  - exists w. cbn [copy_loop first_accepted]. rewrite bool_decide_false by (by intros [? ?]).
    destruct Hready as (_ & _ & Hsrc & _).
    repeat split; try done; try lia. by intros [? | ?].
  - destruct (loop_pass_spec src expected ty dst nd w Hready)
      as (w1 & Hpass & Hcwd & Hscr & Hdb & Htr & Hsrc & Hpar & Hdst).
    cbn [copy_loop first_accepted]. erewrite bind_ok by exact Hpass.
    unfold next_step in *.
    destruct (landed (default Faithful (head (io_script w))) nd) as [x|] eqn:Hland;
      [destruct (accepts expected ty x) eqn:Hacc |].
    + exists w1. rewrite bool_decide_true by eauto.
      repeat split; try done; lia.
    + assert (transfer_ready src dst nd w1) as Hready1.
      { eapply transfer_ready_cwd; try done. by rewrite Hdst. }
      destruct (IH w1 Hready1) as (w2 & Hloop & Hcwd2 & Hdb2 & Hsrc2 & Hrest).
      assert (∀ p, resolve w1 p = resolve w p) as Hres.
      { intros p. unfold resolve. by rewrite Hcwd. }
      rewrite !Hres in *. rewrite Hscr in *.
      exists w2. rewrite Hloop.
      destruct (first_accepted expected ty nd n (tail (io_script w))) as [[k y]|] eqn:Hfa;
        cbn [fmap option_fmap option_map prod_map fst snd id].
      * rewrite !bool_decide_true by eauto. destruct Hrest as (Hy & Hc & Hs).
        repeat split; try congruence; try lia.
        rewrite Hs. by destruct (io_script w).
      * rewrite !bool_decide_false by (by intros [? ?]). destruct Hrest as (Hc & Hnone).
        repeat split; try congruence; try lia. intros _. apply Hnone. by right.
    + assert (transfer_ready src dst nd w1) as Hready1.
      { eapply transfer_ready_cwd; try done. by rewrite Hdst. }
      destruct (IH w1 Hready1) as (w2 & Hloop & Hcwd2 & Hdb2 & Hsrc2 & Hrest).
      assert (∀ p, resolve w1 p = resolve w p) as Hres.
      { intros p. unfold resolve. by rewrite Hcwd. }
      rewrite !Hres in *. rewrite Hscr in *.
      exists w2. rewrite Hloop.
      destruct (first_accepted expected ty nd n (tail (io_script w))) as [[k y]|] eqn:Hfa;
        cbn [fmap option_fmap option_map prod_map fst snd id].
      * rewrite !bool_decide_true by eauto. destruct Hrest as (Hy & Hc & Hs).
        repeat split; try congruence; try lia.
        rewrite Hs. by destruct (io_script w).
      * rewrite !bool_decide_false by (by intros [? ?]). destruct Hrest as (Hc & Hnone).
        repeat split; try congruence; try lia. intros _. apply Hnone. by right.
Qed.

Lemma first_accepted_sound expected ty nd n script k x :
  first_accepted expected ty nd n script = Some (k, x) →
  (k < n)%nat ∧ accepts expected ty x = true.
Proof.
  revert script k. induction n as [|n IH]; intros script k; [done |].
  cbn [first_accepted].
  destruct (landed (default Faithful (head script)) nd) as [y|];
    [destruct (accepts expected ty y) eqn:Hacc |].
  - intros [= <- <-]. split; [lia | done].
  - destruct (first_accepted expected ty nd n (tail script)) as [[k' y']|] eqn:Hfa; [| done].
    intros [= <- <-]. destruct (IH _ _ Hfa). split; [lia | done].
  - destruct (first_accepted expected ty nd n (tail script)) as [[k' y']|] eqn:Hfa; [| done].
    intros [= <- <-]. destruct (IH _ _ Hfa). split; [lia | done].
Qed.

Lemma first_accepted_unchecked ty nd n fails a rest x :
  Forall (fun f => landed f nd = None) fails →
  landed a nd = Some x →
  (length fails < n)%nat →
  first_accepted PNone ty nd n (fails ++ a :: rest) = Some (length fails, x).
Proof.
  intros Hfails Ha. revert n. induction Hfails as [|f fails Hf _ IH]; intros n Hn.
  - destruct n as [|n]; [simpl in Hn; lia |].
    change (first_accepted PNone ty nd (S n) ([] ++ a :: rest)) with
      (match landed a nd with
       | Some y => if accepts PNone ty y then Some (O, y)
                   else prod_map S id <$> first_accepted PNone ty nd n rest
       | None => prod_map S id <$> first_accepted PNone ty nd n rest
       end).
    by rewrite Ha.
  - destruct n as [|n]; [simpl in Hn; lia |].
    change (first_accepted PNone ty nd (S n) ((f :: fails) ++ a :: rest)) with
      (match landed f nd with
       | Some y => if accepts PNone ty y then Some (O, y)
                   else prod_map S id <$> first_accepted PNone ty nd n (fails ++ a :: rest)
       | None => prod_map S id <$> first_accepted PNone ty nd n (fails ++ a :: rest)
       end).
    rewrite Hf. rewrite IH by (simpl in Hn; lia). done.
Qed.

(** What a call of [move_file_to_dbb] comes to, by the first step of the
    script that is accepted within [max_tries] passes. *)
Lemma move_file_to_dbb_outcome src expected ty dst nd max_tries w :
  transfer_ready src dst nd w →
  ∃ w1,
    copy_loop max_tries src expected (PStr ty) dst w =
      (Ok (bool_decide (is_Some (first_accepted expected ty nd max_tries (io_script w)))), w1) ∧
    cwd w1 = cwd w ∧ dbh w1 = dbh w ∧
    fs w1 !! resolve w src = Some nd ∧
    match first_accepted expected ty nd max_tries (io_script w) with
    | Some (k, x) =>
        fs w1 !! resolve w dst = Some x ∧
        copies (trace w1) = (copies (trace w) + S k)%nat ∧
        move_file_to_dbb src expected (PStr ty) dst max_tries w =
          (Ok tt, log_event (EvUnlink (resolve w src))
                    (set_fs (delete (resolve w src)) w1))
    | None =>
        copies (trace w1) = (copies (trace w) + max_tries)%nat ∧
        (max_tries ≠ O ∨ fs w !! resolve w dst = None → fs w1 !! resolve w dst = None) ∧
        move_file_to_dbb src expected (PStr ty) dst max_tries w =
          (Raise (IOError ("Cannot cp file (" +:+ src +:+ "->" +:+ dst +:+ ")")), w1)
    end.
Proof.
  intros Hready.
  destruct (copy_loop_spec src expected ty dst nd max_tries w Hready)
    as (w1 & Hloop & Hcwd & Hdb & Hsrc & Hrest).
  destruct Hready as (Hs & _ & _ & Hfile & _).
  exists w1. split; [done |]. split; [done |]. split; [done |]. split; [done |].
  unfold move_file_to_dbb. erewrite bind_ok by exact Hloop.
  destruct (first_accepted expected ty nd max_tries (io_script w)) as [[k x]|].
  - destruct Hrest as (Hx & Hc & _). rewrite bool_decide_true by eauto. cbn [negb].
    split; [done |]. split; [done |].
    assert (resolve w1 src = resolve w src) as Hres by (unfold resolve; by rewrite Hcwd).
    rewrite <- Hres. apply (os_unlink_ok src w1 nd); [done | by rewrite Hres | done].
  - destruct Hrest as (Hc & Hnone). rewrite bool_decide_false by (by intros [? ?]).
    done.
Qed.

(** C3, as amended.  Let [move_file_to_dbb] be called with an expected
    checksum [c] on a source file, towards another path.  Either the loop
    ends with a copy at the destination whose checksum is [c], the source
    still being there, after at most [max_tries] copies, and the move then
    does nothing but unlink the source; or all [max_tries] passes fail, an
    [IOError] is raised, the source is as it was and no file is left at the
    destination.  A pass that does not copy leaves no file at the destination
    for the next pass. *)
Theorem move_file_to_dbb_verified src c ty dst nd max_tries w :
  transfer_ready src dst nd w →
  (∀ w1, loop_pass src (PStr c) (PStr ty) dst w = (Ok false, w1) →
         fs w1 !! resolve w dst = None ∧ fs w1 !! resolve w src = Some nd) ∧
  ((∃ w1 x,
      copy_loop max_tries src (PStr c) (PStr ty) dst w = (Ok true, w1) ∧
      fs w1 !! resolve w src = Some nd ∧
      fs w1 !! resolve w dst = Some x ∧ chksum ty (n_data x) = c ∧
      (copies (trace w1) ≤ copies (trace w) + max_tries)%nat ∧
      move_file_to_dbb src (PStr c) (PStr ty) dst max_tries w =
        (Ok tt, log_event (EvUnlink (resolve w src))
                  (set_fs (delete (resolve w src)) w1)))
   ∨
   (∃ w1 msg,
      move_file_to_dbb src (PStr c) (PStr ty) dst max_tries w = (Raise (IOError msg), w1) ∧
      fs w1 !! resolve w src = Some nd ∧
      copies (trace w1) = (copies (trace w) + max_tries)%nat ∧
      (max_tries ≠ O → fs w1 !! resolve w dst = None))).
Proof.
  intros Hready. split.
  - intros w1 Hpass.
    destruct (loop_pass_spec src (PStr c) ty dst nd w Hready)
      as (w1' & Hpass' & _ & _ & _ & _ & Hsrc & _ & Hdst).
    rewrite Hpass in Hpass'. injection Hpass' as Hb <-.
    destruct (landed (next_step w) nd) as [x|]; [| done].
    rewrite <- Hb in Hdst. done.
  - destruct (move_file_to_dbb_outcome src (PStr c) ty dst nd max_tries w Hready)
      as (w1 & Hloop & _ & _ & Hsrc & Hrest).
    destruct (first_accepted (PStr c) ty nd max_tries (io_script w)) as [[k x]|] eqn:Hfa.
    + left. exists w1, x. destruct Hrest as (Hx & Hc & Hmove).
      apply first_accepted_sound in Hfa as [Hk Hacc].
      rewrite bool_decide_true in Hloop by eauto.
      unfold accepts in Hacc. rewrite bool_decide_false in Hacc by done.
      cbn [orb] in Hacc. apply bool_decide_eq_true in Hacc. injection Hacc as ->.
      repeat split; try done. lia.
    + right. destruct Hrest as (Hc & Hnone & Hmove). eexists w1, _.
      repeat split; try done. intros Hn. apply Hnone. by left.
Qed.

(** C10.  When [move_file_to_dbb] is called with [None] for the expected
    checksum, the first copy that raises no [IOError] ends the loop, whatever
    bytes it left at the destination, and the source is then unlinked: with a
    script of failing copies followed by a copy that completes, within
    [max_tries], the call returns, the destination holds what that copy
    wrote, the source is gone, and one copy was attempted per step. *)
Theorem move_file_to_dbb_unchecked src ty dst nd max_tries w fails a rest x :
  transfer_ready src dst nd w →
  io_script w = fails ++ a :: rest →
  Forall (fun f => landed f nd = None) fails →
  landed a nd = Some x →
  (length fails < max_tries)%nat →
  ∃ w1 w',
    copy_loop max_tries src PNone (PStr ty) dst w = (Ok true, w1) ∧
    fs w1 !! resolve w dst = Some x ∧
    copies (trace w1) = (copies (trace w) + S (length fails))%nat ∧
    move_file_to_dbb src PNone (PStr ty) dst max_tries w = (Ok tt, w') ∧
    trace w' = trace w1 ++ [EvUnlink (resolve w src)] ∧
    fs w' !! resolve w src = None ∧
    fs w' !! resolve w dst = Some x.
Proof.
  intros Hready Hscr Hfails Ha Hlen.
  destruct (move_file_to_dbb_outcome src PNone ty dst nd max_tries w Hready)
    as (w1 & Hloop & _ & _ & Hsrc & Hrest).
  rewrite Hscr in Hloop, Hrest.
  rewrite (first_accepted_unchecked ty nd max_tries fails a rest x) in Hloop, Hrest by done.
  destruct Hrest as (Hx & Hc & Hmove).
  rewrite bool_decide_true in Hloop by eauto.
  destruct Hready as (_ & _ & _ & _ & Hne & _).
  eexists w1, _. split; [done |]. split; [done |]. split; [done |].
  split; [exact Hmove |]. wsimpl.
  rewrite lookup_delete_eq, lookup_delete_ne by done. done.
Qed.

End Transfer.

(** ** The observing night *)

Lemma contains_suffix c t s : suffix t s → PyStr.contains c t = true → PyStr.contains c s = true.
Proof.
  induction 1 as [| a s t _ IH]; [done |]. intros Ht. simpl. case_decide; auto.
Qed.

Lemma one_suffix s x rest : Strptime.one s = Some (x, rest) → suffix rest s.
Proof.
  destruct s as [|a s]; [done |]. simpl. destruct (Strptime.digit a); [| done].
  intros [= _ <-]. repeat constructor.
Qed.

Lemma two_suffix s x y rest : Strptime.two s = Some (x, y, rest) → suffix rest s.
Proof.
  destruct s as [|a [|b s]]; try done. simpl.
  destruct (Strptime.digit a), (Strptime.digit b); try done.
  intros [= _ _ <-]. repeat constructor.
Qed.

Lemma one_if_suffix ok s : Forall (fun c => suffix c.2 s) (Strptime.one_if ok s).
Proof.
  unfold Strptime.one_if. destruct (Strptime.one s) as [[x rest]|] eqn:E; [| constructor].
  destruct (ok x); repeat constructor. by eapply one_suffix.
Qed.

Lemma two_if_suffix ok s : Forall (fun c => suffix c.2 s) (Strptime.two_if ok s).
Proof.
  unfold Strptime.two_if. destruct (Strptime.two s) as [[[x y] rest]|] eqn:E; [| constructor].
  destruct (ok x y); repeat constructor. by eapply two_suffix.
Qed.

Lemma suffix_trans r t s : suffix r t → suffix t s → suffix r s.
Proof. intros Hrt Hts. induction Hts; [done |]. constructor. auto. Qed.

Lemma digits_upto_suffix k acc s :
  Forall (fun c => suffix c.2 s) (Strptime.digits_upto k acc s).
Proof.
  revert acc s. induction k as [|k IH]; intros acc s; [constructor |]. simpl.
  destruct (Strptime.one s) as [[x rest]|] eqn:E; [| constructor].
  apply one_suffix in E. apply Forall_app. split.
  - eapply Forall_impl; [apply IH |]. intros c Hc. simpl in *.
    eapply suffix_trans; [exact Hc | exact E].
  - repeat constructor. exact E.
Qed.

Lemma candidates_suffix it s : Forall (fun c => suffix c.2 s) (Strptime.candidates it s).
Proof.
  destruct it; simpl.
  - unfold Strptime.cand_Y. destruct (Strptime.two s) as [[[a b] rest]|] eqn:E; [| constructor].
    destruct (Strptime.two rest) as [[[c d] rest']|] eqn:E'; [| constructor].
    repeat constructor. simpl.
    eapply suffix_trans; [eapply two_suffix; exact E' | eapply two_suffix; exact E].
  - unfold Strptime.cand_m. rewrite !Forall_app.
    split_and!; auto using one_if_suffix, two_if_suffix.
  - unfold Strptime.cand_d. rewrite !Forall_app.
    split_and!; auto using one_if_suffix, two_if_suffix.
    destruct s as [|a rest]; [constructor |].
    destruct (decide (a = " "%char)) as [-> | Hne].
    + eapply Forall_impl; [apply one_if_suffix |]. intros c Hc. by constructor.
    + destruct a as [[] [] [] [] [] [] [] []]; try constructor. done.
  - unfold Strptime.cand_H. rewrite !Forall_app.
    split_and!; auto using one_if_suffix, two_if_suffix.
  - unfold Strptime.cand_M. rewrite !Forall_app.
    split_and!; auto using one_if_suffix, two_if_suffix.
  - unfold Strptime.cand_S. rewrite !Forall_app.
    split_and!; auto using one_if_suffix, two_if_suffix.
  - unfold Strptime.cand_f. rewrite Forall_fmap.
    eapply Forall_impl; [apply digits_upto_suffix |]. done.
  - destruct s as [|a rest]; [constructor |]. case_decide; repeat constructor.
Qed.

Lemma first_some_inv {A B} (f : A → option B) cs r :
  Strptime.first_some f cs = Some r → ∃ c, c ∈ cs ∧ f c = Some r.
Proof.
  induction cs as [|c cs IH]; [done |]. simpl.
  destruct (f c) as [r'|] eqn:E.
  - intros [= <-]. exists c. split; [by left | done].
  - intros H. destruct (IH H) as (c' & ? & ?). exists c'. split; [by right | done].
Qed.

Lemma lower_percent a : Strptime.lower a = Strptime.lower "%"%char → a = "%"%char.
Proof. destruct a as [[] [] [] [] [] [] [] []]; vm_compute; congruence. Qed.

(** A format with a literal percent sign matches only a text with one. *)
Lemma first_match_percent its d s r :
  Strptime.first_match its d s = Some r →
  Strptime.Lit "%" ∈ its →
  PyStr.contains "%"%char s = true.
Proof.
  revert d s. induction its as [|it its IH]; intros d s Hm Hin.
  - by apply elem_of_nil in Hin.
  - cbn [Strptime.first_match] in Hm.
    apply first_some_inv in Hm as ([v rest] & Hc & Hm). cbn [fst snd] in Hm.
    pose proof (candidates_suffix it s) as Hsuf.
    rewrite Forall_forall in Hsuf. specialize (Hsuf _ Hc). cbn [snd] in Hsuf.
    apply elem_of_cons in Hin as [<- | Hin].
    + simpl in Hc. destruct s as [|a s']; [by apply elem_of_nil in Hc |].
      case_decide as Hl; [| by apply elem_of_nil in Hc].
      apply lower_percent in Hl as ->. done.
    + eapply contains_suffix; [exact Hsuf |]. by eapply IH.
Qed.

(** The [try] of [get_observing_nite] fails on every text without a percent
    sign, so the hour is never compared with 14 for it. *)
Lemma nite_try_raises date_obs :
  PyStr.contains "%"%char date_obs = false →
  ∃ msg, nite_try date_obs = Raise (ValueError msg).
Proof.
  intros Hno. unfold nite_try, Strptime.strptime.
  destruct (Strptime.parse_format "%Y-%m-%dT%%H:%M:%S.%f") as [its|] eqn:Hfmt; [| done].
  vm_compute in Hfmt. injection Hfmt as <-.
  match goal with |- context [Strptime.first_match ?its ?d ?s] =>
    destruct (Strptime.first_match its d s) as [[dt rest]|] eqn:Hm end.
  - apply first_match_percent in Hm.
    + congruence.
    + rewrite !elem_of_cons. tauto.
  - eauto.
Qed.

(** X20.  For a header with [date-obs], without [obs-nite], whose timestamp
    has no percent sign: the observing night is what the format of a date
    alone gives, the date itself or a [ValueError]; no day is ever
    subtracted. *)
Lemma get_observing_nite_no_shift (header : gmap string pyval) date_obs w :
  header !! "obs-nite" = None →
  header !! "date-obs" = Some (PStr date_obs) →
  PyStr.contains "%"%char date_obs = false →
  get_observing_nite header w =
    (match Strptime.strptime date_obs "%Y-%m-%d" with
     | Ok d => Ok (PStr (Strptime.strftime_Ymd d))
     | Raise e => Raise e
     end, w).
Proof.
  intros Hn Hd Hno. unfold get_observing_nite. rewrite Hn.
  erewrite bind_ok by (by apply getitem_ok).
  erewrite bind_ok by reflexivity.
  destruct (nite_try_raises date_obs Hno) as [msg ->].
  unfold bind, lift, ret. by destruct (Strptime.strptime date_obs "%Y-%m-%d").
Qed.

(** ** The registry *)

Lemma find_app_new {A} (f : A → bool) l x :
  find f l = None → f x = true → find f (l ++ [x]) = Some x.
Proof.
  induction l as [|y l IH]; simpl.
  - intros _ ->. done.
  - destruct (f y); [done | auto].
Qed.

Lemma get_registration_process_id_spec uuid w :
  db_funcs.get_registration_process_id uuid w
  = (Ok (lk_process_id <$> lookup_uuid (pending (dbh w)) uuid), w).
Proof. done. Qed.

(** C4.  Looking up the registration process of a uuid and creating it when
    absent: when a row for the uuid exists its id is returned and nothing
    is written; when none exists one [process] row is created, with the id
    the sequence gives, and committed together with the lookup row.  In both
    cases a further attempt with the same uuid, whatever else the bundle
    holds, returns the same id and writes nothing; after a creation this
    still holds behind a rollback. *)
Theorem registration_process_idempotent (src_info : gmap string pyval) (uuid : pyval)
    (w : World) :
  src_info !! "uuid" = Some uuid →
  is_Some (src_info !! "exec_name") →
  is_Some (src_info !! "exec_host") →
  (∃ t, src_info !! "timestamp" = Some (PInt t)) →
  is_Some (src_info !! "user") →
  is_Some (src_info !! "prov_msg") →
  ∃ pid w1,
    registration_process src_info w = (Ok pid, w1) ∧
    match lookup_uuid (pending (dbh w)) uuid with
    | Some r => pid = lk_process_id r ∧ w1 = w
    | None =>
        pid = process_seq (dbh w) ∧
        length (t_process (pending (dbh w1))) = S (length (t_process (pending (dbh w)))) ∧
        committed (dbh w1) = pending (dbh w1) ∧
        ∀ info2 : gmap string pyval, info2 !! "uuid" = Some uuid →
          registration_process info2 (rolled_back w1) = (Ok pid, rolled_back w1)
    end ∧
    ∀ info2 : gmap string pyval, info2 !! "uuid" = Some uuid →
      registration_process info2 w1 = (Ok pid, w1).
Proof.
  intros Huuid [name Hname] [host Hhost] [t Ht] [user Huser] [msg Hmsg].
  assert (Hreuse : ∀ (info2 : gmap string pyval) w2 r,
            info2 !! "uuid" = Some uuid →
            lookup_uuid (pending (dbh w2)) uuid = Some r →
            registration_process info2 w2 = (Ok (lk_process_id r), w2)).
  { intros info2 w2 r H2 Hr. unfold registration_process.
    erewrite bind_ok by (by apply getitem_ok).
    erewrite bind_ok by apply get_registration_process_id_spec.
    by rewrite Hr. }
  destruct (lookup_uuid (pending (dbh w)) uuid) as [r|] eqn:Hfind.
  - exists (lk_process_id r), w. split; [by apply Hreuse |]. split; [done |].
    intros info2 H2. by apply Hreuse.
  - unfold registration_process.
    erewrite bind_ok by (by apply getitem_ok).
    erewrite bind_ok by apply get_registration_process_id_spec.
    rewrite Hfind. cbn [fmap option_fmap option_map].
    unfold db_funcs.save_registration_info, db_funcs.create_new_process.
    unfold bind, getitem, ret, process_seq_nextval.
    cbn [dbh set_dbh]. rewrite Hname, Hhost, Ht, Huser, Hmsg, Huuid.
    cbn -[lookup_uuid].
    eexists _, _. split; [reflexivity |].
    cbn -[lookup_uuid]. rewrite length_app. cbn -[lookup_uuid].
    assert (Hnew : ∀ c, lookup_uuid
              (mk_tables (t_process (pending (dbh w)) ++ c)
                 (t_file_registration (pending (dbh w)) ++
                    [mk_file_registration (process_seq (dbh w)) user msg])
                 (t_file_registration_lookup (pending (dbh w)) ++
                    [mk_lookup uuid (process_seq (dbh w))])
                 (t_dataset (pending (dbh w))) (t_datastore_dbb (pending (dbh w)))
                 (t_dbb_bad_file (pending (dbh w)))) uuid
              = Some (mk_lookup uuid (process_seq (dbh w)))).
    { intros c. unfold lookup_uuid. cbn [t_file_registration_lookup].
      apply find_app_new; [exact Hfind |]. cbn. by rewrite bool_decide_true. }
    split; [split_and! |].
    + done.
    + lia.
    + done.
    + intros info2 H2.
      apply (Hreuse info2 _ (mk_lookup uuid (process_seq (dbh w))) H2).
      unfold rolled_back, rollback, bind, modify, emit, ret.
      cbn -[lookup_uuid]. apply Hnew.
    + intros info2 H2.
      apply (Hreuse info2 _ (mk_lookup uuid (process_seq (dbh w))) H2).
      cbn -[lookup_uuid]. apply Hnew.
Qed.

(** ** The quarantine handler *)

Lemma slash_nonempty a b : PyStr.slash a b ≠ EmptyString.
Proof. unfold PyStr.slash. by destruct a. Qed.

Lemma resolve_same_cwd w w' p : cwd w' = cwd w → resolve w' p = resolve w p.
Proof. intros H. unfold resolve. by rewrite H. Qed.

Lemma slash_ne a b : PyStr.slash a b ≠ a.
Proof.
  intros E. apply (f_equal String.length) in E.
  unfold PyStr.slash in E. rewrite !append_length in E. simpl in E. lia.
Qed.

Lemma unlink_if_exists p w :
  p ≠ EmptyString →
  (∀ x, fs w !! resolve w p = Some x → is_dir x = false) →
  ∃ w1,
    (ex <- os_path_exists p ;; (if ex then os_unlink p else ret tt)) w = (Ok tt, w1) ∧
    cwd w1 = cwd w ∧ dbh w1 = dbh w ∧ clock w1 = clock w ∧ io_script w1 = io_script w ∧
    fs w1 = delete (resolve w p) (fs w).
Proof.
  intros Hp Hfile.
  erewrite bind_ok by (by apply os_path_exists_spec).
  destruct (fs w !! resolve w p) as [x|] eqn:Ex.
  - rewrite bool_decide_true by eauto.
    erewrite os_unlink_ok; [| done | exact Ex | by apply Hfile].
    eexists. split; [reflexivity |]. done.
  - rewrite bool_decide_false by (intros [? ?]; done).
    exists w. rewrite delete_id by done. done.
Qed.

Lemma os_makedirs_ok d w :
  d ≠ EmptyString →
  (∀ x, fs w !! resolve w d = Some x → is_dir x = true) →
  ∃ w1,
    os_makedirs d w = (Ok tt, w1) ∧
    cwd w1 = cwd w ∧ dbh w1 = dbh w ∧ clock w1 = clock w ∧ io_script w1 = io_script w ∧
    trace w1 = trace w ∧
    (∀ p, p ≠ resolve w d → fs w1 !! p = fs w !! p) ∧
    (∀ x, fs w1 !! resolve w d = Some x → is_dir x = true).
Proof.
  intros Hd Hdir. unfold os_makedirs, lookup_path. rewrite decide_False by done.
  unfold bind at 1. rewrite decide_False by done.
  destruct (fs w !! resolve w d) as [x|] eqn:Ex.
  - rewrite (Hdir x eq_refl). exists w. rewrite Ex. split_and!; try done.
  - eexists. split; [reflexivity |]. wsimpl. split_and!; try done.
    + intros p Hp. by rewrite lookup_insert_ne.
    + rewrite lookup_insert_eq. by intros x [= <-].
Qed.

Lemma shutil_move_ok src dst nd w :
  src ≠ EmptyString → fs w !! resolve w src = Some nd →
  shutil_move src dst w =
    (Ok tt, log_event (EvMove (resolve w src) (resolve w dst))
              (set_fs (fun m => <[resolve w dst := nd]> (delete (resolve w src) m)) w)).
Proof.
  intros Hs Hnd. unfold shutil_move.
  erewrite bind_ok by (by apply stat_ok). done.
Qed.

Section Quarantine.

Context `{!Collaborators}.

Lemma move_bad_file_ok cfg tar nd w :
  quarantine_ready cfg tar nd w →
  ∃ w',
    move_bad_file cfg tar w = (Ok (bad_relpath w), w') ∧
    cwd w' = cwd w ∧ dbh w' = dbh w ∧ clock w' = clock w ∧
    fs w' !! resolve w tar = None ∧
    fs w' !! resolve w (bad_dest cfg w tar) = Some nd ∧
    (∀ p, p ≠ resolve w tar → p ≠ resolve w (bad_dest cfg w tar) →
          p ≠ resolve w (PyStr.slash (bad_file_dir cfg) (bad_relpath w)) →
          fs w' !! p = fs w !! p).
Proof.
  intros (Htar & Hnd & Hne & Hdir & Hdest).
  unfold move_bad_file, datetime_now.
  erewrite bind_ok by reflexivity. cbv beta.
  fold (bad_relpath w). fold (bad_dest cfg w tar).
  set (newpath := PyStr.slash (bad_file_dir cfg) (bad_relpath w)) in *.
  set (destbad := bad_dest cfg w tar) in *.
  assert (destbad ≠ EmptyString) as Hdne by apply slash_nonempty.
  assert (newpath ≠ EmptyString) as Hnne by apply slash_nonempty.
  assert (resolve w newpath ≠ resolve w destbad) as Hnd'.
  { unfold destbad, bad_dest. fold newpath. rewrite resolve_slash by done.
    intros E. symmetry in E. by apply slash_ne in E. }
  destruct (unlink_if_exists destbad w Hdne Hdest)
    as (w1 & H1 & Hcwd1 & Hdb1 & Hclk1 & _ & Hfs1).
  rewrite bind_assoc_at. erewrite bind_ok by exact H1.
  assert (∀ p, resolve w1 p = resolve w p) as Hres1
    by (intros p; by apply resolve_same_cwd).
  destruct (os_makedirs_ok newpath w1 Hnne) as (w2 & H2 & Hcwd2 & Hdb2 & Hclk2 & _ & _ & Hfs2 & _).
  { rewrite Hres1, Hfs1, lookup_delete_ne by done. apply Hdir. }
  erewrite bind_ok by exact H2. cbv beta.
  assert (∀ p, resolve w2 p = resolve w p) as Hres2.
  { intros p. rewrite <- Hres1. by apply resolve_same_cwd. }
  assert (resolve w tar ≠ resolve w newpath ∨ fs w2 !! resolve w tar = Some nd) as Hkeep.
  { destruct (decide (resolve w tar = resolve w newpath)) as [E | E]; [right | by left].
    destruct (fs w !! resolve w newpath) as [x|] eqn:Ex; [| congruence].
    revert H2. unfold os_makedirs, lookup_path, bind. rewrite !decide_False by done.
    rewrite Hres1, Hfs1, lookup_delete_ne by done. rewrite Ex, (Hdir x eq_refl).
    intros [= <-]. rewrite Hfs1, lookup_delete_ne by done. done. }
  assert (fs w2 !! resolve w tar = Some nd) as Htar2.
  { destruct Hkeep as [E | ?]; [| done].
    rewrite Hfs2 by (by rewrite Hres1). rewrite Hfs1, lookup_delete_ne by done. done. }
  erewrite bind_ok; last first.
  { apply (shutil_move_ok tar destbad nd w2); [done | by rewrite Hres2]. }
  eexists. split; [reflexivity |]. wsimpl. rewrite !Hres2.
  split_and!; try congruence.
  - rewrite lookup_insert_ne by done. apply lookup_delete_eq.
  - apply lookup_insert_eq.
  - intros p Hp1 Hp2 Hp3. rewrite lookup_insert_ne, lookup_delete_ne by done.
    rewrite Hfs2 by (by rewrite Hres1). rewrite Hfs1, lookup_delete_ne by done. done.
Qed.

(** The handler on a bundle whose info file was read and whose process is
    known: the open transaction is rolled back, the tarball goes to the
    bad-file area and one row is committed. *)
Lemma handle_bad_file_parsed cfg si tar msg nd w :
  recordable si tar →
  quarantine_ready cfg tar nd w →
  ∃ w',
    handle_bad_file cfg (Some si) msg w = (Ok tt, w') ∧
    committed (dbh w') =
      add_bad_file (bad_file_row si tar msg (content_size (n_data nd)) w) (committed (dbh w)) ∧
    pending (dbh w') = committed (dbh w') ∧
    process_seq (dbh w') = process_seq (dbh w) ∧
    dataset_seq (dbh w') = dataset_seq (dbh w) ∧
    cwd w' = cwd w ∧ clock w' = clock w ∧
    fs w' !! resolve w tar = None ∧
    fs w' !! resolve w (bad_dest cfg w tar) = Some nd ∧
    (∀ p, p ≠ resolve w tar → p ≠ resolve w (bad_dest cfg w tar) →
          p ≠ resolve w (PyStr.slash (bad_file_dir cfg) (bad_relpath w)) →
          fs w' !! p = fs w !! p).
Proof.
  intros (Htf & [t Ht] & [dt Hdt] & [fn Hfn] & [sz Hsz] & [ck Hck] & [ct Hct] & [pid Hpid]) Hq.
  assert (quarantine_ready cfg tar nd (rolled_back w)) as Hq' by exact Hq.
  destruct (move_bad_file_ok cfg tar nd (rolled_back w) Hq')
    as (w1 & Hmv & Hcwd1 & Hdb1 & Hclk1 & Hgone & Hthere & Hframe).
  destruct Hq as (Htar & Hnd & _).
  unfold handle_bad_file.
  erewrite bind_ok by reflexivity. fold (rolled_back w).
  unfold getitem_opt.
  erewrite bind_ok by (by apply getitem_ok).
  erewrite bind_ok; last first.
  { erewrite bind_ok by (by apply getitem_ok). reflexivity. }
  erewrite bind_ok by (by apply getitem_ok).
  erewrite bind_ok by reflexivity.
  erewrite bind_ok; last first.
  { unfold os_path_getsize. erewrite bind_ok by (apply stat_ok; [done | exact Hnd]). reflexivity. }
  erewrite bind_ok by reflexivity.
  erewrite bind_ok by exact Hmv.
  unfold db_funcs.save_bad_file_db.
  erewrite bind_ok; last first.
  { erewrite bind_ok by (by apply getitem_ok).
    erewrite bind_ok by (by apply getitem_ok).
    erewrite bind_ok by (by apply getitem_ok).
    erewrite bind_ok by (by apply getitem_ok).
    erewrite bind_ok by (by apply getitem_ok).
    erewrite bind_ok by (by apply getitem_ok).
    reflexivity. }
  unfold getitem, bind, ret, insert_bad_file, commit, modify, emit.
  simplify_map_eq.
  eexists. split; [reflexivity |].
  wsimpl. rewrite Hdb1.
  unfold bad_file_row, field. rewrite Hfn, Hdt, Hsz, Hck, Hct, Hpid.
  split_and!; try done.
Qed.

Lemma bad_file_row_msg si tar msg size w :
  bad_file_row si tar msg size w !! "rejected_msg" = Some (PStr msg).
Proof. unfold bad_file_row. by simplify_map_eq. Qed.

(** The delivery date that [handle_bad_file] computes is not among the
    columns that [save_bad_file_db] binds. *)
Lemma bad_file_row_no_delivery_date si tar msg size w :
  bad_file_row si tar msg size w !! "delivery_date" = None.
Proof. unfold bad_file_row. by simplify_map_eq. Qed.

End Quarantine.

(** C7, at the failing input.  When the info file has not been read,
    [src_info] is [None] and [handle_bad_file] raises a [TypeError] right
    behind its rollback, on [src_info["dataset_type"]]: the tarball is not
    moved and no row of [dbb_bad_file] is written. *)
Theorem handle_bad_file_without_manifest (cfg : config) (msg : string) (w : World) :
  handle_bad_file cfg None msg w = (Raise not_subscriptable, rolled_back w) ∧
  fs (rolled_back w) = fs w ∧
  t_dbb_bad_file (pending (dbh (rolled_back w))) = t_dbb_bad_file (committed (dbh w)) ∧
  committed (dbh (rolled_back w)) = committed (dbh w).
Proof. done. Qed.

(** ** The bundle extractor *)

Lemma bind_ok_inv {A B} (m : M A) (k : A → M B) w b w' :
  bind m k w = (Ok b, w') → ∃ a w1, m w = (Ok a, w1) ∧ k a w1 = (Ok b, w').
Proof.
  unfold bind. destruct (m w) as [[a | e] w1]; [| done]. intros H. by exists a, w1.
Qed.

(** What [get_filenames] returns when it starts from [None, None, None]:
    a name of a kind only if a file of that kind is listed. *)
Lemma classify_spec files acc filename info_fname digest_fname :
  classify files acc = (filename, info_fname, digest_fname) →
  (is_Some filename → is_Some acc.1.1 ∨ ∃ x, x ∈ files ∧ is_payload x) ∧
  (is_Some info_fname → is_Some acc.1.2 ∨ ∃ x, x ∈ files ∧ is_info x) ∧
  (is_Some digest_fname → is_Some acc.2 ∨ ∃ x, x ∈ files ∧ is_digest x).
Proof.
  revert acc. induction files as [|f files IH]; intros [[a b] c]; cbn [classify].
  - intros [= -> -> ->]. split_and!; by left.
  - destruct (PyStr.endswith f ".info") eqn:Hi; [| destruct (PyStr.endswith f ".digest") eqn:Hd];
      intros Hc; destruct (IH _ Hc) as (H1 & H2 & H3); cbn [fst snd] in *;
      split_and!; intros Hs.
    + destruct (H1 Hs) as [? | (x & ? & ?)]; [by left | right; exists x; split; [by right | done]].
    + destruct (H2 Hs) as [? | (x & ? & ?)]; [| right; exists x; split; [by right | done]].
      right. exists f. split; [by left | done].
    + destruct (H3 Hs) as [? | (x & ? & ?)]; [by left | right; exists x; split; [by right | done]].
    + destruct (H1 Hs) as [? | (x & ? & ?)]; [by left | right; exists x; split; [by right | done]].
    + destruct (H2 Hs) as [? | (x & ? & ?)]; [by left | right; exists x; split; [by right | done]].
    + destruct (H3 Hs) as [? | (x & ? & ?)]; [| right; exists x; split; [by right | done]].
      right. exists f. split; [by left | done].
    + destruct (H1 Hs) as [? | (x & ? & ?)]; [| right; exists x; split; [by right | done]].
      right. exists f. split; [by left | done].
    + destruct (H2 Hs) as [? | (x & ? & ?)]; [by left | right; exists x; split; [by right | done]].
    + destruct (H3 Hs) as [? | (x & ? & ?)]; [by left | right; exists x; split; [by right | done]].
Qed.

Lemma three_kinds_three_files (files : list string) p i d :
  p ∈ files → i ∈ files → d ∈ files →
  is_payload p → is_info i → is_digest d →
  (3 ≤ length files)%nat.
Proof.
  intros Hp Hi Hd [Hp1 Hp2] Hi1 [Hd1 Hd2].
  unfold is_info in Hi1.
  assert (p ≠ i) by congruence. assert (p ≠ d) by congruence. assert (i ≠ d) by congruence.
  assert (NoDup [p; i; d]) as Hnd.
  { apply NoDup_cons. split; [rewrite !elem_of_cons, elem_of_nil; tauto |].
    apply NoDup_cons. split; [rewrite !elem_of_cons, elem_of_nil; tauto |].
    apply NoDup_singleton. }
  change 3%nat with (length [p; i; d]). apply submseteq_length.
  apply NoDup_submseteq; [done |].
  intros x. rewrite !elem_of_cons, elem_of_nil. intros [-> | [-> | [-> | []]]]; done.
Qed.

Section Extractor.

Context `{!Collaborators}.

(** C6, as amended.  Nothing counts the extracted files.  When the lines of
    [handle_tarball] from the extraction to the reading of the info file
    succeed, the scratch directory lists a name ending in [.info], another
    ending in [.digest] and a third ending in neither, hence three names at
    least. *)
Theorem read_bundle_needs_each_kind (tar_filename scratch_dir : string) (w w' : World)
    (b : option string * gmap string string * gmap string pyval) :
  read_bundle tar_filename scratch_dir w = (Ok b, w') →
  ∃ w0 files,
    bind (untar2dir tar_filename scratch_dir) (fun _ => os_chdir scratch_dir) w = (Ok tt, w0) ∧
    glob_star w0 = (Ok files, w0) ∧
    (∃ x, x ∈ files ∧ is_payload x) ∧
    (∃ x, x ∈ files ∧ is_info x) ∧
    (∃ x, x ∈ files ∧ is_digest x) ∧
    (3 ≤ length files)%nat.
Proof.
  unfold read_bundle. intros H0.
  apply bind_ok_inv in H0 as ([] & wa & Huntar & H0).
  apply bind_ok_inv in H0 as ([] & w0 & Hchdir & H0).
  apply bind_ok_inv in H0 as ([[filename info_fname] digest_fname] & w0' & Hnames & H0).
  unfold get_filenames in Hnames.
  apply bind_ok_inv in Hnames as (files & w0'' & Hglob & Hnames).
  assert (w0'' = w0) as -> by (revert Hglob; unfold glob_star, bind, get, ret; by intros [= _ <-]).
  injection Hnames as Hcl <-.
  apply bind_ok_inv in H0 as (dpath & w1 & Hd & H0).
  apply bind_ok_inv in H0 as (text & w2 & _ & H0).
  apply bind_ok_inv in H0 as (digest & w3 & _ & H0).
  apply bind_ok_inv in H0 as (expected_info & w4 & Hi & H0).
  apply bind_ok_inv in H0 as (ipath & w5 & _ & H0).
  apply bind_ok_inv in H0 as ([] & w6 & _ & H0).
  apply bind_ok_inv in H0 as (expected_file & w7 & Hf & _).
  assert (is_Some digest_fname) as Hsd by (destruct digest_fname; [eauto | done]).
  assert (is_Some info_fname) as Hsi by (destruct info_fname; [eauto | done]).
  assert (is_Some filename) as Hsf by (destruct filename; [eauto | done]).
  apply classify_spec in Hcl as (H1 & H2 & H3). cbn [fst snd] in *.
  destruct (H1 Hsf) as [[? [=]] | (p & Hp & Hpk)].
  destruct (H2 Hsi) as [[? [=]] | (i & Hi' & Hik)].
  destruct (H3 Hsd) as [[? [=]] | (d & Hd' & Hdk)].
  exists w0, files. split_and!; eauto.
  - unfold bind. by rewrite Huntar, Hchdir.
  - by apply (three_kinds_three_files files p i d).
Qed.

End Extractor.

(** ** The registration manager *)

Lemma guarded_ok {A} (m : M A) handler k w a w' :
  m w = (Ok a, w') → guarded m handler k w = k a w'.
Proof. intros H. unfold guarded. by rewrite H. Qed.

Lemma guarded_raise {A} (m : M A) handler k w e w' :
  m w = (Raise e, w') → guarded m handler k w = handler e w'.
Proof. intros H. unfold guarded. by rewrite H. Qed.

Lemma filename_exists_in_dbb_spec fname w :
  db_funcs.filename_exists_in_dbb fname w =
    (Ok (bool_decide (is_Some (find (fun r => bool_decide (st_filename r = fname))
                                    (t_datastore_dbb (pending (dbh w)))))), w).
Proof. done. Qed.

Section Registration.

Context `{!Collaborators}.

(** C5.  A bundle that has passed extraction and verification, whose process
    is resolved, and whose file name already has a row in [datastore_dbb]:
    [handle_tarball] returns normally; the tarball is in the bad-file area;
    one row of [dbb_bad_file] is committed, with [DUPLICATE_MSG] as its
    rejection message; no [dataset] row is written, no dataset id is drawn
    from the sequence, and [datastore_dbb] is as it was. *)
Theorem duplicate_filename_quarantined (cfg : config) (tar_filename scratch_dir : string)
    (w w1 w2 : World) (filename : option string) (digest : gmap string string)
    (info : gmap string pyval) (process_id : Z) (fname : pyval) (nd0 nd : node)
    (earlier : datastore_row) :
  let src_info1 := <["tar_filename" := PStr tar_filename]> info in
  let src_info := <["process_id" := PInt process_id]> src_info1 in
  tar_filename ≠ EmptyString →
  fs w !! resolve w tar_filename = Some nd0 →
  read_bundle tar_filename scratch_dir w = (Ok (filename, digest, info), w1) →
  resolve_process filename digest src_info1 w1 = (Ok process_id, w2) →
  pending (dbh w2) = committed (dbh w2) →
  info !! "filename" = Some fname →
  find (fun r => bool_decide (st_filename r = fname)) (t_datastore_dbb (pending (dbh w2)))
    = Some earlier →
  recordable src_info tar_filename →
  quarantine_ready cfg tar_filename nd w2 →
  ∃ w',
    handle_tarball tar_filename scratch_dir cfg w = (Ok tt, w') ∧
    fs w' !! resolve w2 tar_filename = None ∧
    fs w' !! resolve w2 (bad_dest cfg w2 tar_filename) = Some nd ∧
    pending (dbh w') = committed (dbh w') ∧
    t_dbb_bad_file (committed (dbh w')) =
      t_dbb_bad_file (committed (dbh w2)) ++
      [bad_file_row src_info tar_filename DUPLICATE_MSG (content_size (n_data nd)) w2] ∧
    bad_file_row src_info tar_filename DUPLICATE_MSG (content_size (n_data nd)) w2
      !! "rejected_msg" = Some (PStr DUPLICATE_MSG) ∧
    t_dataset (committed (dbh w')) = t_dataset (committed (dbh w2)) ∧
    dataset_seq (dbh w') = dataset_seq (dbh w2) ∧
    t_datastore_dbb (committed (dbh w')) = t_datastore_dbb (committed (dbh w2)) ∧
    earlier ∈ t_datastore_dbb (committed (dbh w')).
Proof.
  intros src_info1 src_info Htar Hnd0 Hread Hproc Hclean Hfn Hdup Hrec Hq.
  destruct (handle_bad_file_parsed cfg src_info tar_filename DUPLICATE_MSG nd w2 Hrec Hq)
    as (w' & Hbad & Hcom & Hpend & _ & Hseq & _ & _ & Hgone & Hthere & _).
  exists w'. split; [| split_and!; try done].
  - unfold handle_tarball.
    erewrite guarded_ok; last first.
    { rewrite os_path_exists_spec by done. by rewrite Hnd0. }
    rewrite bool_decide_true by eauto. cbn [negb].
    erewrite guarded_ok by exact Hread. cbv beta iota.
    erewrite guarded_ok by exact Hproc. cbv beta.
    erewrite guarded_ok; last first.
    { unfold register_and_store.
      erewrite bind_ok; last first.
      { apply getitem_ok. unfold src_info, src_info1. by simplify_map_eq. }
      erewrite bind_ok by apply filename_exists_in_dbb_spec.
      rewrite Hdup, bool_decide_true by eauto.
      erewrite bind_ok by exact Hbad. reflexivity. }
    done.
  - by rewrite Hcom.
  - by rewrite Hcom.
  - by rewrite Hcom.
  - rewrite Hcom. cbn [add_bad_file t_datastore_dbb]. rewrite <- Hclean.
    apply list_elem_of_In. eapply find_some. exact Hdup.
Qed.

End Registration.

(** ** The names of the bundle and its digest *)

Lemma last_cons_default {A} (x : A) l : last (x :: l) = Some (default x (last l)).
Proof.
  revert x. induction l as [|y l IH]; intros x; [done |].
  change (last (x :: y :: l)) with (last (y :: l)). rewrite IH. simpl.
  destruct (last l); done.
Qed.

Lemma classify_last files a b c :
  classify files (a, b, c) =
    (from_option Some a (last (filter is_payload files)),
     from_option Some b (last (filter is_info files)),
     from_option Some c (last (filter is_digest files))).
Proof.
  revert a b c. induction files as [|f files IH]; intros a b c; [done |].
  cbn [classify]. rewrite !filter_cons.
  destruct (PyStr.endswith f ".info") eqn:Hi; [| destruct (PyStr.endswith f ".digest") eqn:Hd];
    rewrite IH.
  - rewrite (decide_False (P := is_payload f)) by (unfold is_payload; intros [? _]; congruence).
    rewrite (decide_True (P := is_info f)) by done.
    rewrite (decide_False (P := is_digest f)) by (unfold is_digest; intros [? _]; congruence).
    rewrite last_cons_default. destruct (last (filter is_info files)); done.
  - rewrite (decide_False (P := is_payload f)) by (unfold is_payload; intros [_ ?]; congruence).
    rewrite (decide_False (P := is_info f)) by (unfold is_info; congruence).
    rewrite (decide_True (P := is_digest f)) by done.
    rewrite last_cons_default. destruct (last (filter is_digest files)); done.
  - rewrite (decide_True (P := is_payload f)) by done.
    rewrite (decide_False (P := is_info f)) by (unfold is_info; congruence).
    rewrite (decide_False (P := is_digest f)) by (unfold is_digest; intros [_ ?]; congruence).
    rewrite last_cons_default. destruct (last (filter is_payload files)); done.
Qed.

(** X1.  [get_filenames] returns and changes nothing.  Of the names that
    [glob.glob("*")] lists in the current directory, those that do not start
    with a dot, it returns the last one of each kind in the order of the
    listing: the last that ends in neither suffix, the last that ends in
    [.info] and the last that ends in [.digest], and [None] for a kind that is
    not there.  Nothing is counted and no name is refused. *)
Theorem get_filenames_last_wins (w : World) :
  ∃ files,
    glob_star w = (Ok files, w) ∧
    (∀ name, name ∈ files ↔ visible_in_cwd w name) ∧
    get_filenames w =
      (Ok (last (filter is_payload files), last (filter is_info files),
           last (filter is_digest files)), w).
Proof.
  eexists. split; [reflexivity |]. split.
  - intros name. cbn [fs]. rewrite list_elem_of_filter, list_elem_of_fmap. unfold visible_in_cwd.
    split.
    + intros (Hdot & [n nd] & -> & Hin). apply elem_of_listdir in Hin as (Hm & Hc & Hn).
      split_and!; eauto.
    + intros (Hdot & Hn & Hc & [nd Hm]). split; [done |]. exists (name, nd). split; [done |].
      by apply elem_of_listdir.
  - unfold get_filenames. erewrite bind_ok by reflexivity. unfold ret.
    rewrite classify_last. f_equal. f_equal. f_equal; [f_equal |];
      match goal with |- context [last ?l] => by destruct (last l) end.
Qed.

Lemma split_go_single d cur s :
  PyStr.contains d s = false → ∃ x, PyStr.split_go d cur s = [x].
Proof.
  revert cur. induction s as [|a s IH]; intros cur; simpl; [eauto |].
  destruct (decide (a = d)); [done | apply IH].
Qed.

Lemma split_go_nonempty d cur s : PyStr.split_go d cur s ≠ [].
Proof.
  revert cur. induction s as [|a s IH]; intros cur; simpl; [done |].
  destruct (decide (a = d)); [done | apply IH].
Qed.

Lemma split_go_several d cur s :
  PyStr.contains d s = true → ∃ x y l, PyStr.split_go d cur s = x :: y :: l.
Proof.
  revert cur. induction s as [|a s IH]; intros cur; simpl; [done |].
  destruct (decide (a = d)) as [-> | Hne].
  - intros _. destruct (PyStr.split_go d "" s) as [|y l] eqn:E; [| eauto].
    by apply split_go_nonempty in E.
  - apply IH.
Qed.

Lemma digest_fields_short line :
  lacks_tab line → ∃ x, digest_fields line = [x].
Proof.
  intros H. unfold digest_fields, PyStr.split.
  destruct (split_go_single _ EmptyString _ H) as [x ->]. eauto.
Qed.

Lemma digest_fields_long line :
  ¬ lacks_tab line → ∃ x y l, digest_fields line = x :: y :: l.
Proof.
  intros H. unfold digest_fields, PyStr.split. unfold lacks_tab in H.
  apply not_false_is_true in H.
  destruct (split_go_several _ EmptyString _ H) as (x & y & l & ->). simpl. eauto.
Qed.

Lemma read_digest_lines_raises lines acc :
  Exists lacks_tab lines →
  read_digest_lines lines acc = Raise (IndexError "list index out of range").
Proof.
  revert acc. induction lines as [|line lines IH]; intros acc Hex.
  - by apply Exists_nil in Hex.
  - cbn [read_digest_lines]. fold (digest_fields line).
    destruct (decide (lacks_tab line)) as [Hl | Hl].
    + destruct (digest_fields_short line Hl) as [x ->]. done.
    + destruct (digest_fields_long line Hl) as (x & y & l & ->).
      apply IH. apply Exists_cons in Hex as [? | ?]; done.
Qed.

(** X2.  A digest with a line that holds no tab once it is stripped, an empty
    line for one, makes [read_digest] raise [IndexError]: the line gives a
    single field and [vals[1]] does not exist. *)
Theorem read_digest_line_without_tab (text : string) (w : World) :
  Exists lacks_tab (readlines text) →
  read_digest text w = (Raise (IndexError "list index out of range"), w).
Proof.
  intros H. unfold read_digest, lift. by rewrite read_digest_lines_raises.
Qed.

Lemma read_digest_lines_lookup lines acc :
  Forall (fun line => ¬ lacks_tab line) lines →
  ∃ d, read_digest_lines lines acc = Ok d ∧
       ∀ f, d !! f =
            from_option (fun line => digest_fields line !! 0%nat) (acc !! f)
              (last (filter (fun line => digest_fields line !! 1%nat = Some f) lines)).
Proof.
  revert acc. induction lines as [|line lines IH]; intros acc Hall.
  - exists acc. done.
  - apply Forall_cons in Hall as [Hl Hall].
    cbn [read_digest_lines]. fold (digest_fields line).
    destruct (digest_fields_long line Hl) as (x & y & l & E). rewrite E.
    destruct (IH (<[y := x]> acc) Hall) as (d & -> & Hd).
    exists d. split; [done |]. intros f. rewrite Hd, filter_cons, E. simpl.
    destruct (decide (Some y = Some f)) as [[= ->] | Hne].
    + rewrite last_cons_default, lookup_insert_eq.
      destruct (last (filter _ lines)) as [l'|]; simpl; [done | by rewrite E].
    + rewrite lookup_insert_ne by congruence. done.
Qed.

(** X3.  When every line of the digest holds a tab, [read_digest] returns a
    dictionary that maps each file name, the second field of a line, to the
    checksum, the first field, of the last line that names it; a name that no
    line has is not a key, and what follows a second tab is ignored. *)
Theorem read_digest_last_line_wins (text : string) (w : World) :
  Forall (fun line => ¬ lacks_tab line) (readlines text) →
  ∃ d, read_digest text w = (Ok d, w) ∧
       ∀ f, d !! f =
            last (filter (fun line => digest_fields line !! 1%nat = Some f) (readlines text))
            ≫= (fun line => digest_fields line !! 0%nat).
Proof.
  intros H. destruct (read_digest_lines_lookup _ ∅ H) as (d & Hd & Hl).
  exists d. unfold read_digest, lift. rewrite Hd. split; [done |].
  intros f. rewrite Hl, lookup_empty. by destruct (last _).
Qed.

(** ** The variables of a path pattern *)

Lemma contains_rev_app c s t :
  PyStr.contains c (String.rev_app s t) = PyStr.contains c s || PyStr.contains c t.
Proof.
  revert t. induction s as [|a s IH]; intros t; [done |].
  simpl. rewrite IH. simpl. destruct (decide (a = c)); [by rewrite orb_true_r | done].
Qed.

Lemma contains_rev c s : PyStr.contains c (String.rev s) = PyStr.contains c s.
Proof. unfold String.rev. rewrite contains_rev_app. simpl. by rewrite orb_false_r. Qed.

Lemma findall_braces_clean cur s x :
  x ∈ findall_braces cur s →
  (∀ c, cur = Some c → PyStr.contains "{"%char c = false ∧ PyStr.contains "}"%char c = false) →
  PyStr.contains "{"%char x = false ∧ PyStr.contains "}"%char x = false ∧ x ≠ EmptyString.
Proof.
  revert cur. induction s as [|a s IH]; intros cur Hin Hcur; simpl in Hin.
  - by apply elem_of_nil in Hin.
  - destruct (decide (a = "{"%char)) as [-> | Hno].
    + apply (IH _ Hin). by intros c [= <-].
    + destruct (decide (a = "}"%char)) as [-> | Hnc].
      * destruct cur as [[|c cs]|].
        -- apply (IH _ Hin). done.
        -- apply elem_of_cons in Hin as [-> | Hin]; [| apply (IH _ Hin); done].
           destruct (Hcur _ eq_refl) as [H1 H2].
           rewrite !contains_rev. split_and!; [done | done |].
           intros E. apply (f_equal String.length) in E.
           unfold String.rev in E. simpl in E.
           assert (∀ u v, String.length (String.rev_app u v)
                          = (String.length u + String.length v)%nat) as Hlen.
           { clear. induction u as [|b u IHu]; intros v; [done |]. simpl. rewrite IHu. simpl. lia. }
           rewrite Hlen in E. simpl in E. lia.
        -- apply (IH _ Hin). done.
      * apply (IH _ Hin). intros c Hc. destruct cur as [c'|]; [| done].
        simpl in Hc. injection Hc as <-. destruct (Hcur _ eq_refl) as [H1 H2].
        simpl. rewrite !decide_False by done. done.
Qed.

Lemma split_go_head d cur s h c :
  head (PyStr.split_go d cur s) = Some h →
  PyStr.contains c h = true →
  PyStr.contains c cur = true ∨ (PyStr.contains c s = true ∧ c ≠ d).
Proof.
  revert cur. induction s as [|a s IH]; intros cur; simpl.
  - intros [= <-]. rewrite contains_rev. by left.
  - destruct (decide (a = d)) as [-> | Hne].
    + simpl. intros [= <-]. rewrite contains_rev. by left.
    + intros Hh Hc. destruct (IH _ Hh Hc) as [Hcur | [Hs Hcd]].
      * simpl in Hcur. destruct (decide (a = c)) as [-> | ?].
        -- right. split; [done | congruence].
        -- by left.
      * right. split; [| done]. by destruct (decide (a = c)).
Qed.

Lemma findall_braces_none s :
  PyStr.contains "{"%char s = false → ∀ cur, cur = None → findall_braces cur s = [].
Proof.
  induction s as [|a s IH]; [done |]. simpl.
  destruct (decide (a = "{"%char)); [done |]. intros Hs cur ->.
  destruct (decide (a = "}"%char)); by apply IH.
Qed.

(** X4.  The variable names of a path pattern come without repeats and hold
    no brace and no colon: what follows a colon inside the braces is cut.  A
    pattern without an opening brace has no variable. *)
Theorem get_path_var_names_plain (pattern : string) :
  NoDup (get_path_var_names pattern) ∧
  (∀ name, name ∈ get_path_var_names pattern → plain_name name) ∧
  (PyStr.contains "{"%char pattern = false → get_path_var_names pattern = []).
Proof.
  unfold get_path_var_names. split_and!.
  - apply NoDup_remove_dups.
  - intros name Hin. rewrite elem_of_remove_dups in Hin.
    apply list_elem_of_fmap in Hin as (x & -> & Hx).
    apply findall_braces_clean in Hx as (Ho & Hc & _); [| done].
    unfold PyStr.split.
    destruct (head (PyStr.split_go ":" "" x)) as [h|] eqn:Hh; [| done]. simpl.
    unfold plain_name. split_and!; apply not_true_is_false; intros Hc'.
    + destruct (split_go_head _ _ _ _ _ Hh Hc') as [? | [? _]]; [done | congruence].
    + destruct (split_go_head _ _ _ _ _ Hh Hc') as [? | [? _]]; [done | congruence].
    + destruct (split_go_head _ _ _ _ _ Hh Hc') as [? | [_ ?]]; done.
  - intros H. by rewrite (findall_braces_none _ H None).
Qed.

(** ** The footprint of the transfer engine *)

Lemma dirname_above p :
  PyStr.contains "/"%char p = true → above (PyStr.dirname p) p.
Proof.
  induction p as [|a p IH]; [done |]. intros Hc. cbn [PyStr.dirname].
  destruct (PyStr.contains "/"%char p) eqn:Hp.
  - destruct (IH eq_refl) as [r Hr]. exists r.
    unfold PyStr.slash in *.
    change (String a p = String a (PyStr.dirname p +:+ "/" +:+ r)). by rewrite <- Hr.
  - simpl in Hc. rewrite Hp in Hc. destruct (decide (a = "/"%char)) as [-> |]; [| done].
    by exists p.
Qed.

Lemma dirname_contains p : PyStr.dirname p ≠ EmptyString → PyStr.contains "/"%char p = true.
Proof.
  destruct p as [|a p]; [done |]. cbn [PyStr.dirname]. simpl.
  destruct (PyStr.contains "/"%char p); [| done]. by destruct (decide (a = "/"%char)).
Qed.

Lemma resolve_dirname_above w dst :
  PyStr.dirname dst ≠ EmptyString → above (resolve w (PyStr.dirname dst)) (resolve w dst).
Proof.
  intros Hd. destruct (dirname_above dst (dirname_contains dst Hd)) as [r Hr].
  exists r. rewrite Hr at 1. by apply resolve_slash.
Qed.

Lemma confined_refl paths w : confined paths w w.
Proof. done. Qed.

Lemma resolve_fmap_cwd w w' (paths : list string) :
  cwd w' = cwd w → resolve w' <$> paths = resolve w <$> paths.
Proof.
  intros H. apply list_fmap_ext. intros _ p _. by apply resolve_same_cwd.
Qed.

Lemma confined_trans paths w1 w2 w3 :
  confined paths w1 w2 → confined paths w2 w3 → confined paths w1 w3.
Proof.
  intros (Hc1 & Hd1 & Hf1) (Hc2 & Hd2 & Hf2).
  split_and!; try congruence.
  intros p Hp. rewrite Hf2, Hf1; [done | done |]. by rewrite (resolve_fmap_cwd w1 w2).
Qed.

Lemma keeps_ret {A} paths (a : A) : keeps_within paths (ret a).
Proof. intros w. apply confined_refl. Qed.

Lemma keeps_raise {A} paths e : keeps_within paths (@raise A e).
Proof. intros w. apply confined_refl. Qed.

Lemma keeps_bind {A B} paths (m : M A) (k : A → M B) :
  keeps_within paths m → (∀ a, keeps_within paths (k a)) → keeps_within paths (bind m k).
Proof.
  intros Hm Hk w. unfold bind. specialize (Hm w).
  destruct (m w) as [[a | e] w1]; [| done]. simpl in Hm.
  eapply confined_trans; [exact Hm | apply Hk].
Qed.

Lemma keeps_try_except {A} paths (m : M A) catches handler :
  keeps_within paths m → (∀ e, keeps_within paths (handler e)) →
  keeps_within paths (try_except m catches handler).
Proof.
  intros Hm Hh w. unfold try_except. specialize (Hm w).
  destruct (m w) as [[a | e] w1]; [done |]. simpl in Hm.
  destruct (catches e); [| done].
  eapply confined_trans; [exact Hm | apply Hh].
Qed.

Lemma keeps_stat paths p : keeps_within paths (stat p).
Proof.
  intros w. unfold stat, lookup_path, bind, ret, raise.
  destruct (decide (p = EmptyString)); [done |]. by destruct (fs w !! resolve w p).
Qed.

Lemma keeps_os_path_exists paths p : keeps_within paths (os_path_exists p).
Proof. intros w. done. Qed.

Lemma keeps_emit paths e : keeps_within paths (emit e).
Proof. intros w. done. Qed.

Lemma not_elem_of_resolved w (paths : list string) p :
  p ∈ paths → ∀ q, q ∉ resolve w <$> paths → q ≠ resolve w p.
Proof. intros Hp q Hq ->. apply Hq. by apply list_elem_of_fmap_2. Qed.

Lemma keeps_os_unlink paths p : p ∈ paths → keeps_within paths (os_unlink p).
Proof.
  intros Hp w. unfold os_unlink, bind. pose proof (keeps_stat paths p w) as Hs.
  destruct (stat p w) as [[nd | e] w1] eqn:E; [| done].
  assert (w1 = w) as ->.
  { revert E. unfold stat, lookup_path, bind, ret, raise.
    destruct (decide (p = EmptyString)); [done |].
    destruct (fs w !! resolve w p); by intros [= _ <-]. }
  destruct (is_dir nd); [done |]. cbn.
  split_and!; try done. intros q Hq. apply lookup_delete_ne.
  apply not_eq_sym. by eapply not_elem_of_resolved.
Qed.

(** The empty path is refused before anything is made. *)
Lemma keeps_os_makedirs paths d :
  d = EmptyString ∨ d ∈ paths → keeps_within paths (os_makedirs d).
Proof.
  intros Hd w. unfold os_makedirs. destruct (decide (d = EmptyString)); [done |].
  destruct Hd as [? | Hd]; [done |].
  unfold bind, lookup_path. rewrite decide_False by done.
  destruct (fs w !! resolve w d) as [nd|]; [by destruct (is_dir nd) |].
  cbn. split_and!; try done. intros q Hq. apply lookup_insert_ne.
  apply not_eq_sym. by eapply not_elem_of_resolved.
Qed.

Lemma keeps_shutil_copy2 paths src dst : dst ∈ paths → keeps_within paths (shutil_copy2 src dst).
Proof.
  intros Hd w. unfold shutil_copy2. unfold bind at 1. unfold get.
  unfold bind at 1. unfold emit, modify.
  unfold bind at 1. unfold stat, lookup_path, bind at 1, ret, raise.
  cbn [fs log_event cwd]. rewrite resolve_log_event.
  destruct (decide (src = EmptyString)); [done |].
  destruct (fs w !! resolve w src) as [nd|]; [| done].
  destruct (is_dir nd); [done |].
  unfold bind, next_attempt, write_node, get, modify. cbn.
  assert (∀ q x (m : gmap string node),
            q ∉ resolve w <$> paths → <[resolve w dst := x]> m !! q = m !! q) as Hins.
  { intros q x m Hq. apply lookup_insert_ne. apply not_eq_sym. by eapply not_elem_of_resolved. }
  destruct (io_script w) as [|[| data | [part|]] rest]; cbn;
    split_and!; try done; intros q Hq; by apply Hins.
Qed.

Section Footprint.

Context `{!Collaborators}.

Lemma keeps_calc_chksum paths p ty : keeps_within paths (calc_chksum p ty).
Proof.
  unfold calc_chksum. apply keeps_bind; [apply keeps_stat |]. intros nd.
  destruct (is_dir nd); [apply keeps_raise |].
  apply keeps_bind; [| intros; apply keeps_ret].
  unfold as_str. destruct ty; first [apply keeps_ret | apply keeps_raise].
Qed.

Lemma keeps_copy_attempt paths src e ty dst :
  dst ∈ paths → PyStr.dirname dst = EmptyString ∨ PyStr.dirname dst ∈ paths →
  keeps_within paths (copy_attempt src e ty dst).
Proof.
  intros Hd Hdd. unfold copy_attempt.
  apply keeps_bind; [by apply keeps_os_makedirs |]. intros _.
  apply keeps_bind; [by apply keeps_shutil_copy2 |]. intros _.
  apply keeps_bind; [apply keeps_calc_chksum |]. intros actual.
  destruct (decide (e = PNone)); [apply keeps_ret |].
  destruct (decide (e ≠ PStr actual)); [| apply keeps_ret].
  apply keeps_bind; [apply keeps_emit |]. intros _.
  apply keeps_bind; [by apply keeps_os_unlink |]. intros _. apply keeps_ret.
Qed.

Lemma keeps_copy_failed paths dst : dst ∈ paths → keeps_within paths (copy_failed dst).
Proof.
  intros Hd. unfold copy_failed.
  apply keeps_bind; [apply keeps_emit |]. intros _.
  apply keeps_bind; [apply keeps_os_path_exists |]. intros ex.
  apply keeps_bind; [| intros; apply keeps_ret].
  destruct ex; [by apply keeps_os_unlink | apply keeps_ret].
Qed.

Lemma keeps_copy_loop paths n src e ty dst :
  dst ∈ paths → PyStr.dirname dst = EmptyString ∨ PyStr.dirname dst ∈ paths →
  keeps_within paths (copy_loop n src e ty dst).
Proof.
  intros Hd Hdd. induction n as [|n IH]; [apply keeps_ret |].
  cbn [copy_loop]. apply keeps_bind.
  - unfold loop_pass. apply keeps_try_except; [by apply keeps_copy_attempt |].
    intros _. by apply keeps_copy_failed.
  - intros [|]; [apply keeps_ret | exact IH].
Qed.

Lemma keeps_move_file_to_dbb paths src e ty dst max_tries :
  src ∈ paths → dst ∈ paths →
  PyStr.dirname dst = EmptyString ∨ PyStr.dirname dst ∈ paths →
  keeps_within paths (move_file_to_dbb src e ty dst max_tries).
Proof.
  intros Hs Hd Hdd. unfold move_file_to_dbb. apply keeps_bind.
  - by apply keeps_copy_loop.
  - intros [|]; cbn [negb]; [by apply keeps_os_unlink | apply keeps_raise].
Qed.

(** X5.  Let [move_file_to_dbb] be called with a destination that is not a
    directory and is another path than the source.  Whatever the other
    arguments and whatever the outcome, the registry and the current
    directory are as they were, and so is every path that is neither the
    source, nor the destination, nor a directory above one of them. *)
Theorem move_file_to_dbb_confined (src : string) (expected_chksum chksum_type : pyval)
    (dst : string) (max_tries : nat) (w : World) :
  (∀ x, fs w !! resolve w dst = Some x → is_dir x = false) →
  resolve w src ≠ resolve w dst →
  let w' := (move_file_to_dbb src expected_chksum chksum_type dst max_tries w).2 in
  cwd w' = cwd w ∧ dbh w' = dbh w ∧
  ∀ p, away_from p (resolve w src) → away_from p (resolve w dst) → fs w' !! p = fs w !! p.
Proof.
  intros _ _ w'. subst w'.
  destruct (decide (PyStr.dirname dst = EmptyString)) as [Hd | Hd].
  - destruct (keeps_move_file_to_dbb [src; dst] src expected_chksum chksum_type dst max_tries)
      with (w := w) as (Hcwd & Hdb & Hfs).
    + by left.
    + right. by left.
    + by left.
    + split_and!; [done | done |]. intros p [Hps _] [Hpd _]. apply Hfs.
      rewrite !fmap_cons, !elem_of_cons, fmap_nil, elem_of_nil. tauto.
  - destruct (keeps_move_file_to_dbb [src; dst; PyStr.dirname dst]
                src expected_chksum chksum_type dst max_tries)
      with (w := w) as (Hcwd & Hdb & Hfs).
    + by left.
    + right. by left.
    + right. right. right. by left.
    + split_and!; [done | done |]. intros p [Hps _] [Hpd Hup]. apply Hfs.
      rewrite !fmap_cons, !elem_of_cons, fmap_nil, elem_of_nil.
      intros [-> | [-> | [-> | []]]]; [done | done |].
      apply Hup. by apply resolve_dirname_above.
Qed.

End Footprint.

(** ** Retries and a missing source *)

Section Retries.

Context `{!Collaborators}.

Lemma loop_pass_source_missing src e ty dst w :
  source_missing src dst w →
  ∃ w1,
    loop_pass src e ty dst w = (Ok false, w1) ∧
    cwd w1 = cwd w ∧
    copies (trace w1) = S (copies (trace w)) ∧
    fs w1 !! resolve w dst = None ∧
    source_missing src dst w1.
Proof.
  intros (Hs & Hdd & Hsrc & Hne & Hpar & Hdst).
  pose proof (resolve_dirname_ne w dst Hdd) as HDD.
  assert (dst ≠ EmptyString) as Hd by (by destruct dst).
  destruct (os_makedirs_ok (PyStr.dirname dst) w Hdd Hpar)
    as (w0 & Hmk & Hcwd0 & _ & _ & _ & Htr0 & Hfs0 & Hpar0).
  assert (∀ p, resolve w0 p = resolve w p) as Hres0 by (intros; by apply resolve_same_cwd).
  unfold loop_pass, try_except, copy_attempt.
  erewrite bind_ok by exact Hmk.
  erewrite bind_raise; last first.
  { unfold shutil_copy2. erewrite bind_ok by reflexivity.
    unfold emit. erewrite bind_ok by reflexivity.
    erewrite bind_raise; [reflexivity |].
    apply stat_missing. cbn [fs log_event]. rewrite resolve_log_event, Hres0.
    rewrite Hfs0 by done. exact Hsrc. }
  cbn [is_IOError].
  set (wc := log_event (EvCopy (resolve w0 src) (resolve w0 dst)) w0).
  destruct (copy_failed_spec dst wc Hd) as (w1 & Hcf & Hcwd1 & _ & _ & Htr1 & Hfs1).
  { unfold wc. cbn [fs log_event]. rewrite resolve_log_event, Hres0.
    rewrite Hfs0 by done. apply Hdst. }
  assert (∀ p, resolve w1 p = resolve w p) as Hres1.
  { intros p. rewrite <- Hres0. apply resolve_same_cwd. by rewrite Hcwd1. }
  assert (fs w1 = delete (resolve w dst) (fs w0)) as Hfs1'.
  { rewrite Hfs1. unfold wc. cbn [fs log_event]. by rewrite resolve_log_event, Hres0. }
  clear Hfs1. rename Hfs1' into Hfs1.
  exists w1. split; [exact Hcf |]. split_and!.
  - rewrite Hcwd1. done.
  - rewrite Htr1. unfold wc. cbn [trace log_event]. rewrite copies_app, Htr0. cbn. lia.
  - rewrite Hfs1. apply lookup_delete_eq.
  - unfold source_missing. rewrite !Hres1. split_and!; try done.
    + rewrite Hfs1. destruct (decide (resolve w dst = resolve w src)) as [E|E].
      * rewrite E. apply lookup_delete_eq.
      * rewrite lookup_delete_ne by done. rewrite Hfs0 by done. exact Hsrc.
    + intros x. rewrite Hfs1, lookup_delete_ne by (by apply not_eq_sym). apply Hpar0.
    + intros x. by rewrite Hfs1, lookup_delete_eq.
Qed.

Lemma copy_loop_source_missing src e ty dst n w :
  source_missing src dst w →
  ∃ w1,
    copy_loop n src e ty dst w = (Ok false, w1) ∧
    cwd w1 = cwd w ∧
    copies (trace w1) = (copies (trace w) + n)%nat ∧
    (n ≠ O → fs w1 !! resolve w dst = None) ∧
    source_missing src dst w1.
Proof.
  revert w. induction n as [|n IH]; intros w Hm.
  - exists w. cbn [copy_loop]. split_and!; first [done | lia].
  - destruct (loop_pass_source_missing src e ty dst w Hm) as (w1 & Hpass & Hcwd & Hc & Hdst & Hm1).
    destruct (IH w1 Hm1) as (w2 & Hloop & Hcwd2 & Hc2 & Hdst2 & Hm2).
    assert (∀ p, resolve w1 p = resolve w p) as Hres by (intros; by apply resolve_same_cwd).
    exists w2. cbn [copy_loop]. erewrite bind_ok by exact Hpass.
    split; [exact Hloop |]. split_and!; try done.
    + congruence.
    + lia.
    + intros _. destruct n as [|n].
      * cbn [copy_loop] in Hloop. injection Hloop as <-. exact Hdst.
      * rewrite <- Hres. by apply Hdst2.
Qed.

(** X6.  When the source file does not exist, [move_file_to_dbb] with a
    positive [max_tries] attempts [max_tries] copies and raises
    [IOError("Cannot cp file (src->dst)")]; no file is left at the
    destination, so a file that was there before the call has been deleted
    by the [except IOError] clause. *)
Theorem move_file_to_dbb_source_missing src e ty dst max_tries w :
  source_missing src dst w →
  max_tries ≠ O →
  ∃ w1,
    move_file_to_dbb src e ty dst max_tries w =
      (Raise (IOError ("Cannot cp file (" +:+ src +:+ "->" +:+ dst +:+ ")")), w1) ∧
    copies (trace w1) = (copies (trace w) + max_tries)%nat ∧
    fs w1 !! resolve w dst = None ∧
    fs w1 !! resolve w src = None.
Proof.
  intros Hm Hn.
  destruct (copy_loop_source_missing src e ty dst max_tries w Hm)
    as (w1 & Hloop & Hcwd & Hc & Hdst & Hm1).
  exists w1. unfold move_file_to_dbb. erewrite bind_ok by exact Hloop. cbn [negb].
  split_and!; try done; [by apply Hdst |].
  destruct Hm1 as (_ & _ & Hsrc & _).
  by rewrite (resolve_same_cwd w w1 src Hcwd) in Hsrc.
Qed.

Lemma first_accepted_after_rejected expected ty nd n fails a rest x :
  Forall (rejected expected ty nd) fails →
  landed a nd = Some x →
  accepts expected ty x = true →
  (length fails < n)%nat →
  first_accepted expected ty nd n (fails ++ a :: rest) = Some (length fails, x).
Proof.
  intros Hfails Ha Hacc. revert n. induction Hfails as [|f fails Hf _ IH]; intros n Hn.
  - destruct n as [|n]; [simpl in Hn; lia |].
    change (first_accepted expected ty nd (S n) ([] ++ a :: rest)) with
      (match landed a nd with
       | Some y => if accepts expected ty y then Some (O, y)
                   else prod_map S id <$> first_accepted expected ty nd n rest
       | None => prod_map S id <$> first_accepted expected ty nd n rest
       end).
    by rewrite Ha, Hacc.
  - destruct n as [|n]; [simpl in Hn; lia |].
    change (first_accepted expected ty nd (S n) ((f :: fails) ++ a :: rest)) with
      (match landed f nd with
       | Some y => if accepts expected ty y then Some (O, y)
                   else prod_map S id <$> first_accepted expected ty nd n (fails ++ a :: rest)
       | None => prod_map S id <$> first_accepted expected ty nd n (fails ++ a :: rest)
       end).
    unfold rejected in Hf. rewrite IH by (simpl in Hn; lia).
    destruct (landed f nd) as [y|]; [rewrite Hf |]; done.
Qed.

(** X7.  With an expected checksum, every copy that raises or whose checksum
    differs is retried: when the script holds [k] such steps and then one
    that leaves a file with the expected checksum, [k] below [max_tries],
    the call returns after exactly [k + 1] copies, the steps behind are not
    consumed, the destination holds that file and the source is gone. *)
Theorem move_file_to_dbb_retries src c ty dst nd max_tries w fails a rest x :
  transfer_ready src dst nd w →
  io_script w = fails ++ a :: rest →
  Forall (rejected (PStr c) ty nd) fails →
  landed a nd = Some x →
  chksum ty (n_data x) = c →
  (length fails < max_tries)%nat →
  ∃ w',
    move_file_to_dbb src (PStr c) (PStr ty) dst max_tries w = (Ok tt, w') ∧
    copies (trace w') = (copies (trace w) + S (length fails))%nat ∧
    io_script w' = rest ∧
    fs w' !! resolve w src = None ∧
    fs w' !! resolve w dst = Some x.
Proof.
  intros Hready Hscr Hfails Ha Hx Hlen.
  destruct (copy_loop_spec src (PStr c) ty dst nd max_tries w Hready)
    as (w0 & Hloop0 & _ & _ & _ & Hrest0).
  destruct (move_file_to_dbb_outcome src (PStr c) ty dst nd max_tries w Hready)
    as (w1 & Hloop & _ & _ & Hsrc & Hrest).
  rewrite Hloop0 in Hloop. injection Hloop as <-.
  rewrite Hscr in Hrest, Hrest0.
  assert (accepts (PStr c) ty x = true) as Hacc.
  { unfold accepts. rewrite <- Hx. rewrite (bool_decide_true (PStr _ = PStr _)) by done.
    by rewrite orb_true_r. }
  rewrite (first_accepted_after_rejected (PStr c) ty nd max_tries fails a rest x)
    in Hrest, Hrest0 by done.
  destruct Hrest as (Hdst & Hc & Hmove). destruct Hrest0 as (_ & _ & Hs).
  destruct Hready as (_ & _ & _ & _ & Hne & _).
  eexists. split; [exact Hmove |]. wsimpl. split_and!.
  - rewrite copies_app, Hc. cbn. lia.
  - rewrite Hs. replace (S (length fails)) with (length fails + 1)%nat by lia.
    rewrite <- drop_drop. rewrite drop_app_length. done.
  - apply lookup_delete_eq.
  - by rewrite lookup_delete_ne.
Qed.

End Retries.

(** ** The registry functions *)

Ltac in_list := first [done | split; [repeat constructor | done]].

Ltac columns Hk :=
  repeat (apply elem_of_cons in Hk as [-> | Hk]; [by simplify_map_eq |]);
  by apply elem_of_nil in Hk.


Lemma find_snoc {A} (f : A → bool) l x :
  find f (l ++ [x]) = match find f l with
                      | Some y => Some y
                      | None => if f x then Some x else None
                      end.
Proof. induction l as [|y l IH]; simpl; [done |]. by destruct (f y). Qed.

(** X8.  When [bad_info] holds the five columns of the second [copyvals], and
    [src_info] is [None] or holds its six keys, [save_bad_file_db] inserts
    one row and commits: what was pending in the transaction is committed
    with the row, and no file is touched.  The row takes the five columns
    from [bad_info]; with [src_info] at [None] it has no other column, and
    otherwise it has the five values of [src_info] and its [process_id]
    under [file_registration_process_id].  Other keys of the two
    dictionaries, [delivery_date] among them, are not bound. *)
Theorem save_bad_file_db_commits (bad_info : gmap string pyval)
    (src_info : option (gmap string pyval)) (w : World) :
  Forall (fun k => is_Some (bad_info !! k)) bad_columns →
  (∀ si, src_info = Some si → Forall (fun k => is_Some (si !! k)) ("process_id" :: src_columns)) →
  ∃ row w',
    db_funcs.save_bad_file_db bad_info src_info w = (Ok tt, w') ∧
    committed (dbh w') = add_bad_file row (pending (dbh w)) ∧
    pending (dbh w') = committed (dbh w') ∧
    fs w' = fs w ∧
    (∀ k, k ∈ bad_columns → row !! k = bad_info !! k) ∧
    match src_info with
    | None => dom row = list_to_set bad_columns
    | Some si =>
        (∀ k, k ∈ src_columns → row !! k = si !! k) ∧
        row !! "file_registration_process_id" = si !! "process_id" ∧
        dom row = list_to_set ("file_registration_process_id" :: src_columns ++ bad_columns)
    end.
Proof.
  intros Hbad Hsrc.
  repeat (apply Forall_cons in Hbad as [[? ?] Hbad]).
  destruct src_info as [si|].
  - specialize (Hsrc si eq_refl).
    repeat (apply Forall_cons in Hsrc as [[? ?] Hsrc]).
    unfold db_funcs.save_bad_file_db.
    erewrite bind_ok; last first.
    { repeat (erewrite bind_ok by (by apply getitem_ok)). reflexivity. }
    repeat (erewrite bind_ok by (by apply getitem_ok)).
    match goal with |- context [insert_bad_file ?r] => exists r end.
    eexists. split; [reflexivity |]. wsimpl.
    split; [done |]. split; [done |]. split; [done |].
    split; [intros k Hk; unfold bad_columns in Hk; columns Hk |].
    split; [intros k Hk; unfold src_columns in Hk; columns Hk |].
    split; [by simplify_map_eq |].
    rewrite !dom_insert_L, dom_empty_L. unfold src_columns, bad_columns. cbn. set_solver.
  - unfold db_funcs.save_bad_file_db.
    erewrite bind_ok by reflexivity.
    repeat (erewrite bind_ok by (by apply getitem_ok)).
    match goal with |- context [insert_bad_file ?r] => exists r end.
    eexists. split; [reflexivity |]. wsimpl.
    split; [done |]. split; [done |]. split; [done |].
    split; [intros k Hk; unfold bad_columns in Hk; columns Hk |].
    rewrite !dom_insert_L, dom_empty_L. unfold bad_columns. cbn. set_solver.
Qed.

(** X9.  When one of the keys that [save_bad_file_db] reads is missing, it
    raises [KeyError] for a missing key and the world is as it was: nothing
    is inserted and nothing is committed. *)
Theorem save_bad_file_db_missing_key (bad_info : gmap string pyval)
    (src_info : option (gmap string pyval)) (w : World) :
  Exists (fun k => bad_info !! k = None) bad_columns ∨
  (∃ si, src_info = Some si ∧ Exists (fun k => si !! k = None) ("process_id" :: src_columns)) →
  ∃ k, db_funcs.save_bad_file_db bad_info src_info w = (Raise (KeyError k), w) ∧
       (k ∈ bad_columns ∧ bad_info !! k = None ∨
        ∃ si, src_info = Some si ∧ k ∈ "process_id" :: src_columns ∧ si !! k = None).
Proof.
  intros Hmiss.
  assert (Hsrc : ∀ si, src_info = Some si →
            Forall (fun k => is_Some (si !! k)) ("process_id" :: src_columns) ∨
            ∃ k, db_funcs.save_bad_file_db bad_info src_info w = (Raise (KeyError k), w) ∧
                 k ∈ "process_id" :: src_columns ∧ si !! k = None).
  { intros si ->. unfold db_funcs.save_bad_file_db, src_columns.
    destruct (si !! "filename") eqn:E1;
      [| right; exists "filename"; unfold bind, getitem; rewrite E1; split; [done | in_list]].
    destruct (si !! "dataset_type") eqn:E2;
      [| right; exists "dataset_type"; unfold bind, getitem; rewrite E1, E2; split; [done | in_list]].
    destruct (si !! "filesize") eqn:E3;
      [| right; exists "filesize"; unfold bind, getitem; rewrite E1, E2, E3;
         split; [done | in_list]].
    destruct (si !! "chksum") eqn:E4;
      [| right; exists "chksum"; unfold bind, getitem; rewrite E1, E2, E3, E4;
         split; [done | in_list]].
    destruct (si !! "chksum_type") eqn:E5;
      [| right; exists "chksum_type"; unfold bind, getitem; rewrite E1, E2, E3, E4, E5;
         split; [done | in_list]].
    destruct (si !! "process_id") eqn:E6;
      [| right; exists "process_id"; unfold bind, getitem; rewrite E1, E2, E3, E4, E5, E6;
         split; [done | in_list]].
    left. repeat (apply Forall_cons; split; [by eauto |]). apply Forall_nil_2. }
  destruct src_info as [si|].
  - destruct (Hsrc si eq_refl) as [Hall | (k & Hk & Hin & Hnone)].
    + destruct Hmiss as [Hbad | (si' & [= <-] & Hex)].
      2:{ apply Exists_exists in Hex as (k & Hin & Hnone).
          rewrite Forall_forall in Hall. destruct (Hall k Hin) as [? ?]. congruence. }
      repeat (apply Forall_cons in Hall as [[? ?] Hall]).
      unfold db_funcs.save_bad_file_db.
      erewrite bind_ok; last first.
      { repeat (erewrite bind_ok by (by apply getitem_ok)). reflexivity. }
      unfold bad_columns in *.
      destruct (bad_info !! "uniq_filename") eqn:B1;
        [| exists "uniq_filename"; unfold bind, getitem; rewrite B1; split; [done | left; in_list]].
      destruct (bad_info !! "relpath") eqn:B2;
        [| exists "relpath"; unfold bind, getitem; rewrite B1, B2; split; [done | left; in_list]].
      destruct (bad_info !! "disk_usage") eqn:B3;
        [| exists "disk_usage"; unfold bind, getitem; rewrite B1, B2, B3;
           split; [done | left; in_list]].
      destruct (bad_info !! "rejected_msg") eqn:B4;
        [| exists "rejected_msg"; unfold bind, getitem; rewrite B1, B2, B3, B4;
           split; [done | left; in_list]].
      destruct (bad_info !! "rejected_date") eqn:B5;
        [| exists "rejected_date"; unfold bind, getitem; rewrite B1, B2, B3, B4, B5;
           split; [done | left; in_list]].
      exfalso. apply Exists_exists in Hbad as (k & Hin & Hnone).
      repeat (apply elem_of_cons in Hin as [-> | Hin]; [congruence |]).
      by apply elem_of_nil in Hin.
    + exists k. split; [done |]. right. by exists si.
  - destruct Hmiss as [Hbad | (si' & [=] & _)].
    unfold db_funcs.save_bad_file_db.
    erewrite bind_ok by reflexivity.
    unfold bad_columns in *.
    destruct (bad_info !! "uniq_filename") eqn:B1;
      [| exists "uniq_filename"; unfold bind, getitem; rewrite B1; split; [done | left; in_list]].
    destruct (bad_info !! "relpath") eqn:B2;
      [| exists "relpath"; unfold bind, getitem; rewrite B1, B2; split; [done | left; in_list]].
    destruct (bad_info !! "disk_usage") eqn:B3;
      [| exists "disk_usage"; unfold bind, getitem; rewrite B1, B2, B3;
         split; [done | left; in_list]].
    destruct (bad_info !! "rejected_msg") eqn:B4;
      [| exists "rejected_msg"; unfold bind, getitem; rewrite B1, B2, B3, B4;
         split; [done | left; in_list]].
    destruct (bad_info !! "rejected_date") eqn:B5;
      [| exists "rejected_date"; unfold bind, getitem; rewrite B1, B2, B3, B4, B5;
         split; [done | left; in_list]].
    exfalso. apply Exists_exists in Hbad as (k & Hin & Hnone).
    repeat (apply elem_of_cons in Hin as [-> | Hin]; [congruence |]).
    by apply elem_of_nil in Hin.
Qed.

(** X10.  [save_datastore_info] followed by [filename_exists_in_dbb]: the
    file name just saved is found within the same transaction, the answer
    for any other file name is what it was, nothing is committed, and behind
    a rollback the answer for the saved name is again the one that the
    committed tables give. *)
Theorem save_datastore_info_then_exists (src_info : gmap string pyval) (relpath : string)
    (dataset_id : Z) (fname : pyval) (w : World) :
  src_info !! "filename" = Some fname →
  is_Some (src_info !! "filesize") →
  is_Some (src_info !! "chksum") →
  is_Some (src_info !! "chksum_type") →
  ∃ w1,
    db_funcs.save_datastore_info src_info relpath dataset_id w = (Ok tt, w1) ∧
    db_funcs.filename_exists_in_dbb fname w1 = (Ok true, w1) ∧
    (∀ other, other ≠ fname →
       db_funcs.filename_exists_in_dbb other w1 = (Ok (has_filename (pending (dbh w)) other), w1)) ∧
    committed (dbh w1) = committed (dbh w) ∧
    db_funcs.filename_exists_in_dbb fname (rolled_back w1)
      = (Ok (has_filename (committed (dbh w)) fname), rolled_back w1).
Proof.
  intros Hfn [sz Hsz] [ck Hck] [ct Hct].
  unfold db_funcs.save_datastore_info.
  repeat (erewrite bind_ok by (by apply getitem_ok)).
  eexists. split; [reflexivity |].
  rewrite !filename_exists_in_dbb_spec.
  unfold rolled_back, rollback, insert_datastore, bind, modify, emit, ret, has_filename.
  cbn [fst snd fs cwd dbh clock io_script trace set_fs set_dbh log_event
       pending committed set_pending t_datastore_dbb].
  split_and!; try done.
  - rewrite find_snoc. cbn [st_filename]. rewrite (bool_decide_true (fname = fname)) by done.
    f_equal. f_equal. apply bool_decide_true. by destruct (find _ _); eauto.
  - intros other Hne. rewrite filename_exists_in_dbb_spec.
    cbn [fst snd fs cwd dbh clock io_script trace set_fs set_dbh log_event
         pending committed set_pending t_datastore_dbb].
    rewrite find_snoc. cbn [st_filename]. rewrite (bool_decide_false (fname = other)) by done.
    by destruct (find _ _).
Qed.

(** X11.  [register_file_data] draws the dataset id from the sequence before
    it reads [src_info]: the sequence advances by one whether the call
    returns or raises.  With both keys present it returns the value drawn
    and appends one [dataset] row with that id to the transaction; with
    [process_id] or [dataset_type] missing it raises [KeyError] and appends
    nothing.  Nothing is committed. *)
Theorem register_file_data_draws_first (src_info : gmap string pyval) (w : World) :
  ∃ w',
    db_funcs.register_file_data src_info w =
      (match src_info !! "process_id", src_info !! "dataset_type" with
       | Some _, Some _ => Ok (dataset_seq (dbh w))
       | None, _ => Raise (KeyError "process_id")
       | Some _, None => Raise (KeyError "dataset_type")
       end, w') ∧
    dataset_seq (dbh w') = dataset_seq (dbh w) + 1 ∧
    committed (dbh w') = committed (dbh w) ∧
    t_dataset (pending (dbh w')) =
      t_dataset (pending (dbh w)) ++
      match src_info !! "process_id", src_info !! "dataset_type" with
      | Some p, Some d => [mk_dataset (dataset_seq (dbh w)) p d]
      | _, _ => []
      end.
Proof.
  unfold db_funcs.register_file_data, bind, getitem, dataset_seq_nextval, ret, raise.
  destruct (src_info !! "process_id"), (src_info !! "dataset_type");
    eexists; (split; [reflexivity |]); wsimpl; by rewrite ?app_nil_r.
Qed.

Lemma month_above_dest cfg w tar :
  above (resolve w (PyStr.slash (bad_file_dir cfg) (bad_relpath w)))
        (resolve w (bad_dest cfg w tar)).
Proof.
  exists (PyStr.basename tar). unfold bad_dest. apply resolve_slash, slash_nonempty.
Qed.

(** X12.  [handle_bad_file] on a bundle whose manifest names the tarball and
    the process: the call returns; the changes pending in the transaction
    are discarded and exactly one row of [dbb_bad_file] is added to the
    committed tables, with the message given and without the delivery date;
    the tarball is at its place in the bad-file area, where it replaces
    whatever file was there; and every path that is neither the tarball, nor
    its new place, nor a directory above one of them is as it was. *)
Theorem quarantine_records_bundle (cfg : config) (si : gmap string pyval)
    (tar msg : string) (nd : node) (w : World) :
  recordable si tar →
  quarantine_ready cfg tar nd w →
  ∃ w',
    handle_bad_file cfg (Some si) msg w = (Ok tt, w') ∧
    committed (dbh w') =
      add_bad_file (bad_file_row si tar msg (content_size (n_data nd)) w) (committed (dbh w)) ∧
    pending (dbh w') = committed (dbh w') ∧
    bad_file_row si tar msg (content_size (n_data nd)) w !! "rejected_msg" = Some (PStr msg) ∧
    bad_file_row si tar msg (content_size (n_data nd)) w !! "delivery_date" = None ∧
    fs w' !! resolve w tar = None ∧
    fs w' !! resolve w (bad_dest cfg w tar) = Some nd ∧
    (∀ p, away_from p (resolve w tar) → away_from p (resolve w (bad_dest cfg w tar)) →
          fs w' !! p = fs w !! p).
Proof.
  intros Hrec Hq.
  destruct (handle_bad_file_parsed cfg si tar msg nd w Hrec Hq)
    as (w' & Hbad & Hcom & Hpend & _ & _ & _ & _ & Hgone & Hthere & Hframe).
  exists w'. split_and!; try done.
  intros p [Hpt _] [Hpd Hup]. apply Hframe; [done | done |].
  intros ->. apply Hup, month_above_dest.
Qed.

(** X13.  [handle_bad_file] on a manifest that has no [process_id] yet: the
    tarball is moved to the bad-file area first, and then
    [save_bad_file_db] raises [KeyError('process_id')]; the tarball has left
    the staging area but no row of [dbb_bad_file] records it, and the
    registry is as the initial rollback left it. *)
Theorem handle_bad_file_unresolved (cfg : config) (si : gmap string pyval)
    (tar msg : string) (nd : node) (w : World) :
  unresolved si tar →
  quarantine_ready cfg tar nd w →
  ∃ w',
    handle_bad_file cfg (Some si) msg w = (Raise (KeyError "process_id"), w') ∧
    fs w' !! resolve w tar = None ∧
    fs w' !! resolve w (bad_dest cfg w tar) = Some nd ∧
    dbh w' = dbh (rolled_back w) ∧
    t_dbb_bad_file (pending (dbh w')) = t_dbb_bad_file (committed (dbh w)).
Proof.
  intros (Htf & [t Ht] & Hcols & Hpid) Hq.
  unfold src_columns in Hcols.
  repeat (apply Forall_cons in Hcols as [[? ?] Hcols]).
  assert (quarantine_ready cfg tar nd (rolled_back w)) as Hq' by exact Hq.
  destruct (move_bad_file_ok cfg tar nd (rolled_back w) Hq')
    as (w1 & Hmv & Hcwd1 & Hdb1 & Hclk1 & Hgone & Hthere & Hframe).
  destruct Hq as (Htar & Hnd & _).
  unfold handle_bad_file.
  erewrite bind_ok by reflexivity. fold (rolled_back w).
  unfold getitem_opt.
  erewrite bind_ok by (by apply getitem_ok).
  erewrite bind_ok; last first.
  { erewrite bind_ok by (by apply getitem_ok). reflexivity. }
  erewrite bind_ok by (by apply getitem_ok).
  erewrite bind_ok by reflexivity.
  erewrite bind_ok; last first.
  { unfold os_path_getsize. erewrite bind_ok by (apply stat_ok; [done | exact Hnd]). reflexivity. }
  erewrite bind_ok by reflexivity.
  erewrite bind_ok by exact Hmv.
  unfold db_funcs.save_bad_file_db.
  erewrite bind_raise; last first.
  { repeat (erewrite bind_ok by (by apply getitem_ok)).
    erewrite bind_raise by (by apply getitem_missing). reflexivity. }
  exists w1. split_and!; try done. by rewrite Hdb1.
Qed.


(** ** Computations that only read *)

Lemma reads_ret {A} (a : A) : reads_only (ret a).
Proof. done. Qed.
Lemma reads_raise {A} e : reads_only (@raise A e).
Proof. done. Qed.
Lemma reads_lift {A} (r : result A) : reads_only (lift r).
Proof. done. Qed.
Lemma reads_bind {A B} (m : M A) (k : A → M B) :
  reads_only m → (∀ a, reads_only (k a)) → reads_only (bind m k).
Proof.
  intros Hm Hk w. unfold bind. specialize (Hm w).
  destruct (m w) as [[a|e] w1]; simpl in Hm; subst w1; [apply Hk | done].
Qed.
Lemma reads_getitem {V} (d : gmap string V) k : reads_only (getitem d k).
Proof. intros w. unfold getitem. by destruct (d !! k). Qed.
Lemma reads_as_str v : reads_only (as_str v).
Proof. intros w. by destruct v. Qed.
Lemma reads_stat p : reads_only (stat p).
Proof.
  intros w. unfold stat, lookup_path, bind.
  by destruct (if decide (p = EmptyString) then None else fs w !! resolve w p).
Qed.
Lemma reads_read_file p : reads_only (read_file p).
Proof.
  apply reads_bind; [apply reads_stat |]. intros nd w. by destruct (n_data nd).
Qed.
Lemma reads_os_path_exists p : reads_only (os_path_exists p).
Proof. done. Qed.

Lemma reads_ok {A} (m : M A) w a w' : reads_only m → m w = (Ok a, w') → w' = w.
Proof. intros H E. specialize (H w). by rewrite E in H. Qed.

Lemma stat_inv p w nd w' :
  stat p w = (Ok nd, w') → w' = w ∧ p ≠ EmptyString ∧ fs w !! resolve w p = Some nd.
Proof.
  unfold stat, lookup_path, bind, ret, raise.
  destruct (decide (p = EmptyString)); [done |].
  destruct (fs w !! resolve w p); [| done]. by intros [= <- <-].
Qed.

Lemma digest_get_inv (d : gmap string string) k w v w' :
  digest_get d k w = (Ok v, w') → w' = w ∧ ∃ k', k = Some k' ∧ d !! k' = Some v.
Proof.
  destruct k as [k'|]; [| done]. unfold digest_get, getitem.
  destruct (d !! k') eqn:E; [| done]. intros [= <- <-]. eauto.
Qed.

Lemma path_arg_inv p w s w' : path_arg p w = (Ok s, w') → w' = w ∧ p = Some s.
Proof. destruct p; [| done]. by intros [= <- <-]. Qed.

Section Checksums.

Context `{!Collaborators}.

Lemma reads_calc_chksum name ty : reads_only (calc_chksum name ty).
Proof.
  apply reads_bind; [apply reads_stat |]. intros nd.
  destruct (is_dir nd); [apply reads_raise |].
  apply reads_bind; [apply reads_as_str | intros; apply reads_ret].
Qed.

Lemma reads_integrity_check f e : reads_only (integrity_check f e).
Proof.
  apply reads_bind; [apply reads_calc_chksum |]. intros a.
  destruct (decide (e ≠ a)); [apply reads_raise | apply reads_ret].
Qed.

Lemma reads_read_info_file f : reads_only (read_info_file f).
Proof.
  apply reads_bind; [apply reads_read_file |]. intros t.
  destruct (yaml_load t); [apply reads_ret | apply reads_raise].
Qed.

Lemma integrity_check_inv f e w w' :
  integrity_check f e w = (Ok tt, w') →
  w' = w ∧ ∃ nd, fs w !! resolve w f = Some nd ∧ is_dir nd = false ∧
                 e = chksum "md5" (n_data nd).
Proof.
  intros Hok. split; [by eapply reads_ok; [apply reads_integrity_check |] |].
  unfold integrity_check, calc_chksum in Hok.
  apply bind_ok_inv in Hok as (a & w1 & Hc & Hok).
  apply bind_ok_inv in Hc as (nd & w2 & Hst & Hc).
  apply stat_inv in Hst as (-> & _ & Hnd).
  exists nd. destruct (is_dir nd); [done |]. split; [done |]. split; [done |].
  cbn in Hc. injection Hc as <- <-.
  destruct (decide (e ≠ chksum "md5" (n_data nd))) as [|Heq]; [done |].
  by apply dec_stable in Heq.
Qed.

Lemma leaves_registration_process si : leaves_files (registration_process si).
Proof.
  intros w. unfold registration_process, db_funcs.get_registration_process_id,
    db_funcs.save_registration_info, db_funcs.create_new_process,
    bind, getitem, get, ret, raise, process_seq_nextval, insert_process,
    insert_file_registration, insert_lookup, commit, modify, emit, datetime_fromtimestamp.
  destruct (si !! "uuid"); [| done]. cbn [fst snd].
  destruct (find _ _); [done |]. cbn.
  destruct (si !! "exec_name"); [| done].
  destruct (si !! "exec_host"); [| done].
  destruct (si !! "timestamp") as [[]|]; try done.
  destruct (si !! "user"); [| done].
  destruct (si !! "prov_msg"); [| done].
  done.
Qed.

(** X14.  When the bundle has been read and its process resolved, the
    payload's name is known, the payload is a file of the scratch directory,
    and the checksum that the manifest gives for it, the one that
    [move_file_to_dbb] will expect, is the md5 checksum of that file as
    extracted, which the digest gives as well; resolving the process changes
    no file. *)
Theorem bundle_checksum_is_payload_md5 (tar_filename scratch_dir : string) (w w1 w2 : World)
    (filename : option string) (digest : gmap string string) (info : gmap string pyval)
    (process_id : Z) :
  read_bundle tar_filename scratch_dir w = (Ok (filename, digest, info), w1) →
  resolve_process filename digest (<["tar_filename" := PStr tar_filename]> info) w1
    = (Ok process_id, w2) →
  ∃ p nd,
    filename = Some p ∧
    fs w1 !! resolve w1 p = Some nd ∧ is_dir nd = false ∧
    digest !! p = Some (chksum "md5" (n_data nd)) ∧
    info !! "chksum" = Some (PStr (chksum "md5" (n_data nd))) ∧
    fs w2 = fs w1 ∧ cwd w2 = cwd w1.
Proof.
  unfold read_bundle. intros H0 H1.
  apply bind_ok_inv in H0 as ([] & wa & _ & H0).
  apply bind_ok_inv in H0 as ([] & w0 & _ & H0).
  apply bind_ok_inv in H0 as ([[filename' info_fname] digest_fname] & w0' & _ & H0).
  apply bind_ok_inv in H0 as (dpath & wb & _ & H0).
  apply bind_ok_inv in H0 as (text & wc & _ & H0).
  apply bind_ok_inv in H0 as (digest' & wd & _ & H0).
  apply bind_ok_inv in H0 as (expected_info & we & _ & H0).
  apply bind_ok_inv in H0 as (ipath & wf & _ & H0).
  apply bind_ok_inv in H0 as ([] & wg & _ & H0).
  apply bind_ok_inv in H0 as (expected_file & wh & Hf & H0).
  apply bind_ok_inv in H0 as (fpath & wi & Hp & H0).
  apply bind_ok_inv in H0 as ([] & wj & Hic & H0).
  apply bind_ok_inv in H0 as (src_info & wk & Hri & H0).
  injection H0 as -> -> -> ->.
  apply (reads_ok _ _ _ _ (reads_read_info_file ipath)) in Hri as ->.
  apply digest_get_inv in Hf as (-> & p & -> & Hdp).
  apply path_arg_inv in Hp as (-> & [= <-]).
  apply integrity_check_inv in Hic as (-> & nd & Hnd & Hfile & ->).
  unfold resolve_process in H1.
  apply bind_ok_inv in H1 as (recorded & wr & Hrec & H1).
  apply digest_get_inv in Hrec as (-> & p' & [= <-] & Hrec).
  apply bind_ok_inv in H1 as (chk & wq & Hchk & H1).
  pose proof (reads_ok _ _ _ _ (reads_getitem _ _) Hchk) as ->.
  unfold getitem in Hchk. rewrite lookup_insert_ne in Hchk by done.
  destruct (info !! "chksum") as [c|] eqn:Hc; [| done]. injection Hchk as ->.
  apply bind_ok_inv in H1 as ([] & wp & Hcmp & H1).
  destruct (decide (PStr recorded ≠ chk)) as [|Heq]; [done |].
  apply dec_stable in Heq. subst chk. injection Hcmp as <-.
  assert (recorded = chksum "md5" (n_data nd)) as -> by congruence.
  match type of H1 with
  | registration_process ?s ?w0 = _ =>
      pose proof (leaves_registration_process s w0) as [Hfs Hcwd]; rewrite H1 in Hfs, Hcwd
  end.
  exists p, nd. split_and!; done.
Qed.

End Checksums.

(** ** The destination path *)

Lemma basename_go_slash cur a b :
  PyStr.basename_go cur (a +:+ String "/" b) = PyStr.basename b.
Proof.
  revert cur. induction a as [|c a IH]; intros cur; simpl.
  - done.
  - destruct (decide (c = "/"%char)); apply IH.
Qed.

Lemma basename_slash a b : PyStr.basename (PyStr.slash a b) = PyStr.basename b.
Proof. apply basename_go_slash. Qed.

Lemma basename_go_plain cur s :
  PyStr.contains "/"%char s = false → PyStr.basename_go cur s = String.rev_app cur s.
Proof.
  revert cur. induction s as [|a s IH]; intros cur; simpl; [done |].
  destruct (decide (a = "/"%char)); [done |]. intros Hs. by rewrite IH.
Qed.

Lemma basename_go_no_slash cur s :
  PyStr.contains "/"%char cur = false →
  PyStr.contains "/"%char (PyStr.basename_go cur s) = false.
Proof.
  revert cur. induction s as [|a s IH]; intros cur Hcur; simpl.
  - by rewrite contains_rev.
  - destruct (decide (a = "/"%char)); apply IH; [done |]. simpl. by rewrite decide_False.
Qed.

(** The base name of a path is a name: taking it again changes nothing. *)
Lemma basename_idem p : PyStr.basename (PyStr.basename p) = PyStr.basename p.
Proof.
  unfold PyStr.basename at 1. rewrite basename_go_plain; [done |].
  by apply basename_go_no_slash.
Qed.

Lemma reads_get_observing_nite header : reads_only (get_observing_nite header).
Proof.
  unfold get_observing_nite. destruct (header !! "obs-nite"); [apply reads_ret |].
  apply reads_bind; [apply reads_getitem |]. intros v.
  apply reads_bind; [apply reads_as_str |]. intros d.
  apply reads_bind; [| intros; apply reads_ret].
  destruct (nite_try d) as [|[]]; apply reads_lift.
Qed.

Lemma reads_get_camera_name header : reads_only (get_camera_name header).
Proof.
  apply reads_bind; [apply reads_getitem |]. intros v w. unfold get_camera_name.
  destruct v as [|s| | |]; try done.
  destruct (decide (s = "Hyper Suprime-Cam")) as [-> | ?]; [done |].
  destruct (decide (s = "ATSCAM")) as [-> | ?]; [done |].
  repeat (destruct s as [|[[] [] [] [] [] [] [] []] s]; try done).
Qed.

Section Destination.

Context `{!Collaborators}.

Lemma reads_path_value header name : reads_only (path_value header name).
Proof.
  unfold path_value. repeat case_decide;
    [apply reads_get_observing_nite | apply reads_get_camera_name | apply reads_getitem].
Qed.

Lemma collect_vals_step header name rest vals :
  collect_vals header (name :: rest) vals =
    bind (path_value header name) (fun v => collect_vals header rest (<[name := v]> vals)).
Proof. done. Qed.

Lemma reads_collect_vals header names vals : reads_only (collect_vals header names vals).
Proof.
  revert vals. induction names as [|name rest IH]; intros vals; [apply reads_ret |].
  rewrite collect_vals_step. apply reads_bind; [apply reads_path_value | intros; apply IH].
Qed.

Lemma collect_vals_spec header names vals0 w vals w' :
  collect_vals header names vals0 w = (Ok vals, w') →
  dom vals = dom vals0 ∪ list_to_set names ∧
  (∀ k, k ∉ names → vals !! k = vals0 !! k) ∧
  (∀ name, name ∈ names →
     ∃ v, path_value header name w = (Ok v, w) ∧ vals !! name = Some v).
Proof.
  revert vals0. induction names as [|name rest IH]; intros vals0.
  - intros [= <- <-]. split_and!; [| done | by intros ? ?%elem_of_nil].
    cbn [list_to_set]. by rewrite union_empty_r_L.
  - rewrite collect_vals_step. intros Hc.
    apply bind_ok_inv in Hc as (v & w1 & Hv & Hc).
    pose proof (reads_ok _ _ _ _ (reads_path_value header name) Hv) as ->.
    destruct (IH _ Hc) as (Hdom & Hout & Hin).
    split_and!.
    + rewrite Hdom, dom_insert_L. cbn [list_to_set].
      rewrite (union_comm_L {[name]} (dom vals0)). by rewrite union_assoc_L.
    + intros k Hk. apply not_elem_of_cons in Hk as [Hne Hk].
      rewrite Hout by done. by rewrite lookup_insert_ne.
    + intros n Hn. destruct (decide (n ∈ rest)) as [Hr | Hr]; [by apply Hin |].
      apply elem_of_cons in Hn as [-> | ?]; [| done].
      exists v. split; [done |]. rewrite Hout by done. apply lookup_insert_eq.
Qed.

(** X15.  When [create_rel_path] returns, it has changed nothing; the file
    was read and its header parsed, and the relative path is the pattern
    formatted with a dictionary whose keys are exactly the variables of the
    pattern, the value of each being [get_observing_nite] of the header for
    [obsnite], [get_camera_name] for [camera] and the header's own entry for
    any other name. *)
Theorem create_rel_path_values (filename pattern : string) (w w' : World) (relpath : string) :
  create_rel_path filename pattern w = (Ok relpath, w') →
  w' = w ∧
  ∃ data header vals,
    read_file filename w = (Ok data, w) ∧
    pyfits_header data = Some header ∧
    str_format pattern vals = Some relpath ∧
    dom vals = list_to_set (get_path_var_names pattern) ∧
    ∀ name, name ∈ get_path_var_names pattern →
      ∃ v, path_value header name w = (Ok v, w) ∧ vals !! name = Some v.
Proof.
  unfold create_rel_path. intros Hc.
  apply bind_ok_inv in Hc as (data & w1 & Hread & Hc).
  pose proof (reads_ok _ _ _ _ (reads_read_file filename) Hread) as ->.
  destruct (pyfits_header data) as [header|] eqn:Hh; [| done].
  apply bind_ok_inv in Hc as (vals & w1 & Hvals & Hc).
  pose proof (reads_ok _ _ _ _ (reads_collect_vals _ _ _) Hvals) as ->.
  destruct (str_format pattern vals) as [rel|] eqn:Hf; [| done].
  injection Hc as -> <-. split; [done |].
  apply collect_vals_spec in Hvals as (Hdom & _ & Hin).
  exists data, header, vals. split_and!; try done.
  by rewrite Hdom, dom_empty_L, union_empty_l_L.
Qed.

Lemma reads_create_rel_path filename pattern : reads_only (create_rel_path filename pattern).
Proof.
  apply reads_bind; [apply reads_read_file |]. intros data.
  destruct (pyfits_header data); [| apply reads_raise].
  apply reads_bind; [apply reads_collect_vals |]. intros vals.
  destruct (str_format pattern vals); [apply reads_ret | apply reads_raise].
Qed.

Lemma reads_create_dbb_path cfg si : reads_only (create_dbb_path cfg si).
Proof.
  apply reads_bind; [apply reads_getitem |]. intros dt.
  apply reads_bind; [destruct dt; first [apply reads_getitem | apply reads_raise] |]. intros pat.
  apply reads_bind; [apply reads_getitem |]. intros fname.
  apply reads_bind; [apply reads_as_str |]. intros fn.
  apply reads_bind; [apply reads_create_rel_path |]. intros rel. apply reads_ret.
Qed.

(** X16.  [create_dbb_path] changes nothing, whatever it returns.  A dataset
    type without an entry in [dir_patterns] gives [KeyError] with the type.
    When it returns, the relative path is that of [create_rel_path] for the
    pattern of the dataset type, and the full name is
    [dbb_root_dir/relpath/basename(filename)]: the file keeps its base name
    and the directories of the manifest's [filename] are dropped. *)
Theorem create_dbb_path_shape (cfg : config) (src_info : gmap string pyval) (w : World) :
  (create_dbb_path cfg src_info w).2 = w ∧
  (∀ t, src_info !! "dataset_type" = Some (PStr t) → dir_patterns cfg !! t = None →
        create_dbb_path cfg src_info w = (Raise (KeyError t), w)) ∧
  (∀ rel full, (create_dbb_path cfg src_info w).1 = Ok (rel, full) →
     ∃ fn t pattern,
       src_info !! "filename" = Some (PStr fn) ∧
       src_info !! "dataset_type" = Some (PStr t) ∧
       dir_patterns cfg !! t = Some pattern ∧
       create_rel_path fn pattern w = (Ok rel, w) ∧
       full = PyStr.slash (PyStr.slash (dbb_root_dir cfg) rel) (PyStr.basename fn) ∧
       PyStr.basename full = PyStr.basename fn).
Proof.
  split; [apply reads_create_dbb_path |]. split.
  - intros t Ht Hnone. unfold create_dbb_path.
    erewrite bind_ok by (by apply getitem_ok).
    erewrite bind_raise by (by apply getitem_missing). done.
  - intros rel full Hok.
    destruct (create_dbb_path cfg src_info w) as [r w'] eqn:E. simpl in Hok. subst r.
    unfold create_dbb_path in E.
    apply bind_ok_inv in E as (dt & w1 & Hdt & E).
    pose proof (reads_ok _ _ _ _ (reads_getitem _ _) Hdt) as ->.
    apply bind_ok_inv in E as (pat & w1 & Hpat & E).
    destruct dt as [|t| | |]; try done.
    pose proof (reads_ok _ _ _ _ (reads_getitem _ _) Hpat) as ->.
    apply bind_ok_inv in E as (fname & w1 & Hfn & E).
    pose proof (reads_ok _ _ _ _ (reads_getitem _ _) Hfn) as ->.
    apply bind_ok_inv in E as (fn & w1 & Hs & E).
    pose proof (reads_ok _ _ _ _ (reads_as_str _) Hs) as ->.
    destruct fname as [|fn'| | |]; try done. injection Hs as ->.
    apply bind_ok_inv in E as (rel' & w1 & Hrel & E).
    pose proof (reads_ok _ _ _ _ (reads_create_rel_path _ _) Hrel) as ->.
    injection E as <- <- <-.
    unfold getitem in Hdt, Hpat, Hfn.
    destruct (src_info !! "dataset_type") eqn:E1; [| done]. injection Hdt as ->.
    destruct (dir_patterns cfg !! t) eqn:E2; [| done]. injection Hpat as ->.
    destruct (src_info !! "filename") eqn:E3; [| done]. injection Hfn as ->.
    exists fn, t, pat. split_and!; try done. rewrite basename_slash. apply basename_idem.
Qed.

End Destination.

(** ** The scanner and the handler at their edges *)

Lemma lookup_path_entry p w : lookup_path p w = (Ok (entry w p), w).
Proof. done. Qed.

(** X17.  When [delivery_dir] does not name a directory, [get_list_tarballs]
    raises and changes nothing: [FileNotFoundError] with the documented
    message when nothing is there, and [StopIteration], from
    [next(os.walk(...))], when a file is there. *)
Theorem get_list_tarballs_no_directory (delivery_dir : string) (w : World) :
  (∀ nd, entry w delivery_dir = Some nd → is_dir nd = false) →
  get_list_tarballs delivery_dir w =
    (Raise (match entry w delivery_dir with
            | Some _ => StopIteration
            | None => FileNotFoundError ("Delivery directory does not exist: " +:+ delivery_dir)
            end), w).
Proof.
  intros Hfile. unfold get_list_tarballs.
  erewrite bind_ok; last first.
  { unfold os_path_exists. erewrite bind_ok by apply lookup_path_entry. reflexivity. }
  destruct (entry w delivery_dir) as [nd|] eqn:E.
  - rewrite bool_decide_true by eauto. cbn [negb].
    erewrite bind_raise; [reflexivity |].
    unfold walk_filenames. erewrite bind_ok; last first.
    { unfold stat. erewrite bind_ok by apply lookup_path_entry. rewrite E. reflexivity. }
    by rewrite (Hfile nd eq_refl).
  - rewrite bool_decide_false by (by intros [? ?]). done.
Qed.

Section Handler.

Context `{!Collaborators}.

(** X18.  A tarball that is not there is skipped: [handle_tarball] returns
    without an error and the world is as it was. *)
Theorem handle_tarball_skips_missing (tar_filename scratch_dir : string) (cfg : config)
    (w : World) :
  entry w tar_filename = None →
  handle_tarball tar_filename scratch_dir cfg w = (Ok tt, w).
Proof.
  intros Hnone. unfold handle_tarball.
  erewrite guarded_ok; last first.
  { unfold os_path_exists. erewrite bind_ok by apply lookup_path_entry. reflexivity. }
  rewrite Hnone. rewrite bool_decide_false by (by intros [? ?]). done.
Qed.

(** X19.  When the [try] block of [handle_tarball] has stored the payload,
    and the tarball is still a file of the staging area, the function
    returns; the tarball is removed and no other path changes; the end time
    of the registration process is set to the present time; and everything
    pending in the transaction is committed, the [dataset], [datastore_dbb]
    and [dbb_bad_file] rows as they were pending. *)
Theorem handle_tarball_commits (tar_filename scratch_dir : string) (cfg : config)
    (w w1 : World) (nd0 nd : node) (process_id : Z) (src_info : gmap string pyval)
    (dbb_fullname : string) :
  entry w tar_filename = Some nd0 →
  upto_store tar_filename scratch_dir cfg w = (Ok (process_id, src_info, Some dbb_fullname), w1) →
  entry w1 tar_filename = Some nd →
  is_dir nd = false →
  ∃ w',
    handle_tarball tar_filename scratch_dir cfg w = (Ok tt, w') ∧
    fs w' = delete (resolve w1 tar_filename) (fs w1) ∧
    committed (dbh w') = pending (dbh w') ∧
    t_process (committed (dbh w')) = ended (clock w1) process_id (t_process (pending (dbh w1))) ∧
    t_dataset (committed (dbh w')) = t_dataset (pending (dbh w1)) ∧
    t_datastore_dbb (committed (dbh w')) = t_datastore_dbb (pending (dbh w1)) ∧
    t_dbb_bad_file (committed (dbh w')) = t_dbb_bad_file (pending (dbh w1)).
Proof.
  intros Hthere Hup Hnd Hfile.
  unfold upto_store in Hup.
  apply bind_ok_inv in Hup as ([[filename digest] info] & wa & Hread & Hup).
  apply bind_ok_inv in Hup as (pid & wb & Hproc & Hup).
  apply bind_ok_inv in Hup as (stored & wc & Hstore & Hup).
  injection Hup as -> <- -> ->.
  unfold entry in Hnd. destruct (decide (tar_filename = EmptyString)) as [| Hne]; [done |].
  eexists. split.
  - unfold handle_tarball.
    erewrite guarded_ok; last first.
    { unfold os_path_exists. erewrite bind_ok by apply lookup_path_entry. reflexivity. }
    rewrite Hthere. rewrite bool_decide_true by eauto. cbn [negb].
    erewrite guarded_ok by exact Hread. cbv beta iota.
    erewrite guarded_ok by exact Hproc. cbv beta.
    erewrite guarded_ok by exact Hstore. cbv beta iota.
    erewrite guarded_ok; last first.
    { unfold finish. erewrite bind_ok by (by apply (os_unlink_ok tar_filename w1 nd)).
      reflexivity. }
    reflexivity.
  - wsimpl. done.
Qed.

End Handler.

(* ===================================================================== *)
(** * Part III: the properties on the sample data                         *)
(* ===================================================================== *)

(** One conjunct of a statement about sample data, by evaluation. *)
Ltac crunch :=
  first [ vm_compute; reflexivity
        | eexists; vm_compute; reflexivity
        | eexists; split; vm_compute; reflexivity
        | vm_compute; congruence ].

Lemma sample_transfer_ready script :
  transfer_ready "x.fits" "/dbb/raw/20180501/x.fits" Sample.payload (Sample.world_x script).
Proof.
  unfold transfer_ready. split_and!; try done.
Defined.

(** The scanner on the sample staging directory: the two [.tar] files,
    oldest first; the text file, the [.tar.gz] file, the subdirectory and the
    file inside it are left out. *)
Example scan_sample :
  get_list_tarballs "/delivery" Sample.world_scan
  = (Ok ["/delivery/b.tar"; "/delivery/a.tar"], Sample.world_scan).
Proof. vm_compute. reflexivity. Qed.

Lemma get_list_tarballs_spec_witness :
  ∃ tarballs,
    get_list_tarballs "/delivery" Sample.world_scan = (Ok tarballs, Sample.world_scan) ∧
    (∀ p, p ∈ tarballs ↔
          ∃ name, p = PyStr.slash "/delivery" name ∧
                  PyStr.endswith name ".tar" = true ∧
                  file_directly_in Sample.world_scan "/delivery" name) ∧
    StronglySorted (fun p q => mtime_at Sample.world_scan p ≤ mtime_at Sample.world_scan q)
                   tarballs.
Proof.
  apply (get_list_tarballs_spec Sample.world_scan "/delivery" (mk_node Directory 10)).
  - done.
  - vm_compute. reflexivity.
  - reflexivity.
Defined.

(** One corrupted copy, then a good one: the engine notices, removes the bad
    destination, copies again and only then unlinks the source. *)
Example move_sample_retry :
  let r := @move_file_to_dbb Sample.toy "x.fits" (PStr "FITS-A") (PStr "md5")
             "/dbb/raw/20180501/x.fits" 5 (Sample.world_x [Corrupt "garbage"; Faithful]) in
  r.1 = Ok tt ∧
  trace r.2 = [EvCopy "/scratch/a1/x.fits" "/dbb/raw/20180501/x.fits"; EvSleep 5;
               EvUnlink "/dbb/raw/20180501/x.fits";
               EvCopy "/scratch/a1/x.fits" "/dbb/raw/20180501/x.fits";
               EvUnlink "/scratch/a1/x.fits"] ∧
  fs r.2 !! "/dbb/raw/20180501/x.fits" = Some Sample.payload ∧
  fs r.2 !! "/scratch/a1/x.fits" = None.
Proof. cbv zeta. split_and!; crunch. Qed.

Lemma move_file_to_dbb_verified_witness :
  let w := Sample.world_x [Corrupt "garbage"; Faithful] in
  let src := "x.fits" in
  let dst := "/dbb/raw/20180501/x.fits" in
  let c := "FITS-A" in
  (∀ w1, @loop_pass Sample.toy src (PStr c) (PStr "md5") dst w = (Ok false, w1) →
         fs w1 !! resolve w dst = None ∧ fs w1 !! resolve w src = Some Sample.payload) ∧
  ((∃ w1 x,
      @copy_loop Sample.toy 5 src (PStr c) (PStr "md5") dst w = (Ok true, w1) ∧
      fs w1 !! resolve w src = Some Sample.payload ∧
      fs w1 !! resolve w dst = Some x ∧ @chksum Sample.toy "md5" (n_data x) = c ∧
      (copies (trace w1) ≤ copies (trace w) + 5)%nat ∧
      @move_file_to_dbb Sample.toy src (PStr c) (PStr "md5") dst 5 w =
        (Ok tt, log_event (EvUnlink (resolve w src))
                  (set_fs (delete (resolve w src)) w1)))
   ∨
   (∃ w1 msg,
      @move_file_to_dbb Sample.toy src (PStr c) (PStr "md5") dst 5 w = (Raise (IOError msg), w1) ∧
      fs w1 !! resolve w src = Some Sample.payload ∧
      copies (trace w1) = (copies (trace w) + 5)%nat ∧
      (5%nat ≠ O → fs w1 !! resolve w dst = None))).
Proof.
  intros w src dst c.
  apply (@move_file_to_dbb_verified Sample.toy src c "md5" dst Sample.payload 5 w).
  apply sample_transfer_ready.
Defined.

(** The claim C3 as it is worded fails when no expected checksum is given:
    the one copy leaves other bytes at the destination, no checksum is
    compared, the call returns and the source is gone. *)
Lemma move_file_to_dbb_none_deletes_unverified :
  let w := Sample.world_x [Corrupt "garbage"] in
  let r := @move_file_to_dbb Sample.toy "x.fits" PNone (PStr "md5")
             "/dbb/raw/20180501/x.fits" 5 w in
  r.1 = Ok tt ∧
  fs w !! "/scratch/a1/x.fits" = Some Sample.payload ∧
  fs r.2 !! "/scratch/a1/x.fits" = None ∧
  ∃ x, fs r.2 !! "/dbb/raw/20180501/x.fits" = Some x ∧
       PStr (@chksum Sample.toy "md5" (n_data x)) ≠ PNone ∧
       @chksum Sample.toy "md5" (n_data x) ≠ @chksum Sample.toy "md5" (n_data Sample.payload).
Proof.
  cbv zeta. split_and!; try crunch.
  eexists. split_and!; crunch.
Qed.

Lemma move_file_to_dbb_unchecked_witness :
  let w := Sample.world_x [Fail (Some "FI"); Corrupt "garbage"] in
  let src := "x.fits" in
  let dst := "/dbb/raw/20180501/x.fits" in
  let x := mk_node (Bytes "garbage") 100 in
  ∃ w1 w',
    @copy_loop Sample.toy 5 src PNone (PStr "md5") dst w = (Ok true, w1) ∧
    fs w1 !! resolve w dst = Some x ∧
    copies (trace w1) = (copies (trace w) + 2)%nat ∧
    @move_file_to_dbb Sample.toy src PNone (PStr "md5") dst 5 w = (Ok tt, w') ∧
    trace w' = trace w1 ++ [EvUnlink (resolve w src)] ∧
    fs w' !! resolve w src = None ∧
    fs w' !! resolve w dst = Some x.
Proof.
  intros w src dst x.
  apply (@move_file_to_dbb_unchecked Sample.toy src "md5" dst Sample.payload 5 w
           [Fail (Some "FI")] (Corrupt "garbage") [] x).
  - apply sample_transfer_ready.
  - reflexivity.
  - repeat constructor.
  - reflexivity.
  - simpl. lia.
Defined.


(** C1, at the failing input: a good bundle, ingested.  When
    [save_file_datastore] has returned, the dataset and datastore rows are
    pending and not committed; the next statement removes the tarball from
    the staging area, and the commit comes two statements later. *)
Theorem archive_removed_before_commit :
  let tar := "/delivery/a.tar" in
  let r := @upto_store Sample.toy tar "/scratch/a1" Sample.cfg Sample.world_a in
  let w3 := r.2 in
  let w4 := (os_unlink tar w3).2 in
  r.1 = Ok (1, Sample.src_info_a tar 1, Some "/dbb/raw/20180501/x.fits") ∧
  length (t_dataset (pending (dbh w3))) = 1%nat ∧
  length (t_datastore_dbb (pending (dbh w3))) = 1%nat ∧
  is_Some (fs w3 !! tar) ∧
  fs w4 !! tar = None ∧
  t_dataset (committed (dbh w4)) = [] ∧
  t_datastore_dbb (committed (dbh w4)) = [] ∧
  (finish tar 1 w3).1 = Ok tt ∧
  trace (finish tar 1 w3).2 = trace w3 ++ [EvUnlink tar; EvUpdate "process"; EvCommit] ∧
  (@handle_tarball Sample.toy tar "/scratch/a1" Sample.cfg Sample.world_a).1 = Ok tt ∧
  trace (@handle_tarball Sample.toy tar "/scratch/a1" Sample.cfg Sample.world_a).2 =
    [EvExtract tar "/scratch/a1"; EvInsert "process"; EvInsert "file_registration";
     EvInsert "file_registration_lookup"; EvCommit; EvInsert "dataset";
     EvCopy "/scratch/a1/x.fits" "/dbb/raw/20180501/x.fits";
     EvUnlink "/scratch/a1/x.fits"; EvInsert "datastore_dbb";
     EvUnlink tar; EvUpdate "process"; EvCommit].
Proof.
  cbv zeta. split_and!; crunch.
Qed.

(** What the order costs.  Were [save_end_time] or [commit] to raise in that
    state, the [except] clause of the same function would run with the
    tarball already removed: it rolls back, removes the file it had stored in
    the archive, and fails on the size of the tarball.  The payload is then
    in no place: not in the staging area, not in the archive, not in the
    bad-file area, not in the scratch directory. *)
Example failure_after_removal_loses_payload :
  let tar := "/delivery/a.tar" in
  let dst := "/dbb/raw/20180501/x.fits" in
  let r := @upto_store Sample.toy tar "/scratch/a1" Sample.cfg Sample.world_a in
  let w4 := (os_unlink tar r.2).2 in
  let h := except_clause Sample.cfg (Some (Sample.src_info_a tar 1)) (Some dst)
             (IOError "ORA-03113") w4 in
  h.1 = Raise (FileNotFoundError tar) ∧
  fs h.2 !! tar = None ∧
  fs h.2 !! dst = None ∧
  fs h.2 !! "/bad/2018/05/a.tar" = None ∧
  fs h.2 !! "/scratch/a1/x.fits" = None ∧
  t_dataset (pending (dbh h.2)) = [] ∧
  t_dbb_bad_file (pending (dbh h.2)) = [].
Proof.
  cbv zeta. split_and!; crunch.
Qed.

(** C2, at the failing input: the archive already holds a file at the
    resolved destination.  [save_file_datastore] quarantines the bundle and
    goes on: the payload is copied over the archived file; then
    [os.remove(tar_filename)] fails, the [except] clause removes the
    destination and fails in turn, and a [FileNotFoundError] leaves
    [handle_tarball].  The archived file is lost. *)
Theorem existing_destination_overwritten :
  let tar := "/delivery/a.tar" in
  let dst := "/dbb/raw/20180501/x.fits" in
  let w := Sample.world_taken in
  let r := @upto_store Sample.toy tar "/scratch/a1" Sample.cfg w in
  let w3 := r.2 in
  let h := @handle_tarball Sample.toy tar "/scratch/a1" Sample.cfg w in
  fs w !! dst = Some (mk_node (Bytes "ARCHIVED") 7) ∧
  r.1 = Ok (1, Sample.src_info_a tar 1, Some dst) ∧
  fs w3 !! dst = Some (mk_node (Bytes "FITS-A") 100) ∧
  is_Some (fs w3 !! "/bad/2018/05/a.tar") ∧
  (fun row : gmap string pyval => row !! "rejected_msg") <$> t_dbb_bad_file (committed (dbh w3))
    = [Some (PStr "Consistency error.  Already on disk in DBB")] ∧
  h.1 = Raise (FileNotFoundError tar) ∧
  fs h.2 !! dst = None ∧
  trace h.2 =
    [EvExtract tar "/scratch/a1"; EvInsert "process"; EvInsert "file_registration";
     EvInsert "file_registration_lookup"; EvCommit; EvInsert "dataset"; EvRollback;
     EvMove tar "/bad/2018/05/a.tar"; EvInsert "dbb_bad_file"; EvCommit;
     EvCopy "/scratch/a1/x.fits" dst; EvUnlink "/scratch/a1/x.fits";
     EvInsert "datastore_dbb"; EvRollback; EvUnlink dst; EvRollback].
Proof.
  cbv zeta. split_and!; crunch.
Qed.

(** C7, at the failing input: a bundle whose payload does not match its
    digest fails the integrity check before the info file is read.  The
    [except] clause calls [handle_bad_file] with [src_info = None]; a
    [TypeError] leaves [handle_tarball], the tarball stays in the staging
    area and [dbb_bad_file] stays empty. *)
Theorem damaged_bundle_not_recorded :
  let tar := "/delivery/a.tar" in
  let h := @handle_tarball Sample.toy tar "/scratch/a1" Sample.cfg
             (Sample.world_with Sample.bundle_damaged) in
  h.1 = Raise not_subscriptable ∧
  is_Some (fs h.2 !! tar) ∧
  t_dbb_bad_file (committed (dbh h.2)) = [] ∧
  t_dbb_bad_file (pending (dbh h.2)) = [] ∧
  trace h.2 = [EvExtract tar "/scratch/a1"; EvRollback; EvRollback].
Proof. cbv zeta. split_and!; crunch. Qed.

(** A second failing input of C7: the info file is read, but its checksum
    and the digest's disagree, so the process is not resolved yet when the
    [except] clause runs.  [handle_bad_file] moves the tarball, then
    [save_bad_file_db] raises [KeyError] on [src_info["process_id"]]: no row
    is written for the tarball that now lies in the bad-file area. *)
Example disagreeing_bundle_not_recorded :
  let tar := "/delivery/a.tar" in
  let h := @handle_tarball Sample.toy tar "/scratch/a1" Sample.cfg
             (Sample.world_with Sample.bundle_disagree) in
  h.1 = Raise (KeyError "process_id") ∧
  fs h.2 !! tar = None ∧
  is_Some (fs h.2 !! "/bad/2018/05/a.tar") ∧
  t_dbb_bad_file (committed (dbh h.2)) = [] ∧
  t_dbb_bad_file (pending (dbh h.2)) = [].
Proof. cbv zeta. split_and!; crunch. Qed.

(** Three names, one of each kind: [get_filenames] gives the same answer in
    whatever order they are listed. *)
Lemma classify_one_of_each files p i d :
  files ≡ₚ [p; i; d] →
  is_payload p → is_info i → is_digest d →
  classify files (None, None, None) = (Some p, Some i, Some d).
Proof.
  intros Hperm Hp Hi Hd. rewrite classify_last.
  assert (¬ is_info p ∧ ¬ is_digest p ∧ ¬ is_payload i ∧ ¬ is_digest i ∧
          ¬ is_payload d ∧ ¬ is_info d) as (? & ? & ? & ? & ? & ?).
  { unfold is_info, is_digest, is_payload in *. intuition congruence. }
  assert (filter is_payload files = [p]) as ->.
  { apply Permutation_singleton_r. rewrite Hperm, !filter_cons, filter_nil.
    repeat match goal with
           | |- context [decide ?P] =>
               first [rewrite (decide_True (P := P)) by done
                     | rewrite (decide_False (P := P)) by done]
           end.
    done. }
  assert (filter is_info files = [i]) as ->.
  { apply Permutation_singleton_r. rewrite Hperm, !filter_cons, filter_nil.
    repeat match goal with
           | |- context [decide ?P] =>
               first [rewrite (decide_True (P := P)) by done
                     | rewrite (decide_False (P := P)) by done]
           end.
    done. }
  assert (filter is_digest files = [d]) as ->.
  { apply Permutation_singleton_r. rewrite Hperm, !filter_cons, filter_nil.
    repeat match goal with
           | |- context [decide ?P] =>
               first [rewrite (decide_True (P := P)) by done
                     | rewrite (decide_False (P := P)) by done]
           end.
    done. }
  done.
Qed.

(** The claim C6 as it is worded fails.  The bundle holds four files and
    four files are present after the extraction; [glob.glob("*")] lists
    three of them, since the name of the fourth starts with a dot, one of
    each kind, so that the order of the listing does not matter; the bundle
    passes and is ingested. *)
Lemma four_files_ingested :
  let tar := "/delivery/a.tar" in
  let w := Sample.world_with Sample.bundle_four in
  let staged := (bind (untar2dir tar "/scratch/a1") (fun _ => os_chdir "/scratch/a1")) w in
  length (listdir (fs staged.2) "/scratch/a1") = 4%nat ∧
  (∃ files, (glob_star staged.2).1 = Ok files ∧
            files ≡ₚ ["x.fits"; "x.fits.info"; "x.fits.digest"] ∧
            ∀ listed, listed ≡ₚ files →
              classify listed (None, None, None)
              = (Some "x.fits", Some "x.fits.info", Some "x.fits.digest")) ∧
  (@read_bundle Sample.toy tar "/scratch/a1" w).1
    = Ok (Some "x.fits", Sample.digest_map_a, Sample.info_a) ∧
  let h := @handle_tarball Sample.toy tar "/scratch/a1" Sample.cfg w in
  h.1 = Ok tt ∧
  fs h.2 !! "/dbb/raw/20180501/x.fits" = Some (mk_node (Bytes "FITS-A") 100) ∧
  length (t_dataset (committed (dbh h.2))) = 1%nat.
Proof.
  assert (["x.fits.info"; "x.fits.digest"; "x.fits"]
          ≡ₚ ["x.fits"; "x.fits.info"; "x.fits.digest"]) as Hperm.
  { symmetry. etrans; [apply perm_swap |]. apply perm_skip, perm_swap. }
  cbv zeta. split_and!; try crunch.
  exists ["x.fits.info"; "x.fits.digest"; "x.fits"]. split_and!.
  - vm_compute. reflexivity.
  - exact Hperm.
  - intros listed Hl. apply classify_one_of_each.
    + by rewrite Hl.
    + split; vm_compute; reflexivity.
    + vm_compute; reflexivity.
    + split; vm_compute; reflexivity.
Qed.

(** A bundle with two files fails, with the [TypeError] of the handler and
    not with an error about the number of files. *)
Example two_files_fail :
  (@handle_tarball Sample.toy "/delivery/a.tar" "/scratch/a1" Sample.cfg
     (Sample.world_with Sample.bundle_two)).1 = Raise not_subscriptable ∧
  (@read_bundle Sample.toy "/delivery/a.tar" "/scratch/a1"
     (Sample.world_with Sample.bundle_two)).1 = Raise (KeyError "None").
Proof. split; crunch. Qed.

(** C8, at the failing input: a header with [date-obs] and no [obs-nite].
    The format passed to [strptime] holds ["%%H"], a percent sign and the
    letter H, where the hour is meant, so a timestamp never matches it; the
    fallback format is a date alone and refuses the time behind it.  Both at
    15:30, where the claim gives 20180501, and at 03:30, where it gives
    20180430, [get_observing_nite] raises [ValueError]. *)
Theorem observing_nite_of_timestamp_raises (w : World) :
  get_observing_nite {[ "date-obs" := PStr "2018-05-01T15:30:00.0" ]} w
    = (Raise (ValueError "unconverted data remains"), w) ∧
  get_observing_nite {[ "date-obs" := PStr "2018-05-01T03:30:00.0" ]} w
    = (Raise (ValueError "unconverted data remains"), w).
Proof. split; vm_compute; reflexivity. Qed.

(** With ["%H"] in place of ["%%H"] the same timestamps parse, and a date
    alone is taken as it is, without the day-boundary rule. *)
Example strptime_intended_format :
  Strptime.strptime "2018-05-01T03:30:00.0" "%Y-%m-%dT%H:%M:%S.%f"
    = Ok (mk_datetime 2018 5 1 3 30 0 0) ∧
  Strptime.strptime "2018-05-01T03:30:00.0" "%Y-%m-%dT%%H:%M:%S.%f"
    = Raise (ValueError "time data does not match format") ∧
  ∀ w, get_observing_nite {[ "date-obs" := PStr "2018-05-01" ]} w = (Ok (PStr "20180501"), w).
Proof. split_and!; try intros w; vm_compute; reflexivity. Qed.

Lemma registration_process_idempotent_witness :
  let w := Sample.world_a in
  let uuid := PStr "U1" in
  ∃ pid w1,
    registration_process Sample.info_a w = (Ok pid, w1) ∧
    match lookup_uuid (pending (dbh w)) uuid with
    | Some r => pid = lk_process_id r ∧ w1 = w
    | None =>
        pid = process_seq (dbh w) ∧
        length (t_process (pending (dbh w1))) = S (length (t_process (pending (dbh w)))) ∧
        committed (dbh w1) = pending (dbh w1) ∧
        ∀ info2 : gmap string pyval, info2 !! "uuid" = Some uuid →
          registration_process info2 (rolled_back w1) = (Ok pid, rolled_back w1)
    end ∧
    ∀ info2 : gmap string pyval, info2 !! "uuid" = Some uuid →
      registration_process info2 w1 = (Ok pid, w1).
Proof.
  intros w uuid.
  apply (registration_process_idempotent Sample.info_a uuid w).
  - reflexivity.
  - eexists. reflexivity.
  - eexists. reflexivity.
  - eexists. reflexivity.
  - eexists. reflexivity.
  - eexists. reflexivity.
Defined.

(** Bundle [b] brings the file name of bundle [a] under another uuid: it is
    quarantined as a duplicate and the row of [a] stays. *)
Lemma duplicate_filename_quarantined_witness :
  ∃ w',
    @handle_tarball Sample.toy "/delivery/b.tar" "/scratch/b1" Sample.cfg Sample.world_b
      = (Ok tt, w') ∧
    fs w' !! "/delivery/b.tar" = None ∧
    fs w' !! "/bad/2018/05/b.tar" = Some (mk_node Sample.bundle_b 150) ∧
    (∃ row, t_dbb_bad_file (committed (dbh w')) = [row] ∧
            row !! "rejected_msg" = Some (PStr "Duplicate file")) ∧
    t_dataset (committed (dbh w')) = t_dataset Sample.tables_after_a ∧
    t_datastore_dbb (committed (dbh w')) = t_datastore_dbb Sample.tables_after_a.
Proof.
  pose (tar := "/delivery/b.tar").
  pose (digest := list_to_map [("x.fits.info", "INFO-B"); ("x.fits", "FITS-A")]
                  : gmap string string).
  pose (w1 := (@read_bundle Sample.toy tar "/scratch/b1" Sample.world_b).2).
  pose (si1 := <["tar_filename" := PStr tar]> Sample.info_b).
  pose (w2 := (resolve_process (Some "x.fits") digest si1 w1).2).
  destruct (@duplicate_filename_quarantined Sample.toy Sample.cfg tar "/scratch/b1"
              Sample.world_b w1 w2 (Some "x.fits") digest Sample.info_b 2 (PStr "x.fits")
              (mk_node Sample.bundle_b 150) (mk_node Sample.bundle_b 150)
              (mk_datastore 1 (PStr "x.fits") "raw/20180501" (PInt 6) (PStr "FITS-A")
                            (PStr "md5")))
    as (w' & Hrun & Hgone & Hthere & _ & Hrow & Hmsg & Hds & _ & Hst & _).
  - done.
  - vm_compute. reflexivity.
  - vm_compute. reflexivity.
  - vm_compute. reflexivity.
  - vm_compute. reflexivity.
  - vm_compute. reflexivity.
  - vm_compute. reflexivity.
  - unfold recordable. split_and!; crunch.
  - unfold quarantine_ready. split_and!.
    + done.
    + vm_compute. reflexivity.
    + vm_compute. congruence.
    + intros x. vm_compute. congruence.
    + intros x. vm_compute. congruence.
  - exists w'. split; [exact Hrun |].
    split; [revert Hgone; vm_compute; exact id |].
    split; [revert Hthere; vm_compute; exact id |].
    split; [| split].
    + assert (t_dbb_bad_file (committed (dbh w2)) = []) as Hnone
        by (vm_compute; reflexivity).
      rewrite Hnone in Hrow. eexists. split; [exact Hrow | exact Hmsg].
    + rewrite Hds. vm_compute. reflexivity.
    + rewrite Hst. vm_compute. reflexivity.
Defined.

Lemma read_bundle_needs_each_kind_witness :
  let tar := "/delivery/a.tar" in
  let w := Sample.world_a in
  ∃ w0 files,
    bind (untar2dir tar "/scratch/a1") (fun _ => os_chdir "/scratch/a1") w = (Ok tt, w0) ∧
    glob_star w0 = (Ok files, w0) ∧
    (∃ x, x ∈ files ∧ is_payload x) ∧
    (∃ x, x ∈ files ∧ is_info x) ∧
    (∃ x, x ∈ files ∧ is_digest x) ∧
    (3 ≤ length files)%nat.
Proof.
  intros tar w.
  apply (@read_bundle_needs_each_kind Sample.toy tar "/scratch/a1" w
           (@read_bundle Sample.toy tar "/scratch/a1" w).2
           (Some "x.fits", Sample.digest_map_a, Sample.info_a)).
  vm_compute. reflexivity.
Defined.

(** ** The further properties on the sample data *)

Lemma read_digest_line_without_tab_witness :
  read_digest "FITS-A x.fits" Sample.world_a
    = (Raise (IndexError "list index out of range"), Sample.world_a).
Proof.
  apply (read_digest_line_without_tab "FITS-A x.fits" Sample.world_a).
  apply Exists_cons_hd. reflexivity.
Defined.

Lemma read_digest_last_line_wins_witness :
  ∃ d, read_digest Sample.digest_a Sample.world_a = (Ok d, Sample.world_a) ∧
       ∀ f, d !! f =
            last (filter (fun line => digest_fields line !! 1%nat = Some f)
                         (readlines Sample.digest_a))
            ≫= (fun line => digest_fields line !! 0%nat).
Proof.
  apply (read_digest_last_line_wins Sample.digest_a Sample.world_a).
  repeat constructor; vm_compute; discriminate.
Defined.

Lemma move_file_to_dbb_confined_witness :
  let w := Sample.world_x [Corrupt "garbage"; Faithful] in
  let src := "x.fits" in
  let dst := "/dbb/raw/20180501/x.fits" in
  let w' := (@move_file_to_dbb Sample.toy src (PStr "FITS-A") (PStr "md5") dst 5 w).2 in
  cwd w' = cwd w ∧ dbh w' = dbh w ∧
  ∀ p, away_from p (resolve w src) → away_from p (resolve w dst) → fs w' !! p = fs w !! p.
Proof.
  intros w src dst.
  apply (@move_file_to_dbb_confined Sample.toy src (PStr "FITS-A") (PStr "md5") dst 5 w).
  - intros x. vm_compute. congruence.
  - vm_compute. congruence.
Defined.

Lemma move_file_to_dbb_source_missing_witness :
  let w := Sample.world_x [] in
  let src := "y.fits" in
  let dst := "/dbb/raw/20180501/x.fits" in
  ∃ w1,
    @move_file_to_dbb Sample.toy src (PStr "FITS-A") (PStr "md5") dst 5 w =
      (Raise (IOError ("Cannot cp file (" +:+ src +:+ "->" +:+ dst +:+ ")")), w1) ∧
    copies (trace w1) = (copies (trace w) + 5)%nat ∧
    fs w1 !! resolve w dst = None ∧
    fs w1 !! resolve w src = None.
Proof.
  intros w src dst.
  apply (@move_file_to_dbb_source_missing Sample.toy src (PStr "FITS-A") (PStr "md5") dst 5 w).
  - unfold source_missing. split_and!.
    + done.
    + done.
    + vm_compute. reflexivity.
    + vm_compute. congruence.
    + intros x. vm_compute. congruence.
    + intros x. vm_compute. congruence.
  - done.
Defined.

Lemma move_file_to_dbb_retries_witness :
  let w := Sample.world_x [Fail None; Corrupt "garbage"; Faithful; Corrupt "unused"] in
  let src := "x.fits" in
  let dst := "/dbb/raw/20180501/x.fits" in
  ∃ w',
    @move_file_to_dbb Sample.toy src (PStr "FITS-A") (PStr "md5") dst 5 w = (Ok tt, w') ∧
    copies (trace w') = (copies (trace w) + 3)%nat ∧
    io_script w' = [Corrupt "unused"] ∧
    fs w' !! resolve w src = None ∧
    fs w' !! resolve w dst = Some Sample.payload.
Proof.
  intros w src dst.
  apply (@move_file_to_dbb_retries Sample.toy src "FITS-A" "md5" dst Sample.payload 5 w
           [Fail None; Corrupt "garbage"] Faithful [Corrupt "unused"] Sample.payload).
  - apply sample_transfer_ready.
  - reflexivity.
  - repeat constructor.
  - reflexivity.
  - reflexivity.
  - simpl. lia.
Defined.

Lemma save_bad_file_db_commits_witness :
  let bad_info : gmap string pyval :=
    list_to_map [("uniq_filename", PStr "a.tar"); ("relpath", PStr "2018/05");
                 ("disk_usage", PInt 42); ("rejected_msg", PStr "Duplicate file");
                 ("rejected_date", PDatetime Sample.now);
                 ("delivery_date", PFromTimestamp 1525188600)] in
  ∃ row w',
    db_funcs.save_bad_file_db bad_info None Sample.world_a = (Ok tt, w') ∧
    committed (dbh w') = add_bad_file row (pending (dbh Sample.world_a)) ∧
    pending (dbh w') = committed (dbh w') ∧
    fs w' = fs Sample.world_a ∧
    (∀ k, k ∈ bad_columns → row !! k = bad_info !! k) ∧
    dom row = list_to_set bad_columns.
Proof.
  intros bad_info.
  apply (save_bad_file_db_commits bad_info None Sample.world_a).
  - repeat constructor; eexists; vm_compute; reflexivity.
  - intros si [=].
Defined.

Lemma save_bad_file_db_missing_key_witness :
  let bad_info : gmap string pyval :=
    list_to_map [("uniq_filename", PStr "a.tar"); ("relpath", PStr "2018/05")] in
  ∃ k, db_funcs.save_bad_file_db bad_info None Sample.world_a
         = (Raise (KeyError k), Sample.world_a) ∧
       (k ∈ bad_columns ∧ bad_info !! k = None ∨
        ∃ si, @None (gmap string pyval) = Some si ∧ k ∈ "process_id" :: src_columns ∧
              si !! k = None).
Proof.
  intros bad_info.
  apply (save_bad_file_db_missing_key bad_info None Sample.world_a).
  left. apply Exists_cons_tl, Exists_cons_tl, Exists_cons_hd. vm_compute. reflexivity.
Defined.

Lemma save_datastore_info_then_exists_witness :
  let w := Sample.world_a in
  let fname := PStr "x.fits" in
  ∃ w1,
    db_funcs.save_datastore_info Sample.info_a "raw/20180501" 1 w = (Ok tt, w1) ∧
    db_funcs.filename_exists_in_dbb fname w1 = (Ok true, w1) ∧
    (∀ other, other ≠ fname →
       db_funcs.filename_exists_in_dbb other w1 = (Ok (has_filename (pending (dbh w)) other), w1)) ∧
    committed (dbh w1) = committed (dbh w) ∧
    db_funcs.filename_exists_in_dbb fname (rolled_back w1)
      = (Ok (has_filename (committed (dbh w)) fname), rolled_back w1).
Proof.
  intros w fname.
  apply (save_datastore_info_then_exists Sample.info_a "raw/20180501" 1 fname w).
  - vm_compute. reflexivity.
  - eexists. vm_compute. reflexivity.
  - eexists. vm_compute. reflexivity.
  - eexists. vm_compute. reflexivity.
Defined.

Lemma sample_quarantine_ready :
  quarantine_ready Sample.cfg "/delivery/a.tar" (mk_node Sample.bundle_a 100) Sample.world_a.
Proof.
  unfold quarantine_ready. split_and!.
  - done.
  - vm_compute. reflexivity.
  - vm_compute. congruence.
  - intros x. vm_compute. congruence.
  - intros x. vm_compute. congruence.
Defined.

Lemma quarantine_records_bundle_witness :
  let w := Sample.world_a in
  let tar := "/delivery/a.tar" in
  let si := Sample.src_info_a tar 1 in
  let nd := mk_node Sample.bundle_a 100 in
  let msg := "ValueError: bad bundle" in
  ∃ w',
    handle_bad_file Sample.cfg (Some si) msg w = (Ok tt, w') ∧
    committed (dbh w') =
      add_bad_file (bad_file_row si tar msg (content_size (n_data nd)) w) (committed (dbh w)) ∧
    pending (dbh w') = committed (dbh w') ∧
    bad_file_row si tar msg (content_size (n_data nd)) w !! "rejected_msg" = Some (PStr msg) ∧
    bad_file_row si tar msg (content_size (n_data nd)) w !! "delivery_date" = None ∧
    fs w' !! resolve w tar = None ∧
    fs w' !! resolve w (bad_dest Sample.cfg w tar) = Some nd ∧
    (∀ p, away_from p (resolve w tar) → away_from p (resolve w (bad_dest Sample.cfg w tar)) →
          fs w' !! p = fs w !! p).
Proof.
  intros w tar si nd msg.
  apply (quarantine_records_bundle Sample.cfg si tar msg nd w).
  - unfold recordable. split_and!; crunch.
  - apply sample_quarantine_ready.
Defined.

Lemma handle_bad_file_unresolved_witness :
  let w := Sample.world_a in
  let tar := "/delivery/a.tar" in
  let si := <["tar_filename" := PStr tar]> Sample.info_a in
  let nd := mk_node Sample.bundle_a 100 in
  ∃ w',
    handle_bad_file Sample.cfg (Some si) "ValueError: bad bundle" w
      = (Raise (KeyError "process_id"), w') ∧
    fs w' !! resolve w tar = None ∧
    fs w' !! resolve w (bad_dest Sample.cfg w tar) = Some nd ∧
    dbh w' = dbh (rolled_back w) ∧
    t_dbb_bad_file (pending (dbh w')) = t_dbb_bad_file (committed (dbh w)).
Proof.
  intros w tar si nd.
  apply (handle_bad_file_unresolved Sample.cfg si tar "ValueError: bad bundle" nd w).
  - unfold unresolved. split_and!.
    + vm_compute. reflexivity.
    + eexists. vm_compute. reflexivity.
    + repeat constructor; eexists; vm_compute; reflexivity.
    + vm_compute. reflexivity.
  - apply sample_quarantine_ready.
Defined.

Lemma bundle_checksum_is_payload_md5_witness :
  let tar := "/delivery/a.tar" in
  let w1 := (@read_bundle Sample.toy tar "/scratch/a1" Sample.world_a).2 in
  let w2 := (resolve_process (Some "x.fits") Sample.digest_map_a
               (<["tar_filename" := PStr tar]> Sample.info_a) w1).2 in
  ∃ p nd,
    Some "x.fits" = Some p ∧
    fs w1 !! resolve w1 p = Some nd ∧ is_dir nd = false ∧
    Sample.digest_map_a !! p = Some (@chksum Sample.toy "md5" (n_data nd)) ∧
    Sample.info_a !! "chksum" = Some (PStr (@chksum Sample.toy "md5" (n_data nd))) ∧
    fs w2 = fs w1 ∧ cwd w2 = cwd w1.
Proof.
  intros tar w1 w2.
  apply (@bundle_checksum_is_payload_md5 Sample.toy tar "/scratch/a1" Sample.world_a w1 w2
           (Some "x.fits") Sample.digest_map_a Sample.info_a 1).
  - vm_compute. reflexivity.
  - vm_compute. reflexivity.
Defined.

Lemma create_rel_path_values_witness :
  let w := Sample.world_x [] in
  let pattern := "raw/{obsnite}" in
  w = w ∧
  ∃ data header vals,
    read_file "x.fits" w = (Ok data, w) ∧
    @pyfits_header Sample.toy data = Some header ∧
    @str_format Sample.toy pattern vals = Some "raw/20180501" ∧
    dom vals = list_to_set (get_path_var_names pattern) ∧
    ∀ name, name ∈ get_path_var_names pattern →
      ∃ v, path_value header name w = (Ok v, w) ∧ vals !! name = Some v.
Proof.
  intros w pattern.
  apply (@create_rel_path_values Sample.toy "x.fits" pattern w w "raw/20180501").
  vm_compute. reflexivity.
Defined.

Lemma get_list_tarballs_no_directory_witness :
  get_list_tarballs "/delivery/a.tar" Sample.world_a = (Raise StopIteration, Sample.world_a).
Proof.
  apply (get_list_tarballs_no_directory "/delivery/a.tar" Sample.world_a).
  intros nd. vm_compute. intros [= <-]. reflexivity.
Defined.

Lemma handle_tarball_skips_missing_witness :
  @handle_tarball Sample.toy "/delivery/none.tar" "/scratch/n1" Sample.cfg Sample.world_a
    = (Ok tt, Sample.world_a).
Proof.
  apply (@handle_tarball_skips_missing Sample.toy "/delivery/none.tar" "/scratch/n1"
           Sample.cfg Sample.world_a).
  vm_compute. reflexivity.
Defined.

Lemma handle_tarball_commits_witness :
  let tar := "/delivery/a.tar" in
  let w := Sample.world_a in
  let w1 := (@upto_store Sample.toy tar "/scratch/a1" Sample.cfg w).2 in
  ∃ w',
    @handle_tarball Sample.toy tar "/scratch/a1" Sample.cfg w = (Ok tt, w') ∧
    fs w' = delete (resolve w1 tar) (fs w1) ∧
    committed (dbh w') = pending (dbh w') ∧
    t_process (committed (dbh w')) = ended (clock w1) 1 (t_process (pending (dbh w1))) ∧
    t_dataset (committed (dbh w')) = t_dataset (pending (dbh w1)) ∧
    t_datastore_dbb (committed (dbh w')) = t_datastore_dbb (pending (dbh w1)) ∧
    t_dbb_bad_file (committed (dbh w')) = t_dbb_bad_file (pending (dbh w1)).
Proof.
  intros tar w w1.
  apply (@handle_tarball_commits Sample.toy tar "/scratch/a1" Sample.cfg w w1
           (mk_node Sample.bundle_a 100) (mk_node Sample.bundle_a 100) 1
           (Sample.src_info_a tar 1) "/dbb/raw/20180501/x.fits").
  - vm_compute. reflexivity.
  - vm_compute. reflexivity.
  - vm_compute. reflexivity.
  - reflexivity.
Defined.

Lemma get_observing_nite_no_shift_witness :
  get_observing_nite {[ "date-obs" := PStr "2018-05-01" ]} Sample.world_a =
    (match Strptime.strptime "2018-05-01" "%Y-%m-%d" with
     | Ok d => Ok (PStr (Strptime.strftime_Ymd d))
     | Raise e => Raise e
     end, Sample.world_a).
Proof.
  apply (get_observing_nite_no_shift {[ "date-obs" := PStr "2018-05-01" ]} "2018-05-01"
           Sample.world_a).
  - vm_compute. reflexivity.
  - vm_compute. reflexivity.
  - reflexivity.
Defined.
